(** * ASO-CLI: the authenticated-request engine of cmd/aads-aso

    A shallow embedding of the Go sources [cmd/aads-aso/cm_keywords.go] and
    [cmd/aads-aso/adam_id.go]: byte strings are [string], Go's [int] and
    [int64] are [Z], an [error] is an inductive value that keeps its message
    and what it wraps, and the effects of a command (HTTP requests, the
    interactive cookie refresh, the lines written to stderr) are threaded
    through an explicit event log.  The definitions come first, module by
    module; the properties follow. *)

From Stdlib Require Import ZArith NArith Ascii String List Bool Lia.
From Stdlib Require Import Sorting.Sorted Sorting.Permutation.
From Stdlib Require Import Numbers.DecimalString.
From Stdlib Require Structures.OrdersEx.
From stdpp Require Import gmap strings list.

Set Warnings "-register-all".

Local Open Scope string_scope.
Local Open Scope list_scope.

(** ** Bytes and runes (Go's [unicode/utf8]) *)

Module utf8.

Definition byte (c : ascii) : N := N_of_ascii c.
Definition chr (n : N) : ascii := ascii_of_N n.

Definition RuneError : N := 0xFFFD%N.
Definition RuneSelf : N := 0x80%N.

Definition between (lo hi b : N) : bool := (lo <=? b)%N && (b <=? hi)%N.
Definition isCont (b : N) : bool := between 0x80 0xBF b.
Definition low6 (b : N) : N := N.land b 0x3F.

(** [DecodeRuneInString]: the first rune of [s] and its width in bytes; an
    ill-formed or truncated sequence is [RuneError] of width one. *)
Definition DecodeRuneInString (s : string) : N * nat :=
  match s with
  | EmptyString => (RuneError, 0)
  | String c0 r0 =>
    let b0 := byte c0 in
    if (b0 <? 0x80)%N then (b0, 1)
    else if (b0 <? 0xC2)%N then (RuneError, 1)
    else if (b0 <? 0xE0)%N then
      match r0 with
      | String c1 _ =>
        if isCont (byte c1)
        then (N.lor (N.shiftl (N.land b0 0x1F) 6) (low6 (byte c1)), 2)
        else (RuneError, 1)
      | _ => (RuneError, 1)
      end
    else if (b0 <? 0xF0)%N then
      match r0 with
      | String c1 (String c2 _) =>
        let lo := if (b0 =? 0xE0)%N then 0xA0%N else 0x80%N in
        let hi := if (b0 =? 0xED)%N then 0x9F%N else 0xBF%N in
        if between lo hi (byte c1) && isCont (byte c2)
        then (N.lor (N.shiftl (N.land b0 0x0F) 12)
                (N.lor (N.shiftl (low6 (byte c1)) 6) (low6 (byte c2))), 3)
        else (RuneError, 1)
      | _ => (RuneError, 1)
      end
    else if (b0 <? 0xF5)%N then
      match r0 with
      | String c1 (String c2 (String c3 _)) =>
        let lo := if (b0 =? 0xF0)%N then 0x90%N else 0x80%N in
        let hi := if (b0 =? 0xF4)%N then 0x8F%N else 0xBF%N in
        if between lo hi (byte c1) && isCont (byte c2) && isCont (byte c3)
        then (N.lor (N.shiftl (N.land b0 0x07) 18)
                (N.lor (N.shiftl (low6 (byte c1)) 12)
                   (N.lor (N.shiftl (low6 (byte c2)) 6) (low6 (byte c3)))), 4)
        else (RuneError, 1)
      | _ => (RuneError, 1)
      end
    else (RuneError, 1)
  end.

Fixpoint take (n : nat) (s : string) : string :=
  match n, s with
  | S n', String c r => String c (take n' r)
  | _, _ => EmptyString
  end.

Fixpoint drop (n : nat) (s : string) : string :=
  match n, s with
  | S n', String _ r => drop n' r
  | _, _ => s
  end.

(** The runes of a string, each with the bytes it was read from, as a
    [for _, r := range s] loop sees them. *)
Fixpoint runesFuel (fuel : nat) (s : string) : list (N * string) :=
  match fuel, s with
  | S fuel', String _ _ =>
    let '(r, w) := DecodeRuneInString s in
    (r, take w s) :: runesFuel fuel' (drop w s)
  | _, _ => []
  end.

Definition runes (s : string) : list (N * string) :=
  runesFuel (String.length s) s.

(** [EncodeRune]: surrogates and values past U+10FFFF encode as [RuneError]. *)
Definition EncodeRune (r : N) : string :=
  let r := if between 0xD800 0xDFFF r || (0x10FFFF <? r)%N then RuneError else r in
  if (r <? 0x80)%N then String (chr r) EmptyString
  else if (r <? 0x800)%N then
    String (chr (N.lor 0xC0 (N.shiftr r 6)))
      (String (chr (N.lor 0x80 (low6 r))) EmptyString)
  else if (r <? 0x10000)%N then
    String (chr (N.lor 0xE0 (N.shiftr r 12)))
      (String (chr (N.lor 0x80 (low6 (N.shiftr r 6))))
         (String (chr (N.lor 0x80 (low6 r))) EmptyString))
  else
    String (chr (N.lor 0xF0 (N.shiftr r 18)))
      (String (chr (N.lor 0x80 (low6 (N.shiftr r 12))))
         (String (chr (N.lor 0x80 (low6 (N.shiftr r 6))))
            (String (chr (N.lor 0x80 (low6 r))) EmptyString))).

Definition concat (l : list string) : string :=
  fold_right String.append EmptyString l.

End utf8.

(** ** Go's [unicode] package: the case of a rune *)

Module unicode.
Import utf8.

Definition MaxASCII : N := 0x7F%N.

(** A run of code points [lo], [lo + stride], ... up to [hi] whose images
    under a case mapping are [to], [to + stride], ...; Go's [CaseRanges]
    holds the same runs with the distances to the three cases. *)
Definition caseRange : Type := N * N * N * N.

(** [to]: the image of a rune under the first run that holds it, the rune
    itself when none does. *)
Fixpoint to (ranges : list caseRange) (r : N) : N :=
  match ranges with
  | [] => r
  | (lo, hi, stride, img) :: rest =>
    if between lo hi r && ((r - lo) mod stride =? 0)%N
    then (img + (r - lo))%N
    else to rest r
  end.

(** The runes past ASCII that have a lower-case form of their own: the
    simple lower-case mappings of Unicode 15.0.0, the tables of Go 1.21 and
    later (no case pair of 15.0.0 is new since 14.0.0). *)
Definition lowerRanges : list caseRange :=
  ([(0xC0, 0xD6, 1, 0xE0); (0xD8, 0xDE, 1, 0xF8); (0x100, 0x12E, 2, 0x101);
   (0x130, 0x130, 1, 0x69); (0x132, 0x136, 2, 0x133);
   (0x139, 0x147, 2, 0x13A); (0x14A, 0x176, 2, 0x14B);
   (0x178, 0x178, 1, 0xFF); (0x179, 0x17D, 2, 0x17A);
   (0x181, 0x181, 1, 0x253); (0x182, 0x184, 2, 0x183);
   (0x186, 0x186, 1, 0x254); (0x187, 0x187, 1, 0x188);
   (0x189, 0x18A, 1, 0x256); (0x18B, 0x18B, 1, 0x18C);
   (0x18E, 0x18E, 1, 0x1DD); (0x18F, 0x18F, 1, 0x259);
   (0x190, 0x190, 1, 0x25B); (0x191, 0x191, 1, 0x192);
   (0x193, 0x193, 1, 0x260); (0x194, 0x194, 1, 0x263);
   (0x196, 0x196, 1, 0x269); (0x197, 0x197, 1, 0x268);
   (0x198, 0x198, 1, 0x199); (0x19C, 0x19C, 1, 0x26F);
   (0x19D, 0x19D, 1, 0x272); (0x19F, 0x19F, 1, 0x275);
   (0x1A0, 0x1A4, 2, 0x1A1); (0x1A6, 0x1A6, 1, 0x280);
   (0x1A7, 0x1A7, 1, 0x1A8); (0x1A9, 0x1A9, 1, 0x283);
   (0x1AC, 0x1AC, 1, 0x1AD); (0x1AE, 0x1AE, 1, 0x288);
   (0x1AF, 0x1AF, 1, 0x1B0); (0x1B1, 0x1B2, 1, 0x28A);
   (0x1B3, 0x1B5, 2, 0x1B4); (0x1B7, 0x1B7, 1, 0x292);
   (0x1B8, 0x1B8, 1, 0x1B9); (0x1BC, 0x1BC, 1, 0x1BD);
   (0x1C4, 0x1C4, 1, 0x1C6); (0x1C5, 0x1C5, 1, 0x1C6);
   (0x1C7, 0x1C7, 1, 0x1C9); (0x1C8, 0x1C8, 1, 0x1C9);
   (0x1CA, 0x1CA, 1, 0x1CC); (0x1CB, 0x1DB, 2, 0x1CC);
   (0x1DE, 0x1EE, 2, 0x1DF); (0x1F1, 0x1F1, 1, 0x1F3);
   (0x1F2, 0x1F4, 2, 0x1F3); (0x1F6, 0x1F6, 1, 0x195);
   (0x1F7, 0x1F7, 1, 0x1BF); (0x1F8, 0x21E, 2, 0x1F9);
   (0x220, 0x220, 1, 0x19E); (0x222, 0x232, 2, 0x223);
   (0x23A, 0x23A, 1, 0x2C65); (0x23B, 0x23B, 1, 0x23C);
   (0x23D, 0x23D, 1, 0x19A); (0x23E, 0x23E, 1, 0x2C66);
   (0x241, 0x241, 1, 0x242); (0x243, 0x243, 1, 0x180);
   (0x244, 0x244, 1, 0x289); (0x245, 0x245, 1, 0x28C);
   (0x246, 0x24E, 2, 0x247); (0x370, 0x372, 2, 0x371);
   (0x376, 0x376, 1, 0x377); (0x37F, 0x37F, 1, 0x3F3);
   (0x386, 0x386, 1, 0x3AC); (0x388, 0x38A, 1, 0x3AD);
   (0x38C, 0x38C, 1, 0x3CC); (0x38E, 0x38F, 1, 0x3CD);
   (0x391, 0x3A1, 1, 0x3B1); (0x3A3, 0x3AB, 1, 0x3C3);
   (0x3CF, 0x3CF, 1, 0x3D7); (0x3D8, 0x3EE, 2, 0x3D9);
   (0x3F4, 0x3F4, 1, 0x3B8); (0x3F7, 0x3F7, 1, 0x3F8);
   (0x3F9, 0x3F9, 1, 0x3F2); (0x3FA, 0x3FA, 1, 0x3FB);
   (0x3FD, 0x3FF, 1, 0x37B); (0x400, 0x40F, 1, 0x450);
   (0x410, 0x42F, 1, 0x430); (0x460, 0x480, 2, 0x461);
   (0x48A, 0x4BE, 2, 0x48B); (0x4C0, 0x4C0, 1, 0x4CF);
   (0x4C1, 0x4CD, 2, 0x4C2); (0x4D0, 0x52E, 2, 0x4D1);
   (0x531, 0x556, 1, 0x561); (0x10A0, 0x10C5, 1, 0x2D00);
   (0x10C7, 0x10C7, 1, 0x2D27); (0x10CD, 0x10CD, 1, 0x2D2D);
   (0x13A0, 0x13EF, 1, 0xAB70); (0x13F0, 0x13F5, 1, 0x13F8);
   (0x1C90, 0x1CBA, 1, 0x10D0); (0x1CBD, 0x1CBF, 1, 0x10FD);
   (0x1E00, 0x1E94, 2, 0x1E01); (0x1E9E, 0x1E9E, 1, 0xDF);
   (0x1EA0, 0x1EFE, 2, 0x1EA1); (0x1F08, 0x1F0F, 1, 0x1F00);
   (0x1F18, 0x1F1D, 1, 0x1F10); (0x1F28, 0x1F2F, 1, 0x1F20);
   (0x1F38, 0x1F3F, 1, 0x1F30); (0x1F48, 0x1F4D, 1, 0x1F40);
   (0x1F59, 0x1F5F, 2, 0x1F51); (0x1F68, 0x1F6F, 1, 0x1F60);
   (0x1F88, 0x1F8F, 1, 0x1F80); (0x1F98, 0x1F9F, 1, 0x1F90);
   (0x1FA8, 0x1FAF, 1, 0x1FA0); (0x1FB8, 0x1FB9, 1, 0x1FB0);
   (0x1FBA, 0x1FBB, 1, 0x1F70); (0x1FBC, 0x1FBC, 1, 0x1FB3);
   (0x1FC8, 0x1FCB, 1, 0x1F72); (0x1FCC, 0x1FCC, 1, 0x1FC3);
   (0x1FD8, 0x1FD9, 1, 0x1FD0); (0x1FDA, 0x1FDB, 1, 0x1F76);
   (0x1FE8, 0x1FE9, 1, 0x1FE0); (0x1FEA, 0x1FEB, 1, 0x1F7A);
   (0x1FEC, 0x1FEC, 1, 0x1FE5); (0x1FF8, 0x1FF9, 1, 0x1F78);
   (0x1FFA, 0x1FFB, 1, 0x1F7C); (0x1FFC, 0x1FFC, 1, 0x1FF3);
   (0x2126, 0x2126, 1, 0x3C9); (0x212A, 0x212A, 1, 0x6B);
   (0x212B, 0x212B, 1, 0xE5); (0x2132, 0x2132, 1, 0x214E);
   (0x2160, 0x216F, 1, 0x2170); (0x2183, 0x2183, 1, 0x2184);
   (0x24B6, 0x24CF, 1, 0x24D0); (0x2C00, 0x2C2F, 1, 0x2C30);
   (0x2C60, 0x2C60, 1, 0x2C61); (0x2C62, 0x2C62, 1, 0x26B);
   (0x2C63, 0x2C63, 1, 0x1D7D); (0x2C64, 0x2C64, 1, 0x27D);
   (0x2C67, 0x2C6B, 2, 0x2C68); (0x2C6D, 0x2C6D, 1, 0x251);
   (0x2C6E, 0x2C6E, 1, 0x271); (0x2C6F, 0x2C6F, 1, 0x250);
   (0x2C70, 0x2C70, 1, 0x252); (0x2C72, 0x2C72, 1, 0x2C73);
   (0x2C75, 0x2C75, 1, 0x2C76); (0x2C7E, 0x2C7F, 1, 0x23F);
   (0x2C80, 0x2CE2, 2, 0x2C81); (0x2CEB, 0x2CED, 2, 0x2CEC);
   (0x2CF2, 0x2CF2, 1, 0x2CF3); (0xA640, 0xA66C, 2, 0xA641);
   (0xA680, 0xA69A, 2, 0xA681); (0xA722, 0xA72E, 2, 0xA723);
   (0xA732, 0xA76E, 2, 0xA733); (0xA779, 0xA77B, 2, 0xA77A);
   (0xA77D, 0xA77D, 1, 0x1D79); (0xA77E, 0xA786, 2, 0xA77F);
   (0xA78B, 0xA78B, 1, 0xA78C); (0xA78D, 0xA78D, 1, 0x265);
   (0xA790, 0xA792, 2, 0xA791); (0xA796, 0xA7A8, 2, 0xA797);
   (0xA7AA, 0xA7AA, 1, 0x266); (0xA7AB, 0xA7AB, 1, 0x25C);
   (0xA7AC, 0xA7AC, 1, 0x261); (0xA7AD, 0xA7AD, 1, 0x26C);
   (0xA7AE, 0xA7AE, 1, 0x26A); (0xA7B0, 0xA7B0, 1, 0x29E);
   (0xA7B1, 0xA7B1, 1, 0x287); (0xA7B2, 0xA7B2, 1, 0x29D);
   (0xA7B3, 0xA7B3, 1, 0xAB53); (0xA7B4, 0xA7C2, 2, 0xA7B5);
   (0xA7C4, 0xA7C4, 1, 0xA794); (0xA7C5, 0xA7C5, 1, 0x282);
   (0xA7C6, 0xA7C6, 1, 0x1D8E); (0xA7C7, 0xA7C9, 2, 0xA7C8);
   (0xA7D0, 0xA7D0, 1, 0xA7D1); (0xA7D6, 0xA7D8, 2, 0xA7D7);
   (0xA7F5, 0xA7F5, 1, 0xA7F6); (0xFF21, 0xFF3A, 1, 0xFF41);
   (0x10400, 0x10427, 1, 0x10428); (0x104B0, 0x104D3, 1, 0x104D8);
   (0x10570, 0x10594, 2, 0x10597); (0x10571, 0x10579, 2, 0x10598);
   (0x1057D, 0x10589, 2, 0x105A4); (0x1058D, 0x10591, 2, 0x105B4);
   (0x10595, 0x10595, 1, 0x105BC); (0x10C80, 0x10CB2, 1, 0x10CC0);
   (0x118A0, 0x118BF, 1, 0x118C0); (0x16E40, 0x16E5F, 1, 0x16E60);
   (0x1E900, 0x1E921, 1, 0x1E922)])%N.

(** The runes past ASCII that have an upper-case form of their own, from
    the same tables. *)
Definition upperRanges : list caseRange :=
  ([(0xB5, 0xB5, 1, 0x39C); (0xE0, 0xF6, 1, 0xC0); (0xF8, 0xFE, 1, 0xD8);
   (0xFF, 0xFF, 1, 0x178); (0x101, 0x12F, 2, 0x100); (0x131, 0x131, 1, 0x49);
   (0x133, 0x137, 2, 0x132); (0x13A, 0x148, 2, 0x139);
   (0x14B, 0x177, 2, 0x14A); (0x17A, 0x17E, 2, 0x179);
   (0x17F, 0x17F, 1, 0x53); (0x180, 0x180, 1, 0x243);
   (0x183, 0x185, 2, 0x182); (0x188, 0x188, 1, 0x187);
   (0x18C, 0x18C, 1, 0x18B); (0x192, 0x192, 1, 0x191);
   (0x195, 0x195, 1, 0x1F6); (0x199, 0x199, 1, 0x198);
   (0x19A, 0x19A, 1, 0x23D); (0x19E, 0x19E, 1, 0x220);
   (0x1A1, 0x1A5, 2, 0x1A0); (0x1A8, 0x1A8, 1, 0x1A7);
   (0x1AD, 0x1AD, 1, 0x1AC); (0x1B0, 0x1B0, 1, 0x1AF);
   (0x1B4, 0x1B6, 2, 0x1B3); (0x1B9, 0x1B9, 1, 0x1B8);
   (0x1BD, 0x1BD, 1, 0x1BC); (0x1BF, 0x1BF, 1, 0x1F7);
   (0x1C5, 0x1C5, 1, 0x1C4); (0x1C6, 0x1C6, 1, 0x1C4);
   (0x1C8, 0x1C8, 1, 0x1C7); (0x1C9, 0x1C9, 1, 0x1C7);
   (0x1CB, 0x1CB, 1, 0x1CA); (0x1CC, 0x1CC, 1, 0x1CA);
   (0x1CE, 0x1DC, 2, 0x1CD); (0x1DD, 0x1DD, 1, 0x18E);
   (0x1DF, 0x1EF, 2, 0x1DE); (0x1F2, 0x1F2, 1, 0x1F1);
   (0x1F3, 0x1F3, 1, 0x1F1); (0x1F5, 0x1F5, 1, 0x1F4);
   (0x1F9, 0x21F, 2, 0x1F8); (0x223, 0x233, 2, 0x222);
   (0x23C, 0x23C, 1, 0x23B); (0x23F, 0x240, 1, 0x2C7E);
   (0x242, 0x242, 1, 0x241); (0x247, 0x24F, 2, 0x246);
   (0x250, 0x250, 1, 0x2C6F); (0x251, 0x251, 1, 0x2C6D);
   (0x252, 0x252, 1, 0x2C70); (0x253, 0x253, 1, 0x181);
   (0x254, 0x254, 1, 0x186); (0x256, 0x257, 1, 0x189);
   (0x259, 0x259, 1, 0x18F); (0x25B, 0x25B, 1, 0x190);
   (0x25C, 0x25C, 1, 0xA7AB); (0x260, 0x260, 1, 0x193);
   (0x261, 0x261, 1, 0xA7AC); (0x263, 0x263, 1, 0x194);
   (0x265, 0x265, 1, 0xA78D); (0x266, 0x266, 1, 0xA7AA);
   (0x268, 0x268, 1, 0x197); (0x269, 0x269, 1, 0x196);
   (0x26A, 0x26A, 1, 0xA7AE); (0x26B, 0x26B, 1, 0x2C62);
   (0x26C, 0x26C, 1, 0xA7AD); (0x26F, 0x26F, 1, 0x19C);
   (0x271, 0x271, 1, 0x2C6E); (0x272, 0x272, 1, 0x19D);
   (0x275, 0x275, 1, 0x19F); (0x27D, 0x27D, 1, 0x2C64);
   (0x280, 0x280, 1, 0x1A6); (0x282, 0x282, 1, 0xA7C5);
   (0x283, 0x283, 1, 0x1A9); (0x287, 0x287, 1, 0xA7B1);
   (0x288, 0x288, 1, 0x1AE); (0x289, 0x289, 1, 0x244);
   (0x28A, 0x28B, 1, 0x1B1); (0x28C, 0x28C, 1, 0x245);
   (0x292, 0x292, 1, 0x1B7); (0x29D, 0x29D, 1, 0xA7B2);
   (0x29E, 0x29E, 1, 0xA7B0); (0x345, 0x345, 1, 0x399);
   (0x371, 0x373, 2, 0x370); (0x377, 0x377, 1, 0x376);
   (0x37B, 0x37D, 1, 0x3FD); (0x3AC, 0x3AC, 1, 0x386);
   (0x3AD, 0x3AF, 1, 0x388); (0x3B1, 0x3C1, 1, 0x391);
   (0x3C2, 0x3C2, 1, 0x3A3); (0x3C3, 0x3CB, 1, 0x3A3);
   (0x3CC, 0x3CC, 1, 0x38C); (0x3CD, 0x3CE, 1, 0x38E);
   (0x3D0, 0x3D0, 1, 0x392); (0x3D1, 0x3D1, 1, 0x398);
   (0x3D5, 0x3D5, 1, 0x3A6); (0x3D6, 0x3D6, 1, 0x3A0);
   (0x3D7, 0x3D7, 1, 0x3CF); (0x3D9, 0x3EF, 2, 0x3D8);
   (0x3F0, 0x3F0, 1, 0x39A); (0x3F1, 0x3F1, 1, 0x3A1);
   (0x3F2, 0x3F2, 1, 0x3F9); (0x3F3, 0x3F3, 1, 0x37F);
   (0x3F5, 0x3F5, 1, 0x395); (0x3F8, 0x3F8, 1, 0x3F7);
   (0x3FB, 0x3FB, 1, 0x3FA); (0x430, 0x44F, 1, 0x410);
   (0x450, 0x45F, 1, 0x400); (0x461, 0x481, 2, 0x460);
   (0x48B, 0x4BF, 2, 0x48A); (0x4C2, 0x4CE, 2, 0x4C1);
   (0x4CF, 0x4CF, 1, 0x4C0); (0x4D1, 0x52F, 2, 0x4D0);
   (0x561, 0x586, 1, 0x531); (0x10D0, 0x10FA, 1, 0x1C90);
   (0x10FD, 0x10FF, 1, 0x1CBD); (0x13F8, 0x13FD, 1, 0x13F0);
   (0x1C80, 0x1C80, 1, 0x412); (0x1C81, 0x1C81, 1, 0x414);
   (0x1C82, 0x1C82, 1, 0x41E); (0x1C83, 0x1C84, 1, 0x421);
   (0x1C85, 0x1C85, 1, 0x422); (0x1C86, 0x1C86, 1, 0x42A);
   (0x1C87, 0x1C87, 1, 0x462); (0x1C88, 0x1C88, 1, 0xA64A);
   (0x1D79, 0x1D79, 1, 0xA77D); (0x1D7D, 0x1D7D, 1, 0x2C63);
   (0x1D8E, 0x1D8E, 1, 0xA7C6); (0x1E01, 0x1E95, 2, 0x1E00);
   (0x1E9B, 0x1E9B, 1, 0x1E60); (0x1EA1, 0x1EFF, 2, 0x1EA0);
   (0x1F00, 0x1F07, 1, 0x1F08); (0x1F10, 0x1F15, 1, 0x1F18);
   (0x1F20, 0x1F27, 1, 0x1F28); (0x1F30, 0x1F37, 1, 0x1F38);
   (0x1F40, 0x1F45, 1, 0x1F48); (0x1F51, 0x1F57, 2, 0x1F59);
   (0x1F60, 0x1F67, 1, 0x1F68); (0x1F70, 0x1F71, 1, 0x1FBA);
   (0x1F72, 0x1F75, 1, 0x1FC8); (0x1F76, 0x1F77, 1, 0x1FDA);
   (0x1F78, 0x1F79, 1, 0x1FF8); (0x1F7A, 0x1F7B, 1, 0x1FEA);
   (0x1F7C, 0x1F7D, 1, 0x1FFA); (0x1F80, 0x1F87, 1, 0x1F88);
   (0x1F90, 0x1F97, 1, 0x1F98); (0x1FA0, 0x1FA7, 1, 0x1FA8);
   (0x1FB0, 0x1FB1, 1, 0x1FB8); (0x1FB3, 0x1FB3, 1, 0x1FBC);
   (0x1FBE, 0x1FBE, 1, 0x399); (0x1FC3, 0x1FC3, 1, 0x1FCC);
   (0x1FD0, 0x1FD1, 1, 0x1FD8); (0x1FE0, 0x1FE1, 1, 0x1FE8);
   (0x1FE5, 0x1FE5, 1, 0x1FEC); (0x1FF3, 0x1FF3, 1, 0x1FFC);
   (0x214E, 0x214E, 1, 0x2132); (0x2170, 0x217F, 1, 0x2160);
   (0x2184, 0x2184, 1, 0x2183); (0x24D0, 0x24E9, 1, 0x24B6);
   (0x2C30, 0x2C5F, 1, 0x2C00); (0x2C61, 0x2C61, 1, 0x2C60);
   (0x2C65, 0x2C65, 1, 0x23A); (0x2C66, 0x2C66, 1, 0x23E);
   (0x2C68, 0x2C6C, 2, 0x2C67); (0x2C73, 0x2C73, 1, 0x2C72);
   (0x2C76, 0x2C76, 1, 0x2C75); (0x2C81, 0x2CE3, 2, 0x2C80);
   (0x2CEC, 0x2CEE, 2, 0x2CEB); (0x2CF3, 0x2CF3, 1, 0x2CF2);
   (0x2D00, 0x2D25, 1, 0x10A0); (0x2D27, 0x2D27, 1, 0x10C7);
   (0x2D2D, 0x2D2D, 1, 0x10CD); (0xA641, 0xA66D, 2, 0xA640);
   (0xA681, 0xA69B, 2, 0xA680); (0xA723, 0xA72F, 2, 0xA722);
   (0xA733, 0xA76F, 2, 0xA732); (0xA77A, 0xA77C, 2, 0xA779);
   (0xA77F, 0xA787, 2, 0xA77E); (0xA78C, 0xA78C, 1, 0xA78B);
   (0xA791, 0xA793, 2, 0xA790); (0xA794, 0xA794, 1, 0xA7C4);
   (0xA797, 0xA7A9, 2, 0xA796); (0xA7B5, 0xA7C3, 2, 0xA7B4);
   (0xA7C8, 0xA7CA, 2, 0xA7C7); (0xA7D1, 0xA7D1, 1, 0xA7D0);
   (0xA7D7, 0xA7D9, 2, 0xA7D6); (0xA7F6, 0xA7F6, 1, 0xA7F5);
   (0xAB53, 0xAB53, 1, 0xA7B3); (0xAB70, 0xABBF, 1, 0x13A0);
   (0xFF41, 0xFF5A, 1, 0xFF21); (0x10428, 0x1044F, 1, 0x10400);
   (0x104D8, 0x104FB, 1, 0x104B0); (0x10597, 0x105BB, 2, 0x10570);
   (0x10598, 0x105A0, 2, 0x10571); (0x105A4, 0x105B0, 2, 0x1057D);
   (0x105B4, 0x105B8, 2, 0x1058D); (0x105BC, 0x105BC, 1, 0x10595);
   (0x10CC0, 0x10CF2, 1, 0x10C80); (0x118C0, 0x118DF, 1, 0x118A0);
   (0x16E60, 0x16E7F, 1, 0x16E40); (0x1E922, 0x1E943, 1, 0x1E900)])%N.

(** [unicode.ToLower]: ASCII on its own path, the tables past it. *)
Definition ToLower (r : N) : N :=
  if (r <=? MaxASCII)%N
  then (if between 65 90 r then r + 32 else r)%N
  else to lowerRanges r.

(** [unicode.ToUpper]. *)
Definition ToUpper (r : N) : N :=
  if (r <=? MaxASCII)%N
  then (if between 97 122 r then r - 32 else r)%N
  else to upperRanges r.

End unicode.

(** ** Go's [strings] package, on the functions the program calls *)

Module strings.
Import utf8.

Definition isLowerASCII (r : N) : bool := between 97 122 r.

(** [strings.Map] re-encodes every rune, so a byte that is not UTF-8 comes
    out as U+FFFD. *)
Definition Map (f : N -> N) (s : string) : string :=
  concat (map (fun p => EncodeRune (f (fst p))) (runes s)).

Definition ToLower (s : string) : string := Map unicode.ToLower s.
Definition ToUpper (s : string) : string := Map unicode.ToUpper s.

(** [unicode.IsSpace]: the White_Space code points. *)
Definition isSpace (r : N) : bool :=
  between 9 13 r || (r =? 32)%N || (r =? 0x85)%N || (r =? 0xA0)%N
  || (r =? 0x1680)%N || between 0x2000 0x200A r || (r =? 0x2028)%N
  || (r =? 0x2029)%N || (r =? 0x202F)%N || (r =? 0x205F)%N || (r =? 0x3000)%N.

Fixpoint dropWhileSpace (l : list (N * string)) : list (N * string) :=
  match l with
  | p :: l' => if isSpace (fst p) then dropWhileSpace l' else l
  | [] => []
  end.

Definition TrimSpace (s : string) : string :=
  concat (map snd (rev (dropWhileSpace (rev (dropWhileSpace (runes s)))))).

Definition HasPrefix (s p : string) : bool := String.prefix p s.

Definition HasSuffix (s p : string) : bool :=
  (String.length p <=? String.length s)%nat
  && String.eqb (drop (String.length s - String.length p) s) p.

Fixpoint Contains (s sub : string) : bool :=
  String.prefix sub s
  || match s with
     | String _ r => Contains r sub
     | EmptyString => false
     end.

(** [strings.IndexByte]: [None] stands for -1. *)
Fixpoint IndexByte (s : string) (c : ascii) : option nat :=
  match s with
  | EmptyString => None
  | String d r => if Ascii.eqb d c then Some 0%nat else S <$> IndexByte r c
  end.

Fixpoint LastIndexByte (s : string) (c : ascii) : option nat :=
  match s with
  | EmptyString => None
  | String d r =>
    match LastIndexByte r c with
    | Some i => Some (S i)
    | None => if Ascii.eqb d c then Some 0%nat else None
    end
  end.

Fixpoint CountByte (s : string) (c : ascii) : nat :=
  match s with
  | EmptyString => 0
  | String d r => (if Ascii.eqb d c then 1 else 0) + CountByte r c
  end.

(** [strings.Cut] with a one-byte separator: before, after, found. *)
Definition Cut (s : string) (sep : ascii) : string * string * bool :=
  match IndexByte s sep with
  | Some i => (take i s, drop (S i) s, true)
  | None => (s, EmptyString, false)
  end.

(** [strings.Split] with a one-byte separator. *)
Fixpoint Split (s : string) (sep : ascii) : list string :=
  match s with
  | EmptyString => [EmptyString]
  | String c r =>
    if Ascii.eqb c sep then EmptyString :: Split r sep
    else match Split r sep with
         | p :: ps => String c p :: ps
         | [] => [String c EmptyString]
         end
  end.

(** [strings.TrimLeft s cutset] with a one-byte cutset. *)
Fixpoint TrimLeftByte (s : string) (c : ascii) : string :=
  match s with
  | String d r => if Ascii.eqb d c then TrimLeftByte r c else s
  | EmptyString => EmptyString
  end.

(** Simple case folding of one rune to the least member of its orbit, exact
    on the orbits that hold an ASCII letter: (K, k, U+212A) and
    (S, s, U+017F) besides the plain pairs. *)
Definition foldRune (r : N) : N :=
  if isLowerASCII r then (r - 32)%N
  else if (r =? 0x212A)%N then 75%N
  else if (r =? 0x17F)%N then 83%N
  else r.

(** [strings.EqualFold]: rune by rune under simple folding.  Exact whenever
    one side is ASCII, which is how the program calls it. *)
Definition EqualFold (s t : string) : bool :=
  bool_decide (map (fun p => foldRune (fst p)) (runes s)
               = map (fun p => foldRune (fst p)) (runes t)).

End strings.

(** ** Go's [strconv] and [fmt] verbs *)

Module strconv.
Import utf8.

Definition isDigit (c : ascii) : bool := between 48 57 (byte c).

Fixpoint digitsValue (acc : Z) (s : string) : option Z :=
  match s with
  | EmptyString => Some acc
  | String c r =>
    if isDigit c then digitsValue (acc * 10 + Z.of_N (byte c - 48)) r else None
  end.

Definition minInt64 : Z := - 2 ^ 63.
Definition maxInt64 : Z := 2 ^ 63 - 1.

(** [strconv.ParseInt s 10 64]; [None] is a non-nil error (syntax or range). *)
Definition ParseInt (s : string) : option Z :=
  let '(neg, ds) :=
    match s with
    | String c r =>
      if Ascii.eqb c "+" then (false, r)
      else if Ascii.eqb c "-" then (true, r)
      else (false, s)
    | EmptyString => (false, s)
    end in
  match ds with
  | EmptyString => None
  | _ =>
    match digitsValue 0 ds with
    | Some u =>
      let n := if neg then (- u)%Z else u in
      if (minInt64 <=? n)%Z && (n <=? maxInt64)%Z then Some n else None
    | None => None
    end
  end.

(** [strconv.FormatInt n 10], the [%d] verb. *)
Definition FormatInt (n : Z) : string := NilZero.string_of_int (Z.to_int n).

Definition dquote : string := String (chr 34) EmptyString.

Definition hexDigit (n : N) : ascii :=
  if (n <? 10)%N then chr (48 + n) else chr (87 + n).

(** [r] in lower-case hexadecimal on [n] digits. *)
Fixpoint hexDigits (n : nat) (r : N) : string :=
  match n with
  | O => EmptyString
  | S n' => hexDigits n' (N.shiftr r 4)
            +:+ String (hexDigit (N.land r 15)) EmptyString
  end.

(** The runes past Latin-1 that [strconv.IsPrint] accepts: the letters,
    marks, numbers, punctuation and symbols.  The table is that of Unicode
    14.0.0; the code points that Unicode 15.0.0 assigns for the first time
    are not in it. *)
Definition printRanges : list (N * N) :=
  ([(0x100, 0x377); (0x37A, 0x37F); (0x384, 0x38A); (0x38C, 0x38C);
   (0x38E, 0x3A1); (0x3A3, 0x52F); (0x531, 0x556); (0x559, 0x58A);
   (0x58D, 0x58F); (0x591, 0x5C7); (0x5D0, 0x5EA); (0x5EF, 0x5F4);
   (0x606, 0x61B); (0x61D, 0x6DC); (0x6DE, 0x70D); (0x710, 0x74A);
   (0x74D, 0x7B1); (0x7C0, 0x7FA); (0x7FD, 0x82D); (0x830, 0x83E);
   (0x840, 0x85B); (0x85E, 0x85E); (0x860, 0x86A); (0x870, 0x88E);
   (0x898, 0x8E1); (0x8E3, 0x983); (0x985, 0x98C); (0x98F, 0x990);
   (0x993, 0x9A8); (0x9AA, 0x9B0); (0x9B2, 0x9B2); (0x9B6, 0x9B9);
   (0x9BC, 0x9C4); (0x9C7, 0x9C8); (0x9CB, 0x9CE); (0x9D7, 0x9D7);
   (0x9DC, 0x9DD); (0x9DF, 0x9E3); (0x9E6, 0x9FE); (0xA01, 0xA03);
   (0xA05, 0xA0A); (0xA0F, 0xA10); (0xA13, 0xA28); (0xA2A, 0xA30);
   (0xA32, 0xA33); (0xA35, 0xA36); (0xA38, 0xA39); (0xA3C, 0xA3C);
   (0xA3E, 0xA42); (0xA47, 0xA48); (0xA4B, 0xA4D); (0xA51, 0xA51);
   (0xA59, 0xA5C); (0xA5E, 0xA5E); (0xA66, 0xA76); (0xA81, 0xA83);
   (0xA85, 0xA8D); (0xA8F, 0xA91); (0xA93, 0xAA8); (0xAAA, 0xAB0);
   (0xAB2, 0xAB3); (0xAB5, 0xAB9); (0xABC, 0xAC5); (0xAC7, 0xAC9);
   (0xACB, 0xACD); (0xAD0, 0xAD0); (0xAE0, 0xAE3); (0xAE6, 0xAF1);
   (0xAF9, 0xAFF); (0xB01, 0xB03); (0xB05, 0xB0C); (0xB0F, 0xB10);
   (0xB13, 0xB28); (0xB2A, 0xB30); (0xB32, 0xB33); (0xB35, 0xB39);
   (0xB3C, 0xB44); (0xB47, 0xB48); (0xB4B, 0xB4D); (0xB55, 0xB57);
   (0xB5C, 0xB5D); (0xB5F, 0xB63); (0xB66, 0xB77); (0xB82, 0xB83);
   (0xB85, 0xB8A); (0xB8E, 0xB90); (0xB92, 0xB95); (0xB99, 0xB9A);
   (0xB9C, 0xB9C); (0xB9E, 0xB9F); (0xBA3, 0xBA4); (0xBA8, 0xBAA);
   (0xBAE, 0xBB9); (0xBBE, 0xBC2); (0xBC6, 0xBC8); (0xBCA, 0xBCD);
   (0xBD0, 0xBD0); (0xBD7, 0xBD7); (0xBE6, 0xBFA); (0xC00, 0xC0C);
   (0xC0E, 0xC10); (0xC12, 0xC28); (0xC2A, 0xC39); (0xC3C, 0xC44);
   (0xC46, 0xC48); (0xC4A, 0xC4D); (0xC55, 0xC56); (0xC58, 0xC5A);
   (0xC5D, 0xC5D); (0xC60, 0xC63); (0xC66, 0xC6F); (0xC77, 0xC8C);
   (0xC8E, 0xC90); (0xC92, 0xCA8); (0xCAA, 0xCB3); (0xCB5, 0xCB9);
   (0xCBC, 0xCC4); (0xCC6, 0xCC8); (0xCCA, 0xCCD); (0xCD5, 0xCD6);
   (0xCDD, 0xCDE); (0xCE0, 0xCE3); (0xCE6, 0xCEF); (0xCF1, 0xCF2);
   (0xD00, 0xD0C); (0xD0E, 0xD10); (0xD12, 0xD44); (0xD46, 0xD48);
   (0xD4A, 0xD4F); (0xD54, 0xD63); (0xD66, 0xD7F); (0xD81, 0xD83);
   (0xD85, 0xD96); (0xD9A, 0xDB1); (0xDB3, 0xDBB); (0xDBD, 0xDBD);
   (0xDC0, 0xDC6); (0xDCA, 0xDCA); (0xDCF, 0xDD4); (0xDD6, 0xDD6);
   (0xDD8, 0xDDF); (0xDE6, 0xDEF); (0xDF2, 0xDF4); (0xE01, 0xE3A);
   (0xE3F, 0xE5B); (0xE81, 0xE82); (0xE84, 0xE84); (0xE86, 0xE8A);
   (0xE8C, 0xEA3); (0xEA5, 0xEA5); (0xEA7, 0xEBD); (0xEC0, 0xEC4);
   (0xEC6, 0xEC6); (0xEC8, 0xECD); (0xED0, 0xED9); (0xEDC, 0xEDF);
   (0xF00, 0xF47); (0xF49, 0xF6C); (0xF71, 0xF97); (0xF99, 0xFBC);
   (0xFBE, 0xFCC); (0xFCE, 0xFDA); (0x1000, 0x10C5); (0x10C7, 0x10C7);
   (0x10CD, 0x10CD); (0x10D0, 0x1248); (0x124A, 0x124D); (0x1250, 0x1256);
   (0x1258, 0x1258); (0x125A, 0x125D); (0x1260, 0x1288); (0x128A, 0x128D);
   (0x1290, 0x12B0); (0x12B2, 0x12B5); (0x12B8, 0x12BE); (0x12C0, 0x12C0);
   (0x12C2, 0x12C5); (0x12C8, 0x12D6); (0x12D8, 0x1310); (0x1312, 0x1315);
   (0x1318, 0x135A); (0x135D, 0x137C); (0x1380, 0x1399); (0x13A0, 0x13F5);
   (0x13F8, 0x13FD); (0x1400, 0x167F); (0x1681, 0x169C); (0x16A0, 0x16F8);
   (0x1700, 0x1715); (0x171F, 0x1736); (0x1740, 0x1753); (0x1760, 0x176C);
   (0x176E, 0x1770); (0x1772, 0x1773); (0x1780, 0x17DD); (0x17E0, 0x17E9);
   (0x17F0, 0x17F9); (0x1800, 0x180D); (0x180F, 0x1819); (0x1820, 0x1878);
   (0x1880, 0x18AA); (0x18B0, 0x18F5); (0x1900, 0x191E); (0x1920, 0x192B);
   (0x1930, 0x193B); (0x1940, 0x1940); (0x1944, 0x196D); (0x1970, 0x1974);
   (0x1980, 0x19AB); (0x19B0, 0x19C9); (0x19D0, 0x19DA); (0x19DE, 0x1A1B);
   (0x1A1E, 0x1A5E); (0x1A60, 0x1A7C); (0x1A7F, 0x1A89); (0x1A90, 0x1A99);
   (0x1AA0, 0x1AAD); (0x1AB0, 0x1ACE); (0x1B00, 0x1B4C); (0x1B50, 0x1B7E);
   (0x1B80, 0x1BF3); (0x1BFC, 0x1C37); (0x1C3B, 0x1C49); (0x1C4D, 0x1C88);
   (0x1C90, 0x1CBA); (0x1CBD, 0x1CC7); (0x1CD0, 0x1CFA); (0x1D00, 0x1F15);
   (0x1F18, 0x1F1D); (0x1F20, 0x1F45); (0x1F48, 0x1F4D); (0x1F50, 0x1F57);
   (0x1F59, 0x1F59); (0x1F5B, 0x1F5B); (0x1F5D, 0x1F5D); (0x1F5F, 0x1F7D);
   (0x1F80, 0x1FB4); (0x1FB6, 0x1FC4); (0x1FC6, 0x1FD3); (0x1FD6, 0x1FDB);
   (0x1FDD, 0x1FEF); (0x1FF2, 0x1FF4); (0x1FF6, 0x1FFE); (0x2010, 0x2027);
   (0x2030, 0x205E); (0x2070, 0x2071); (0x2074, 0x208E); (0x2090, 0x209C);
   (0x20A0, 0x20C0); (0x20D0, 0x20F0); (0x2100, 0x218B); (0x2190, 0x2426);
   (0x2440, 0x244A); (0x2460, 0x2B73); (0x2B76, 0x2B95); (0x2B97, 0x2CF3);
   (0x2CF9, 0x2D25); (0x2D27, 0x2D27); (0x2D2D, 0x2D2D); (0x2D30, 0x2D67);
   (0x2D6F, 0x2D70); (0x2D7F, 0x2D96); (0x2DA0, 0x2DA6); (0x2DA8, 0x2DAE);
   (0x2DB0, 0x2DB6); (0x2DB8, 0x2DBE); (0x2DC0, 0x2DC6); (0x2DC8, 0x2DCE);
   (0x2DD0, 0x2DD6); (0x2DD8, 0x2DDE); (0x2DE0, 0x2E5D); (0x2E80, 0x2E99);
   (0x2E9B, 0x2EF3); (0x2F00, 0x2FD5); (0x2FF0, 0x2FFB); (0x3001, 0x303F);
   (0x3041, 0x3096); (0x3099, 0x30FF); (0x3105, 0x312F); (0x3131, 0x318E);
   (0x3190, 0x31E3); (0x31F0, 0x321E); (0x3220, 0xA48C); (0xA490, 0xA4C6);
   (0xA4D0, 0xA62B); (0xA640, 0xA6F7); (0xA700, 0xA7CA); (0xA7D0, 0xA7D1);
   (0xA7D3, 0xA7D3); (0xA7D5, 0xA7D9); (0xA7F2, 0xA82C); (0xA830, 0xA839);
   (0xA840, 0xA877); (0xA880, 0xA8C5); (0xA8CE, 0xA8D9); (0xA8E0, 0xA953);
   (0xA95F, 0xA97C); (0xA980, 0xA9CD); (0xA9CF, 0xA9D9); (0xA9DE, 0xA9FE);
   (0xAA00, 0xAA36); (0xAA40, 0xAA4D); (0xAA50, 0xAA59); (0xAA5C, 0xAAC2);
   (0xAADB, 0xAAF6); (0xAB01, 0xAB06); (0xAB09, 0xAB0E); (0xAB11, 0xAB16);
   (0xAB20, 0xAB26); (0xAB28, 0xAB2E); (0xAB30, 0xAB6B); (0xAB70, 0xABED);
   (0xABF0, 0xABF9); (0xAC00, 0xD7A3); (0xD7B0, 0xD7C6); (0xD7CB, 0xD7FB);
   (0xF900, 0xFA6D); (0xFA70, 0xFAD9); (0xFB00, 0xFB06); (0xFB13, 0xFB17);
   (0xFB1D, 0xFB36); (0xFB38, 0xFB3C); (0xFB3E, 0xFB3E); (0xFB40, 0xFB41);
   (0xFB43, 0xFB44); (0xFB46, 0xFBC2); (0xFBD3, 0xFD8F); (0xFD92, 0xFDC7);
   (0xFDCF, 0xFDCF); (0xFDF0, 0xFE19); (0xFE20, 0xFE52); (0xFE54, 0xFE66);
   (0xFE68, 0xFE6B); (0xFE70, 0xFE74); (0xFE76, 0xFEFC); (0xFF01, 0xFFBE);
   (0xFFC2, 0xFFC7); (0xFFCA, 0xFFCF); (0xFFD2, 0xFFD7); (0xFFDA, 0xFFDC);
   (0xFFE0, 0xFFE6); (0xFFE8, 0xFFEE); (0xFFFC, 0xFFFD); (0x10000, 0x1000B);
   (0x1000D, 0x10026); (0x10028, 0x1003A); (0x1003C, 0x1003D);
   (0x1003F, 0x1004D); (0x10050, 0x1005D); (0x10080, 0x100FA);
   (0x10100, 0x10102); (0x10107, 0x10133); (0x10137, 0x1018E);
   (0x10190, 0x1019C); (0x101A0, 0x101A0); (0x101D0, 0x101FD);
   (0x10280, 0x1029C); (0x102A0, 0x102D0); (0x102E0, 0x102FB);
   (0x10300, 0x10323); (0x1032D, 0x1034A); (0x10350, 0x1037A);
   (0x10380, 0x1039D); (0x1039F, 0x103C3); (0x103C8, 0x103D5);
   (0x10400, 0x1049D); (0x104A0, 0x104A9); (0x104B0, 0x104D3);
   (0x104D8, 0x104FB); (0x10500, 0x10527); (0x10530, 0x10563);
   (0x1056F, 0x1057A); (0x1057C, 0x1058A); (0x1058C, 0x10592);
   (0x10594, 0x10595); (0x10597, 0x105A1); (0x105A3, 0x105B1);
   (0x105B3, 0x105B9); (0x105BB, 0x105BC); (0x10600, 0x10736);
   (0x10740, 0x10755); (0x10760, 0x10767); (0x10780, 0x10785);
   (0x10787, 0x107B0); (0x107B2, 0x107BA); (0x10800, 0x10805);
   (0x10808, 0x10808); (0x1080A, 0x10835); (0x10837, 0x10838);
   (0x1083C, 0x1083C); (0x1083F, 0x10855); (0x10857, 0x1089E);
   (0x108A7, 0x108AF); (0x108E0, 0x108F2); (0x108F4, 0x108F5);
   (0x108FB, 0x1091B); (0x1091F, 0x10939); (0x1093F, 0x1093F);
   (0x10980, 0x109B7); (0x109BC, 0x109CF); (0x109D2, 0x10A03);
   (0x10A05, 0x10A06); (0x10A0C, 0x10A13); (0x10A15, 0x10A17);
   (0x10A19, 0x10A35); (0x10A38, 0x10A3A); (0x10A3F, 0x10A48);
   (0x10A50, 0x10A58); (0x10A60, 0x10A9F); (0x10AC0, 0x10AE6);
   (0x10AEB, 0x10AF6); (0x10B00, 0x10B35); (0x10B39, 0x10B55);
   (0x10B58, 0x10B72); (0x10B78, 0x10B91); (0x10B99, 0x10B9C);
   (0x10BA9, 0x10BAF); (0x10C00, 0x10C48); (0x10C80, 0x10CB2);
   (0x10CC0, 0x10CF2); (0x10CFA, 0x10D27); (0x10D30, 0x10D39);
   (0x10E60, 0x10E7E); (0x10E80, 0x10EA9); (0x10EAB, 0x10EAD);
   (0x10EB0, 0x10EB1); (0x10F00, 0x10F27); (0x10F30, 0x10F59);
   (0x10F70, 0x10F89); (0x10FB0, 0x10FCB); (0x10FE0, 0x10FF6);
   (0x11000, 0x1104D); (0x11052, 0x11075); (0x1107F, 0x110BC);
   (0x110BE, 0x110C2); (0x110D0, 0x110E8); (0x110F0, 0x110F9);
   (0x11100, 0x11134); (0x11136, 0x11147); (0x11150, 0x11176);
   (0x11180, 0x111DF); (0x111E1, 0x111F4); (0x11200, 0x11211);
   (0x11213, 0x1123E); (0x11280, 0x11286); (0x11288, 0x11288);
   (0x1128A, 0x1128D); (0x1128F, 0x1129D); (0x1129F, 0x112A9);
   (0x112B0, 0x112EA); (0x112F0, 0x112F9); (0x11300, 0x11303);
   (0x11305, 0x1130C); (0x1130F, 0x11310); (0x11313, 0x11328);
   (0x1132A, 0x11330); (0x11332, 0x11333); (0x11335, 0x11339);
   (0x1133B, 0x11344); (0x11347, 0x11348); (0x1134B, 0x1134D);
   (0x11350, 0x11350); (0x11357, 0x11357); (0x1135D, 0x11363);
   (0x11366, 0x1136C); (0x11370, 0x11374); (0x11400, 0x1145B);
   (0x1145D, 0x11461); (0x11480, 0x114C7); (0x114D0, 0x114D9);
   (0x11580, 0x115B5); (0x115B8, 0x115DD); (0x11600, 0x11644);
   (0x11650, 0x11659); (0x11660, 0x1166C); (0x11680, 0x116B9);
   (0x116C0, 0x116C9); (0x11700, 0x1171A); (0x1171D, 0x1172B);
   (0x11730, 0x11746); (0x11800, 0x1183B); (0x118A0, 0x118F2);
   (0x118FF, 0x11906); (0x11909, 0x11909); (0x1190C, 0x11913);
   (0x11915, 0x11916); (0x11918, 0x11935); (0x11937, 0x11938);
   (0x1193B, 0x11946); (0x11950, 0x11959); (0x119A0, 0x119A7);
   (0x119AA, 0x119D7); (0x119DA, 0x119E4); (0x11A00, 0x11A47);
   (0x11A50, 0x11AA2); (0x11AB0, 0x11AF8); (0x11C00, 0x11C08);
   (0x11C0A, 0x11C36); (0x11C38, 0x11C45); (0x11C50, 0x11C6C);
   (0x11C70, 0x11C8F); (0x11C92, 0x11CA7); (0x11CA9, 0x11CB6);
   (0x11D00, 0x11D06); (0x11D08, 0x11D09); (0x11D0B, 0x11D36);
   (0x11D3A, 0x11D3A); (0x11D3C, 0x11D3D); (0x11D3F, 0x11D47);
   (0x11D50, 0x11D59); (0x11D60, 0x11D65); (0x11D67, 0x11D68);
   (0x11D6A, 0x11D8E); (0x11D90, 0x11D91); (0x11D93, 0x11D98);
   (0x11DA0, 0x11DA9); (0x11EE0, 0x11EF8); (0x11FB0, 0x11FB0);
   (0x11FC0, 0x11FF1); (0x11FFF, 0x12399); (0x12400, 0x1246E);
   (0x12470, 0x12474); (0x12480, 0x12543); (0x12F90, 0x12FF2);
   (0x13000, 0x1342E); (0x14400, 0x14646); (0x16800, 0x16A38);
   (0x16A40, 0x16A5E); (0x16A60, 0x16A69); (0x16A6E, 0x16ABE);
   (0x16AC0, 0x16AC9); (0x16AD0, 0x16AED); (0x16AF0, 0x16AF5);
   (0x16B00, 0x16B45); (0x16B50, 0x16B59); (0x16B5B, 0x16B61);
   (0x16B63, 0x16B77); (0x16B7D, 0x16B8F); (0x16E40, 0x16E9A);
   (0x16F00, 0x16F4A); (0x16F4F, 0x16F87); (0x16F8F, 0x16F9F);
   (0x16FE0, 0x16FE4); (0x16FF0, 0x16FF1); (0x17000, 0x187F7);
   (0x18800, 0x18CD5); (0x18D00, 0x18D08); (0x1AFF0, 0x1AFF3);
   (0x1AFF5, 0x1AFFB); (0x1AFFD, 0x1AFFE); (0x1B000, 0x1B122);
   (0x1B150, 0x1B152); (0x1B164, 0x1B167); (0x1B170, 0x1B2FB);
   (0x1BC00, 0x1BC6A); (0x1BC70, 0x1BC7C); (0x1BC80, 0x1BC88);
   (0x1BC90, 0x1BC99); (0x1BC9C, 0x1BC9F); (0x1CF00, 0x1CF2D);
   (0x1CF30, 0x1CF46); (0x1CF50, 0x1CFC3); (0x1D000, 0x1D0F5);
   (0x1D100, 0x1D126); (0x1D129, 0x1D172); (0x1D17B, 0x1D1EA);
   (0x1D200, 0x1D245); (0x1D2E0, 0x1D2F3); (0x1D300, 0x1D356);
   (0x1D360, 0x1D378); (0x1D400, 0x1D454); (0x1D456, 0x1D49C);
   (0x1D49E, 0x1D49F); (0x1D4A2, 0x1D4A2); (0x1D4A5, 0x1D4A6);
   (0x1D4A9, 0x1D4AC); (0x1D4AE, 0x1D4B9); (0x1D4BB, 0x1D4BB);
   (0x1D4BD, 0x1D4C3); (0x1D4C5, 0x1D505); (0x1D507, 0x1D50A);
   (0x1D50D, 0x1D514); (0x1D516, 0x1D51C); (0x1D51E, 0x1D539);
   (0x1D53B, 0x1D53E); (0x1D540, 0x1D544); (0x1D546, 0x1D546);
   (0x1D54A, 0x1D550); (0x1D552, 0x1D6A5); (0x1D6A8, 0x1D7CB);
   (0x1D7CE, 0x1DA8B); (0x1DA9B, 0x1DA9F); (0x1DAA1, 0x1DAAF);
   (0x1DF00, 0x1DF1E); (0x1E000, 0x1E006); (0x1E008, 0x1E018);
   (0x1E01B, 0x1E021); (0x1E023, 0x1E024); (0x1E026, 0x1E02A);
   (0x1E100, 0x1E12C); (0x1E130, 0x1E13D); (0x1E140, 0x1E149);
   (0x1E14E, 0x1E14F); (0x1E290, 0x1E2AE); (0x1E2C0, 0x1E2F9);
   (0x1E2FF, 0x1E2FF); (0x1E7E0, 0x1E7E6); (0x1E7E8, 0x1E7EB);
   (0x1E7ED, 0x1E7EE); (0x1E7F0, 0x1E7FE); (0x1E800, 0x1E8C4);
   (0x1E8C7, 0x1E8D6); (0x1E900, 0x1E94B); (0x1E950, 0x1E959);
   (0x1E95E, 0x1E95F); (0x1EC71, 0x1ECB4); (0x1ED01, 0x1ED3D);
   (0x1EE00, 0x1EE03); (0x1EE05, 0x1EE1F); (0x1EE21, 0x1EE22);
   (0x1EE24, 0x1EE24); (0x1EE27, 0x1EE27); (0x1EE29, 0x1EE32);
   (0x1EE34, 0x1EE37); (0x1EE39, 0x1EE39); (0x1EE3B, 0x1EE3B);
   (0x1EE42, 0x1EE42); (0x1EE47, 0x1EE47); (0x1EE49, 0x1EE49);
   (0x1EE4B, 0x1EE4B); (0x1EE4D, 0x1EE4F); (0x1EE51, 0x1EE52);
   (0x1EE54, 0x1EE54); (0x1EE57, 0x1EE57); (0x1EE59, 0x1EE59);
   (0x1EE5B, 0x1EE5B); (0x1EE5D, 0x1EE5D); (0x1EE5F, 0x1EE5F);
   (0x1EE61, 0x1EE62); (0x1EE64, 0x1EE64); (0x1EE67, 0x1EE6A);
   (0x1EE6C, 0x1EE72); (0x1EE74, 0x1EE77); (0x1EE79, 0x1EE7C);
   (0x1EE7E, 0x1EE7E); (0x1EE80, 0x1EE89); (0x1EE8B, 0x1EE9B);
   (0x1EEA1, 0x1EEA3); (0x1EEA5, 0x1EEA9); (0x1EEAB, 0x1EEBB);
   (0x1EEF0, 0x1EEF1); (0x1F000, 0x1F02B); (0x1F030, 0x1F093);
   (0x1F0A0, 0x1F0AE); (0x1F0B1, 0x1F0BF); (0x1F0C1, 0x1F0CF);
   (0x1F0D1, 0x1F0F5); (0x1F100, 0x1F1AD); (0x1F1E6, 0x1F202);
   (0x1F210, 0x1F23B); (0x1F240, 0x1F248); (0x1F250, 0x1F251);
   (0x1F260, 0x1F265); (0x1F300, 0x1F6D7); (0x1F6DD, 0x1F6EC);
   (0x1F6F0, 0x1F6FC); (0x1F700, 0x1F773); (0x1F780, 0x1F7D8);
   (0x1F7E0, 0x1F7EB); (0x1F7F0, 0x1F7F0); (0x1F800, 0x1F80B);
   (0x1F810, 0x1F847); (0x1F850, 0x1F859); (0x1F860, 0x1F887);
   (0x1F890, 0x1F8AD); (0x1F8B0, 0x1F8B1); (0x1F900, 0x1FA53);
   (0x1FA60, 0x1FA6D); (0x1FA70, 0x1FA74); (0x1FA78, 0x1FA7C);
   (0x1FA80, 0x1FA86); (0x1FA90, 0x1FAAC); (0x1FAB0, 0x1FABA);
   (0x1FAC0, 0x1FAC5); (0x1FAD0, 0x1FAD9); (0x1FAE0, 0x1FAE7);
   (0x1FAF0, 0x1FAF6); (0x1FB00, 0x1FB92); (0x1FB94, 0x1FBCA);
   (0x1FBF0, 0x1FBF9); (0x20000, 0x2A6DF); (0x2A700, 0x2B738);
   (0x2B740, 0x2B81D); (0x2B820, 0x2CEA1); (0x2CEB0, 0x2EBE0);
   (0x2F800, 0x2FA1D); (0x30000, 0x3134A); (0xE0100, 0xE01EF)])%N.

(** [strconv.IsPrint]: Latin-1 on its own path, the table past it. *)
Definition IsPrint (r : N) : bool :=
  if (r <=? 0xFF)%N
  then between 0x20 0x7E r || (between 0xA1 0xFF r && negb (r =? 0xAD)%N)
  else existsb (fun p => between (fst p) (snd p) r) printRanges.

Definition ValidRune (r : N) : bool :=
  (r <? 0xD800)%N || ((0xDFFF <? r)%N && (r <=? 0x10FFFF)%N).

(** [appendEscapedRune] as [Quote] calls it: the quote and the backslash
    are escaped, a printable rune is copied, and the others are written with
    their escape. *)
Definition appendEscapedRune (r : N) : string :=
  let esc (e : string) := String (chr 92) e in
  if (r =? 34)%N || (r =? 92)%N then esc (String (chr r) EmptyString)
  else if IsPrint r then EncodeRune r
  else if (r =? 7)%N then esc "a"
  else if (r =? 8)%N then esc "b"
  else if (r =? 12)%N then esc "f"
  else if (r =? 10)%N then esc "n"
  else if (r =? 13)%N then esc "r"
  else if (r =? 9)%N then esc "t"
  else if (r =? 11)%N then esc "v"
  else if (r <? 32)%N || (r =? 127)%N then esc ("x" +:+ hexDigits 2 r)
  else if negb (ValidRune r) then esc ("u" +:+ hexDigits 4 RuneError)
  else if (r <? 0x10000)%N then esc ("u" +:+ hexDigits 4 r)
  else esc ("U" +:+ hexDigits 8 r).

(** One step of the loop of [strconv.Quote], the [%q] verb: a byte that is
    no UTF-8 is written as [\x] and its two digits. *)
Definition quoteRune (p : N * string) : string :=
  match snd p with
  | String c EmptyString =>
    if (fst p =? RuneError)%N
    then String (chr 92) ("x" +:+ hexDigits 2 (byte c))
    else appendEscapedRune (fst p)
  | _ => appendEscapedRune (fst p)
  end.

Definition quoteBody (s : string) : string :=
  concat (map quoteRune (runes s)).

Definition Quote (s : string) : string := dquote +:+ quoteBody s +:+ dquote.

End strconv.

(** ** Go's [encoding/json]: syntax and decoding into typed fields *)

Module json.
Import utf8 strings.

Inductive value : Type :=
| Null
| Bool (b : bool)
| Number (lit : string)
| Str (s : string)
| Array (vs : list value)
| Object (ms : list (string * value)).

Definition isWS (c : ascii) : bool :=
  let b := byte c in (b =? 32)%N || (b =? 9)%N || (b =? 10)%N || (b =? 13)%N.

Fixpoint skipWS (s : string) : string :=
  match s with
  | String c r => if isWS c then skipWS r else s
  | EmptyString => EmptyString
  end.

Definition unhex (c : ascii) : option N :=
  let b := byte c in
  if between 48 57 b then Some (b - 48)%N
  else if between 97 102 b then Some (b - 87)%N
  else if between 65 70 b then Some (b - 55)%N
  else None.

(** [getu4] on the four digits that follow a backslash and a u. *)
Definition hex4 (s : string) : option (N * string) :=
  match s with
  | String a (String b (String c (String d r))) =>
    match unhex a, unhex b, unhex c, unhex d with
    | Some x, Some y, Some z, Some w =>
      Some ((((x * 16 + y) * 16 + z) * 16 + w)%N, r)
    | _, _, _, _ => None
    end
  | _ => None
  end.

Definition getu4 (s : string) : option (N * string) :=
  match s with
  | String b (String u r) =>
    if (byte b =? 92)%N && Ascii.eqb u "u" then hex4 r else None
  | _ => None
  end.

Definition simpleEscape (c : ascii) : option ascii :=
  let b := byte c in
  if (b =? 34)%N || (b =? 92)%N || Ascii.eqb c "/" then Some c
  else if Ascii.eqb c "b" then Some (chr 8)
  else if Ascii.eqb c "f" then Some (chr 12)
  else if Ascii.eqb c "n" then Some (chr 10)
  else if Ascii.eqb c "r" then Some (chr 13)
  else if Ascii.eqb c "t" then Some (chr 9)
  else None.

(** A string literal after its opening quote: the unquoted text and what
    follows the closing quote.  Control bytes and bad escapes are syntax
    errors; an unpaired surrogate and a byte that is not UTF-8 become
    U+FFFD, as in [unquote]. *)
Fixpoint stringBody (fuel : nat) (s : string) : option (string * string) :=
  match fuel, s with
  | S fuel', String c r =>
    let b := byte c in
    if (b =? 34)%N then Some (EmptyString, r)
    else if (b <? 32)%N then None
    else if (b =? 92)%N then
      match r with
      | String e r' =>
        match simpleEscape e with
        | Some ch =>
          '(t, rest) ← stringBody fuel' r'; Some (String ch t, rest)
        | None =>
          if Ascii.eqb e "u" then
            '(rr, r4) ← hex4 r';
            if between 0xD800 0xDFFF rr then
              match getu4 r4 with
              | Some (rr1, r10) =>
                if between 0xD800 0xDBFF rr && between 0xDC00 0xDFFF rr1 then
                  let dec := (N.lor (N.shiftl (rr - 0xD800) 10) (rr1 - 0xDC00)
                              + 0x10000)%N in
                  '(t, rest) ← stringBody fuel' r10;
                  Some (EncodeRune dec +:+ t, rest)
                else
                  '(t, rest) ← stringBody fuel' r4;
                  Some (EncodeRune RuneError +:+ t, rest)
              | None =>
                '(t, rest) ← stringBody fuel' r4;
                Some (EncodeRune RuneError +:+ t, rest)
              end
            else
              '(t, rest) ← stringBody fuel' r4; Some (EncodeRune rr +:+ t, rest)
          else None
        end
      | EmptyString => None
      end
    else if (b <? 128)%N then
      '(t, rest) ← stringBody fuel' r; Some (String c t, rest)
    else
      let '(rr, w) := DecodeRuneInString s in
      '(t, rest) ← stringBody fuel' (drop w s);
      Some (EncodeRune rr +:+ t, rest)
  | _, _ => None
  end.

Fixpoint spanDigits (s : string) : string * string :=
  match s with
  | String c r =>
    if strconv.isDigit c
    then let '(d, rest) := spanDigits r in (String c d, rest)
    else (EmptyString, s)
  | EmptyString => (EmptyString, EmptyString)
  end.

(** A number literal: an optional minus, zero or a digit run that does not
    start with zero, an optional fraction, an optional exponent. *)
Definition numberLit (s : string) : option (string * string) :=
  let '(sign, s1) :=
    match s with
    | String c r => if Ascii.eqb c "-" then ("-", r) else (EmptyString, s)
    | _ => (EmptyString, s)
    end in
  '(int, s2) ←
    match s1 with
    | String c r =>
      if Ascii.eqb c "0" then Some ("0", r)
      else if strconv.isDigit c then Some (spanDigits s1)
      else None
    | EmptyString => None
    end;
  '(frac, s3) ←
    match s2 with
    | String c r =>
      if Ascii.eqb c "." then
        match spanDigits r with
        | (EmptyString, _) => None
        | (d, rest) => Some (String c d, rest)
        end
      else Some (EmptyString, s2)
    | EmptyString => Some (EmptyString, s2)
    end;
  '(exp, s4) ←
    match s3 with
    | String c r =>
      if Ascii.eqb c "e" || Ascii.eqb c "E" then
        let '(sg, r1) :=
          match r with
          | String g r' =>
            if Ascii.eqb g "+" || Ascii.eqb g "-"
            then (String g EmptyString, r') else (EmptyString, r)
          | _ => (EmptyString, r)
          end in
        match spanDigits r1 with
        | (EmptyString, _) => None
        | (d, rest) => Some (String c (sg +:+ d), rest)
        end
      else Some (EmptyString, s3)
    | EmptyString => Some (EmptyString, s3)
    end;
  Some (sign +:+ int +:+ frac +:+ exp, s4).

Definition maxNestingDepth : N := 10000.

(** One value, leading blanks skipped; [elements] and [members] read the
    rest of an array or an object after a first blank-skipping. *)
Fixpoint parseValue (fuel : nat) (depth : N) (s : string)
  : option (value * string) :=
  match fuel with
  | O => None
  | S fuel' =>
    match skipWS s with
    | EmptyString => None
    | String c r =>
      let b := byte c in
      if (b =? 34)%N then
        '(t, rest) ← stringBody (String.length r) r; Some (Str t, rest)
      else if Ascii.eqb c "{" then
        if (depth <? maxNestingDepth)%N then
          match skipWS r with
          | String d r' =>
            if Ascii.eqb d "}" then Some (Object [], r')
            else '(ms, rest) ← members fuel' (depth + 1) (String d r');
                 Some (Object ms, rest)
          | EmptyString => None
          end
        else None
      else if Ascii.eqb c "[" then
        if (depth <? maxNestingDepth)%N then
          match skipWS r with
          | String d r' =>
            if Ascii.eqb d "]" then Some (Array [], r')
            else '(vs, rest) ← elements fuel' (depth + 1) (String d r');
                 Some (Array vs, rest)
          | EmptyString => None
          end
        else None
      else if HasPrefix (String c r) "true" then Some (Bool true, drop 4 (String c r))
      else if HasPrefix (String c r) "false" then Some (Bool false, drop 5 (String c r))
      else if HasPrefix (String c r) "null" then Some (Null, drop 4 (String c r))
      else '(lit, rest) ← numberLit (String c r); Some (Number lit, rest)
    end
  end
with elements (fuel : nat) (depth : N) (s : string)
  : option (list value * string) :=
  match fuel with
  | O => None
  | S fuel' =>
    '(v, rest) ← parseValue fuel' depth s;
    match skipWS rest with
    | String d r' =>
      if Ascii.eqb d "]" then Some ([v], r')
      else if Ascii.eqb d "," then
        '(vs, rest') ← elements fuel' depth r'; Some (v :: vs, rest')
      else None
    | EmptyString => None
    end
  end
with members (fuel : nat) (depth : N) (s : string)
  : option (list (string * value) * string) :=
  match fuel with
  | O => None
  | S fuel' =>
    match skipWS s with
    | String q r =>
      if (byte q =? 34)%N then
        '(k, rest) ← stringBody (String.length r) r;
        match skipWS rest with
        | String colon r1 =>
          if Ascii.eqb colon ":" then
            '(v, rest1) ← parseValue fuel' depth r1;
            match skipWS rest1 with
            | String d r' =>
              if Ascii.eqb d "}" then Some ([(k, v)], r')
              else if Ascii.eqb d "," then
                '(ms, rest') ← members fuel' depth r'; Some ((k, v) :: ms, rest')
              else None
            | EmptyString => None
            end
          else None
        | EmptyString => None
        end
      else None
    | EmptyString => None
    end
  end.

(** [checkValid] and the scan of [Unmarshal]: one value, blanks around it,
    nothing after.  [None] is a syntax error. *)
Definition parse (body : string) : option value :=
  '(v, rest) ← parseValue (2 * String.length body + 2) 0 body;
  match skipWS rest with
  | EmptyString => Some v
  | _ => None
  end.

(** *** Decoding into Go values

    Each decoder takes the value the destination holds and returns what it
    holds afterwards together with [true] when no [UnmarshalTypeError] was
    saved.  [null] leaves a string, a number or a struct as it is and
    empties a slice; a value of the wrong kind is a saved error and the
    destination is not touched.  An array is decoded into fresh elements,
    which is what Go does for a slice field that the object names once; on
    a repeated member Go decodes into the elements the earlier member left,
    so the statements about a decoded list below are made for objects that
    name it once. *)

Definition intoString (old : string) (v : value) : string * bool :=
  match v with
  | Str s => (s, true)
  | Null => (old, true)
  | _ => (old, false)
  end.

Definition intoInt64 (old : Z) (v : value) : Z * bool :=
  match v with
  | Number lit =>
    match strconv.ParseInt lit with
    | Some n => (n, true)
    | None => (old, false)
    end
  | Null => (old, true)
  | _ => (old, false)
  end.

(** The field a key selects: the one with that very name, else the first
    whose name equals the key under [EqualFold]; the result is its index in
    the struct's list of JSON names. *)
Fixpoint indexWhere (p : string -> bool) (names : list string) : option nat :=
  match names with
  | [] => None
  | n :: ns => if p n then Some 0%nat else S <$> indexWhere p ns
  end.

Definition field (names : list string) (key : string) : option nat :=
  match indexWhere (String.eqb key) names with
  | Some i => Some i
  | None => indexWhere (fun n => EqualFold n key) names
  end.

Section Composite.
Context {T : Type}.

(** The members of an object, in the order of the text, each stored by
    [set]; a later member overwrites what an earlier one stored. *)
Fixpoint intoFields (set : T -> string -> value -> T * bool)
    (old : T) (ms : list (string * value)) : T * bool :=
  match ms with
  | [] => (old, true)
  | (k, v) :: ms' =>
    let '(x, ok) := set old k v in
    let '(y, ok') := intoFields set x ms' in
    (y, ok && ok')
  end.

Definition intoStruct (set : T -> string -> value -> T * bool)
    (old : T) (v : value) : T * bool :=
  match v with
  | Object ms => intoFields set old ms
  | Null => (old, true)
  | _ => (old, false)
  end.

Fixpoint intoElems (elem : value -> T * bool) (vs : list value)
  : list T * bool :=
  match vs with
  | [] => ([], true)
  | v :: vs' =>
    let '(x, ok) := elem v in
    let '(xs, ok') := intoElems elem vs' in
    (x :: xs, ok && ok')
  end.

Definition intoSlice (elem : value -> T * bool) (old : list T) (v : value)
  : list T * bool :=
  match v with
  | Array vs => intoElems elem vs
  | Null => ([], true)
  | _ => (old, false)
  end.
End Composite.

End json.

(** ** Go's [error] values *)

Module errors.

(** The errors the program makes: a fresh message ([errors.New], or
    [fmt.Errorf] with no [%w]), the package variable [errAdamIDNotProvided],
    and [fmt.Errorf] with one [%w], which keeps the error it wraps next to
    the formatted text. *)
Inductive error : Type :=
| errorString (s : string)
| errAdamIDNotProvided
| wrapError (msg : string) (err : error).

Definition Error (e : error) : string :=
  match e with
  | errorString s => s
  | errAdamIDNotProvided => "adam-id not provided"
  | wrapError msg _ => msg
  end.

(** [errors.Is err errAdamIDNotProvided]: the chain of wrapped errors holds
    the package variable. *)
Fixpoint IsAdamIDNotProvided (e : error) : bool :=
  match e with
  | errorString _ => false
  | errAdamIDNotProvided => true
  | wrapError _ inner => IsAdamIDNotProvided inner
  end.

(** [fmt.Errorf (pre ++ "%w" ++ post) err]. *)
Definition Errorf_w (pre : string) (err : error) (post : string) : error :=
  wrapError (pre +:+ Error err +:+ post) err.

End errors.

(** ** cm_keywords.go: the response shapes and their classifier *)

Module cm.
Import utf8 strings errors.

Record cmKeywordItem : Type := {
  ID : Z;
  Name : string;
  Popularity : Z;
  MatchType : string
}.

Record cmSuccessResponse : Type := {
  RequestID : string;
  Status : string;
  Data : list cmKeywordItem
}.

Record cmCampaignItem : Type := {
  Campaign_ID : Z;
  Campaign_Name : string;
  AdamID : Z
}.

Record cmCampaignFindResponse : Type := {
  Find_RequestID : string;
  Find_Status : string;
  Find_Data : list cmCampaignItem
}.

Record cmErrorResponse : Type := {
  ErrorMsg : string;
  ErrorCode : string;
  InternalErrorCode : string
}.

Record cmNestedError : Type := {
  MessageCode : string;
  Message : string;
  Field : string
}.

Record cmErrorNestedResponse : Type := {
  Nested_RequestID : string;
  Nested_Status : string;
  Errors : list cmNestedError
}.

(** The zero values and, per struct, how one member of a JSON object is
    stored: the field is chosen by its [json] tag, a member that names no
    field is skipped. *)

Definition zeroKeywordItem : cmKeywordItem :=
  {| ID := 0; Name := ""; Popularity := 0; MatchType := "" |}.

Definition setKeywordItem (it : cmKeywordItem) (key : string) (v : json.value)
  : cmKeywordItem * bool :=
  match json.field ["id"; "name"; "popularity"; "matchType"] key with
  | Some 0%nat =>
    let '(x, ok) := json.intoInt64 (ID it) v in
    ({| ID := x; Name := Name it; Popularity := Popularity it;
        MatchType := MatchType it |}, ok)
  | Some 1%nat =>
    let '(x, ok) := json.intoString (Name it) v in
    ({| ID := ID it; Name := x; Popularity := Popularity it;
        MatchType := MatchType it |}, ok)
  | Some 2%nat =>
    let '(x, ok) := json.intoInt64 (Popularity it) v in
    ({| ID := ID it; Name := Name it; Popularity := x;
        MatchType := MatchType it |}, ok)
  | Some 3%nat =>
    let '(x, ok) := json.intoString (MatchType it) v in
    ({| ID := ID it; Name := Name it; Popularity := Popularity it;
        MatchType := x |}, ok)
  | _ => (it, true)
  end.

Definition elemKeywordItem (v : json.value) : cmKeywordItem * bool :=
  json.intoStruct setKeywordItem zeroKeywordItem v.

(** The JSON names of the three fields of [cmSuccessResponse] and of
    [cmCampaignFindResponse]; the data list is the third. *)
Definition envelopeNames : list string := ["requestID"; "status"; "data"].

Definition zeroSuccessResponse : cmSuccessResponse :=
  {| RequestID := ""; Status := ""; Data := [] |}.

Definition setSuccessResponse (r : cmSuccessResponse) (key : string)
    (v : json.value) : cmSuccessResponse * bool :=
  match json.field envelopeNames key with
  | Some 0%nat =>
    let '(x, ok) := json.intoString (RequestID r) v in
    ({| RequestID := x; Status := Status r; Data := Data r |}, ok)
  | Some 1%nat =>
    let '(x, ok) := json.intoString (Status r) v in
    ({| RequestID := RequestID r; Status := x; Data := Data r |}, ok)
  | Some 2%nat =>
    let '(x, ok) := json.intoSlice elemKeywordItem (Data r) v in
    ({| RequestID := RequestID r; Status := Status r; Data := x |}, ok)
  | _ => (r, true)
  end.

Definition zeroCampaignItem : cmCampaignItem :=
  {| Campaign_ID := 0; Campaign_Name := ""; AdamID := 0 |}.

Definition setCampaignItem (it : cmCampaignItem) (key : string) (v : json.value)
  : cmCampaignItem * bool :=
  match json.field ["id"; "name"; "adamId"] key with
  | Some 0%nat =>
    let '(x, ok) := json.intoInt64 (Campaign_ID it) v in
    ({| Campaign_ID := x; Campaign_Name := Campaign_Name it;
        AdamID := AdamID it |}, ok)
  | Some 1%nat =>
    let '(x, ok) := json.intoString (Campaign_Name it) v in
    ({| Campaign_ID := Campaign_ID it; Campaign_Name := x;
        AdamID := AdamID it |}, ok)
  | Some 2%nat =>
    let '(x, ok) := json.intoInt64 (AdamID it) v in
    ({| Campaign_ID := Campaign_ID it; Campaign_Name := Campaign_Name it;
        AdamID := x |}, ok)
  | _ => (it, true)
  end.

Definition elemCampaignItem (v : json.value) : cmCampaignItem * bool :=
  json.intoStruct setCampaignItem zeroCampaignItem v.

Definition zeroCampaignFindResponse : cmCampaignFindResponse :=
  {| Find_RequestID := ""; Find_Status := ""; Find_Data := [] |}.

Definition setCampaignFindResponse (r : cmCampaignFindResponse) (key : string)
    (v : json.value) : cmCampaignFindResponse * bool :=
  match json.field envelopeNames key with
  | Some 0%nat =>
    let '(x, ok) := json.intoString (Find_RequestID r) v in
    ({| Find_RequestID := x; Find_Status := Find_Status r;
        Find_Data := Find_Data r |}, ok)
  | Some 1%nat =>
    let '(x, ok) := json.intoString (Find_Status r) v in
    ({| Find_RequestID := Find_RequestID r; Find_Status := x;
        Find_Data := Find_Data r |}, ok)
  | Some 2%nat =>
    let '(x, ok) := json.intoSlice elemCampaignItem (Find_Data r) v in
    ({| Find_RequestID := Find_RequestID r; Find_Status := Find_Status r;
        Find_Data := x |}, ok)
  | _ => (r, true)
  end.

Definition zeroErrorResponse : cmErrorResponse :=
  {| ErrorMsg := ""; ErrorCode := ""; InternalErrorCode := "" |}.

Definition setErrorResponse (r : cmErrorResponse) (key : string)
    (v : json.value) : cmErrorResponse * bool :=
  match json.field ["errorMsg"; "errorCode"; "internalErrorCode"] key with
  | Some 0%nat =>
    let '(x, ok) := json.intoString (ErrorMsg r) v in
    ({| ErrorMsg := x; ErrorCode := ErrorCode r;
        InternalErrorCode := InternalErrorCode r |}, ok)
  | Some 1%nat =>
    let '(x, ok) := json.intoString (ErrorCode r) v in
    ({| ErrorMsg := ErrorMsg r; ErrorCode := x;
        InternalErrorCode := InternalErrorCode r |}, ok)
  | Some 2%nat =>
    let '(x, ok) := json.intoString (InternalErrorCode r) v in
    ({| ErrorMsg := ErrorMsg r; ErrorCode := ErrorCode r;
        InternalErrorCode := x |}, ok)
  | _ => (r, true)
  end.

Definition zeroNestedError : cmNestedError :=
  {| MessageCode := ""; Message := ""; Field := "" |}.

Definition setNestedError (e : cmNestedError) (key : string) (v : json.value)
  : cmNestedError * bool :=
  match json.field ["messageCode"; "message"; "field"] key with
  | Some 0%nat =>
    let '(x, ok) := json.intoString (MessageCode e) v in
    ({| MessageCode := x; Message := Message e; Field := Field e |}, ok)
  | Some 1%nat =>
    let '(x, ok) := json.intoString (Message e) v in
    ({| MessageCode := MessageCode e; Message := x; Field := Field e |}, ok)
  | Some 2%nat =>
    let '(x, ok) := json.intoString (Field e) v in
    ({| MessageCode := MessageCode e; Message := Message e; Field := x |}, ok)
  | _ => (e, true)
  end.

Definition elemNestedError (v : json.value) : cmNestedError * bool :=
  json.intoStruct setNestedError zeroNestedError v.

(** The anonymous struct under the [error] key, with its one field. *)
Definition setErrorList (l : list cmNestedError) (key : string) (v : json.value)
  : list cmNestedError * bool :=
  match json.field ["errors"] key with
  | Some 0%nat => json.intoSlice elemNestedError l v
  | _ => (l, true)
  end.

Definition zeroErrorNestedResponse : cmErrorNestedResponse :=
  {| Nested_RequestID := ""; Nested_Status := ""; Errors := [] |}.

Definition setErrorNestedResponse (r : cmErrorNestedResponse) (key : string)
    (v : json.value) : cmErrorNestedResponse * bool :=
  match json.field ["requestID"; "status"; "error"] key with
  | Some 0%nat =>
    let '(x, ok) := json.intoString (Nested_RequestID r) v in
    ({| Nested_RequestID := x; Nested_Status := Nested_Status r;
        Errors := Errors r |}, ok)
  | Some 1%nat =>
    let '(x, ok) := json.intoString (Nested_Status r) v in
    ({| Nested_RequestID := Nested_RequestID r; Nested_Status := x;
        Errors := Errors r |}, ok)
  | Some 2%nat =>
    let '(x, ok) := json.intoStruct setErrorList (Errors r) v in
    ({| Nested_RequestID := Nested_RequestID r;
        Nested_Status := Nested_Status r; Errors := x |}, ok)
  | _ => (r, true)
  end.

(** [json.Unmarshal body &x] on a zero [x]: the value [x] holds afterwards
    and [true] when the returned error is nil. *)
Definition Unmarshal {T : Type} (set : T -> string -> json.value -> T * bool)
    (zero : T) (body : string) : T * bool :=
  match json.parse body with
  | Some v => json.intoStruct set zero v
  | None => (zero, false)
  end.

Definition nonEmpty (s : string) : bool := negb (String.eqb s "").

Definition statusIsSuccess (status : string) : bool :=
  String.eqb status "" || EqualFold status "success".

Definition flatError (endpoint : string) (er : cmErrorResponse) : error :=
  errorString ("cm " +:+ endpoint +:+ " error (" +:+ TrimSpace (ErrorCode er)
               +:+ "/" +:+ TrimSpace (InternalErrorCode er) +:+ "): "
               +:+ TrimSpace (ErrorMsg er)).

Definition nestedError (endpoint : string) (first : cmNestedError) : error :=
  errorString ("cm " +:+ endpoint +:+ " error (" +:+ TrimSpace (MessageCode first)
               +:+ "): " +:+ TrimSpace (Message first)).

Definition unexpectedResponse (endpoint body : string) : error :=
  errorString ("cm " +:+ endpoint +:+ ": unexpected response: " +:+ TrimSpace body).

(** What follows the success test in both parsers: the flat error shape,
    the nested one, then the echo of the body. *)
Definition parseCMErrorShapes (endpoint body : string) : error :=
  let '(er, ok) := Unmarshal setErrorResponse zeroErrorResponse body in
  if ok && (nonEmpty (ErrorMsg er) || nonEmpty (ErrorCode er)
            || nonEmpty (InternalErrorCode er))
  then flatError endpoint er
  else
    let '(n, ok) := Unmarshal setErrorNestedResponse zeroErrorNestedResponse body in
    match ok, Errors n with
    | true, first :: _ => nestedError endpoint first
    | _, _ => unexpectedResponse endpoint body
    end.

Definition parseCMKeywordData (endpoint body : string)
  : list cmKeywordItem + error :=
  let '(ok, noerr) := Unmarshal setSuccessResponse zeroSuccessResponse body in
  if noerr && statusIsSuccess (Status ok) then inl (Data ok)
  else inr (parseCMErrorShapes endpoint body).

Definition parseCMCampaignData (endpoint body : string)
  : list cmCampaignItem + error :=
  let '(ok, noerr) :=
    Unmarshal setCampaignFindResponse zeroCampaignFindResponse body in
  if noerr && statusIsSuccess (Find_Status ok) then inl (Find_Data ok)
  else inr (parseCMErrorShapes endpoint body).

(** *** Classification of an error by its text *)

Definition noOwnedAppsSentinel : string := "no_user_owned_apps_found_code".

(** The needle [internalerrorcode":"refresh], quotes included. *)
Definition refreshCodeNeedle : string :=
  "internalerrorcode" +:+ strconv.dquote +:+ ":" +:+ strconv.dquote +:+ "refresh".

Definition isCMRefreshError (err : option error) : bool :=
  match err with
  | None => false
  | Some e =>
    let s := ToLower (Error e) in
    if Contains s noOwnedAppsSentinel then false
    else Contains s refreshCodeNeedle
         || Contains s "user is not logged in"
         || (Contains s "cm endpoint http 403"
             && negb (Contains s noOwnedAppsSentinel))
  end.

Definition isCMNoUserOwnedAppsError (err : option error) : bool :=
  match err with
  | None => false
  | Some e => Contains (ToLower (Error e)) noOwnedAppsSentinel
  end.

End cm.

(** ** Go's [net/url]: the part of [url.Parse] the resolver reads *)

Module url.
Import utf8 strings.

Record URL : Type := {
  Scheme : string;
  Opaque : string;
  Host : string;
  Path : string;
  RawPath : string;
  RawQuery : string
}.

Inductive encoding : Type :=
| encodePath | encodeHost | encodeZone | encodeUserPassword
| encodeQueryComponent | encodeFragment.

Definition isAlnum (b : N) : bool :=
  between 97 122 b || between 65 90 b || between 48 57 b.

Definition isOneOf (set : string) (c : ascii) : bool :=
  match IndexByte set c with Some _ => true | None => false end.

(** [shouldEscape] in the two modes the parser asks about. *)
Definition shouldEscapeHost (c : ascii) : bool :=
  negb (isAlnum (byte c)
        || isOneOf "!$&'()*+,;=:[]<>" c || (byte c =? 34)%N
        || isOneOf "-_.~" c).

Definition shouldEscapePath (c : ascii) : bool :=
  negb (isAlnum (byte c) || isOneOf "-_.~" c || isOneOf "$&+,/:;=@" c).

Definition ishex (c : ascii) : bool :=
  match json.unhex c with Some _ => true | None => false end.

Definition hexval (c : ascii) : N :=
  match json.unhex c with Some n => n | None => 0%N end.

(** The check of [unescape]: escapes are a percent sign and two hex digits;
    in a host only bytes past ASCII may be escaped (and [%25]), and the
    plain ASCII bytes are those a host allows. *)
Fixpoint unescapeOK (mode : encoding) (s : string) : bool :=
  match s with
  | EmptyString => true
  | String c r =>
    if Ascii.eqb c "%" then
      match r with
      | String h1 (String h2 r') =>
        ishex h1 && ishex h2
        && match mode with
           | encodeHost =>
             negb ((hexval h1 <? 8)%N
                   && negb (Ascii.eqb h1 "2" && Ascii.eqb h2 "5"))
           | encodeZone =>
             let v := chr (hexval h1 * 16 + hexval h2) in
             negb (negb (Ascii.eqb h1 "2" && Ascii.eqb h2 "5")
                   && negb (Ascii.eqb v " ") && shouldEscapeHost v)
           | _ => true
           end
        && unescapeOK mode r'
      | _ => false
      end
    else
      match mode with
      | encodeHost | encodeZone =>
        negb ((byte c <? 128)%N && shouldEscapeHost c) && unescapeOK mode r
      | _ => unescapeOK mode r
      end
  end.

Fixpoint unescapeBytes (plus : bool) (s : string) : string :=
  match s with
  | EmptyString => EmptyString
  | String c r =>
    if Ascii.eqb c "%" then
      match r with
      | String h1 (String h2 r') =>
        String (chr (hexval h1 * 16 + hexval h2)) (unescapeBytes plus r')
      | _ => s
      end
    else if plus && Ascii.eqb c "+" then String " " (unescapeBytes plus r)
    else String c (unescapeBytes plus r)
  end.

(** [unescape s mode]; [None] is an [EscapeError] or [InvalidHostError]. *)
Definition unescape (s : string) (mode : encoding) : option string :=
  if unescapeOK mode s
  then Some (unescapeBytes
               match mode with encodeQueryComponent => true | _ => false end s)
  else None.

Definition upperhex (n : N) : ascii :=
  if (n <? 10)%N then chr (48 + n) else chr (55 + n).

(** [escape s encodePath]. *)
Fixpoint escapePath (s : string) : string :=
  match s with
  | EmptyString => EmptyString
  | String c r =>
    if shouldEscapePath c
    then String "%" (String (upperhex (N.shiftr (byte c) 4))
                       (String (upperhex (N.land (byte c) 15)) (escapePath r)))
    else String c (escapePath r)
  end.

Fixpoint stringContainsCTLByte (s : string) : bool :=
  match s with
  | EmptyString => false
  | String c r => (byte c <? 32)%N || (byte c =? 127)%N || stringContainsCTLByte r
  end.

Definition isLetter (c : ascii) : bool :=
  between 97 122 (byte c) || between 65 90 (byte c).

(** [getScheme]: the scheme and the rest; [None] is the error for a colon
    at the start. *)
Fixpoint getSchemeFrom (i : nat) (s whole : string) : option (string * string) :=
  match s with
  | EmptyString => Some (EmptyString, whole)
  | String c r =>
    if isLetter c then getSchemeFrom (S i) r whole
    else if strconv.isDigit c || isOneOf "+-." c then
      match i with
      | O => Some (EmptyString, whole)
      | _ => getSchemeFrom (S i) r whole
      end
    else if Ascii.eqb c ":" then
      match i with
      | O => None
      | _ => Some (take i whole, r)
      end
    else Some (EmptyString, whole)
  end.

Definition getScheme (rawURL : string) : option (string * string) :=
  getSchemeFrom 0 rawURL rawURL.

Fixpoint allDigits (s : string) : bool :=
  match s with
  | EmptyString => true
  | String c r => strconv.isDigit c && allDigits r
  end.

Definition validOptionalPort (port : string) : bool :=
  match port with
  | EmptyString => true
  | String c r => Ascii.eqb c ":" && allDigits r
  end.

Fixpoint indexOf (sub s : string) (i : nat) : option nat :=
  if String.prefix sub s then Some i
  else match s with
       | String _ r => indexOf sub r (S i)
       | EmptyString => None
       end.

(** [parseHost], as a check: the port after the last colon (or after the
    closing bracket of an IP literal) is digits, and the host unescapes. *)
Definition parseHostOK (host : string) : bool :=
  if HasPrefix host "[" then
    match LastIndexByte host "]" with
    | None => false
    | Some i =>
      validOptionalPort (drop (S i) host)
      && match indexOf "%25" (take i host) 0 with
         | Some zone =>
           unescapeOK encodeHost (take zone host)
           && unescapeOK encodeZone (take (i - zone) (drop zone host))
           && unescapeOK encodeHost (drop i host)
         | None => unescapeOK encodeHost host
         end
    end
  else
    match LastIndexByte host ":" with
    | Some i => validOptionalPort (drop i host)
    | None => true
    end
    && unescapeOK encodeHost host.

Fixpoint validUserinfo (s : string) : bool :=
  match s with
  | EmptyString => true
  | String c r =>
    (isAlnum (byte c) || isOneOf "-._:~!$&'()*+,;=%@" c) && validUserinfo r
  end.

Definition parseAuthorityOK (authority : string) : bool :=
  match LastIndexByte authority "@" with
  | None => parseHostOK authority
  | Some i =>
    let userinfo := take i authority in
    parseHostOK (drop (S i) authority)
    && validUserinfo userinfo
    && (let '(username, password, _) := Cut userinfo ":" in
        unescapeOK encodeUserPassword username
        && unescapeOK encodeUserPassword password)
  end.

Definition hostOf (authority : string) : string :=
  match LastIndexByte authority "@" with
  | None => authority
  | Some i => drop (S i) authority
  end.

Definition nonEmpty (s : string) : bool := negb (String.eqb s EmptyString).

(** [parse rawURL false].  The host is kept as written; the program never
    reads it. *)
Definition parse (rawURL : string) : option URL :=
  if stringContainsCTLByte rawURL then None
  else if String.eqb rawURL "*" then
    Some {| Scheme := ""; Opaque := ""; Host := ""; Path := "*";
            RawPath := ""; RawQuery := "" |}
  else
    '(scheme, rest) ← getScheme rawURL;
    let scheme := ToLower scheme in
    let '(rest, rawQuery) :=
      if HasSuffix rest "?" && (CountByte rest "?" =? 1)%nat
      then (take (String.length rest - 1) rest, EmptyString)
      else let '(a, b, _) := Cut rest "?" in (a, b) in
    if negb (HasPrefix rest "/") && nonEmpty scheme then
      Some {| Scheme := scheme; Opaque := rest; Host := ""; Path := "";
              RawPath := ""; RawQuery := rawQuery |}
    else if negb (HasPrefix rest "/")
            && (let '(segment, _, _) := Cut rest "/" in Contains segment ":")
    then None
    else
      '(host, rest) ←
        (if (nonEmpty scheme || negb (HasPrefix rest "///"))
            && HasPrefix rest "//"
         then
           let authority := drop 2 rest in
           let '(authority, rest) :=
             match IndexByte authority "/" with
             | Some i => (take i authority, drop i authority)
             | None => (authority, EmptyString)
             end in
           if parseAuthorityOK authority then Some (hostOf authority, rest)
           else None
         else Some (EmptyString, rest));
      path ← unescape rest encodePath;
      Some {| Scheme := scheme; Opaque := ""; Host := host; Path := path;
              RawPath := if String.eqb rest (escapePath path)
                         then EmptyString else rest;
              RawQuery := rawQuery |}.

(** [url.Parse]: the fragment is cut off first and must unescape. *)
Definition Parse (rawURL : string) : option URL :=
  let '(u, frag, _) := Cut rawURL "#" in
  url ← parse u;
  if String.eqb frag EmptyString then Some url
  else if unescapeOK encodeFragment frag then Some url else None.

Definition QueryUnescape (s : string) : option string :=
  unescape s encodeQueryComponent.

(** [u.Query().Get key]: [parseQuery] drops a pair that holds a semicolon or
    does not unescape and keeps going; [Get] gives the first value stored
    under [key], the empty string when there is none. *)
Fixpoint firstValue (pairs : list string) (key : string) : string :=
  match pairs with
  | [] => EmptyString
  | kv :: rest =>
    if Contains kv ";" || String.eqb kv EmptyString then firstValue rest key
    else
      let '(k, v, _) := Cut kv "=" in
      match QueryUnescape k, QueryUnescape v with
      | Some k', Some v' =>
        if String.eqb k' key then v' else firstValue rest key
      | _, _ => firstValue rest key
      end
  end.

Definition QueryGet (u : URL) (key : string) : string :=
  firstValue (Split (RawQuery u) "&") key.

End url.

(** ** adam_id.go: from the flags to an adam-id *)

Module adamid.
Import utf8 strings errors.

Definition defaultAdamCountry : string := "US".

(** [appStoreIDPattern.FindStringSubmatch s], its group 1: the digits of the
    leftmost [id] that five or more digits follow, all of them. *)
Fixpoint appStoreIDPattern (s : string) : option string :=
  match s with
  | EmptyString => None
  | String _ r =>
    if HasPrefix s "id" then
      let ds := fst (json.spanDigits (drop 2 s)) in
      if (5 <=? String.length ds)%nat then Some ds else appStoreIDPattern r
    else appStoreIDPattern r
  end.

Definition parseAdamIDFromText (s : string) : Z :=
  match appStoreIDPattern s with
  | None => 0
  | Some m1 =>
    match strconv.ParseInt (TrimSpace m1) with
    | Some n => if (n <=? 0)%Z then 0 else n
    | None => 0
    end
  end.

(** [n, err := strconv.ParseInt ...; err == nil && n > 0]. *)
Definition parsedPositive (r : option Z) : option Z :=
  match r with
  | Some n => if (0 <? n)%Z then Some n else None
  | None => None
  end.

(** The [*url.Error] of a failed [url.Parse], under [invalid URL: %w]; the
    wording of the library's own message is not reproduced. *)
Definition invalidURL (s : string) : error :=
  Errorf_w "invalid URL: " (errorString ("parse " +:+ strconv.Quote s)) "".

(** Scheme-less App Store links are accepted. *)
Definition withScheme (s : string) : string :=
  if negb (Contains s "://") then "https://" +:+ TrimLeftByte s "/" else s.

Definition parseAdamIDFromAppURL (raw : string) : Z + error :=
  let s := TrimSpace raw in
  if String.eqb s "" then inr (errorString "empty value")
  else
    match parsedPositive (strconv.ParseInt s) with
    | Some n => inl n
    | None =>
      let s := withScheme s in
      match url.Parse s with
      | None => inr (invalidURL s)
      | Some u =>
        if (0 <? parseAdamIDFromText (url.Path u))%Z
        then inl (parseAdamIDFromText (url.Path u))
        else if (0 <? parseAdamIDFromText (url.RawPath u))%Z
        then inl (parseAdamIDFromText (url.RawPath u))
        else
          let qid := TrimSpace (url.QueryGet u "id") in
          match parsedPositive (if negb (String.eqb qid "")
                                then strconv.ParseInt qid else None) with
          | Some n => inl n
          | None =>
            if (0 <? parseAdamIDFromText raw)%Z
            then inl (parseAdamIDFromText raw)
            else inr (errorString ("could not find adam-id in "
                                   +:+ strconv.Quote raw))
          end
      end
    end.

End adamid.

(** ** Go's [net/http]: header keys, requests, responses *)

Module http.
Import utf8 strings.

(** [validHeaderFieldByte]: the token bytes of RFC 7230. *)
Definition validHeaderFieldByte (c : ascii) : bool :=
  url.isAlnum (byte c) || url.isOneOf "!#$%&'*+-.^_`|~" c.

Fixpoint allValid (s : string) : bool :=
  match s with
  | EmptyString => true
  | String c r => validHeaderFieldByte c && allValid r
  end.

(** One step of the loop of [canonicalMIMEHeaderKey]: upper case at the
    start and after a dash, lower case elsewhere. *)
Definition canonByte (upper : bool) (c : ascii) : ascii :=
  let b := byte c in
  if upper && between 97 122 b then chr (b - 32)
  else if negb upper && between 65 90 b then chr (b + 32)
  else c.

Fixpoint canonical (upper : bool) (s : string) : string :=
  match s with
  | EmptyString => EmptyString
  | String c r =>
    let c' := canonByte upper c in
    String c' (canonical (Ascii.eqb c' "-") r)
  end.

(** [textproto.CanonicalMIMEHeaderKey]: a key with a byte that is not a
    token byte is returned as it is. *)
Definition CanonicalMIMEHeaderKey (s : string) : string :=
  if allValid s then canonical true s else s.

(** [http.Header] and its [Set]. *)
Abbreviation Header := (gmap string (list string)).

Definition Set_ (key value : string) (h : Header) : Header :=
  <[CanonicalMIMEHeaderKey key := [value]]> h.

(** [h.Get key]: the first value under the canonical key, or empty. *)
Definition Get (h : Header) (key : string) : string :=
  match h !! CanonicalMIMEHeaderKey key with
  | Some (v :: _) => v
  | _ => EmptyString
  end.

(** A request as the program builds it: the URL before its query is
    encoded, the query as the pairs [url.Values.Encode] writes (sorted by
    key), and the value [json.Marshal] serialises as the body. *)
Record Request : Type := {
  Method : string;
  URL : string;
  Query : list (string * string);
  Header_ : Header;
  Body : option json.value
}.

(** What [client.Do] and [io.ReadAll] give back when neither fails. *)
Record Response : Type := {
  StatusCode : Z;
  RespBody : string
}.

End http.

(** ** The command's environment and effects *)

Module env.
Import errors.

Record cmCookieRefreshOptions : Type := {
  URL : string;
  ProfileDir : string;
  OutPath : string;
  Headed : bool;
  CloseBrowser : bool;
  Timeout : Z;
  Prompt : bool
}.

(** What a run does to the outside, in order. *)
Inductive event : Type :=
| Stderr (text : string)
| Do (req : http.Request)
| Refresh (opts : cmCookieRefreshOptions).

(** [os.ReadFile]: the content, an error that is [os.ErrNotExist], or
    another error. *)
Inductive readResult : Type :=
| fileContent (b : string)
| fileNotExist (err : error)
| fileError (err : error).

(** The collaborators of a run.  Each answer may depend on what the run
    has done so far, so that a stub can fail first and succeed later.
    [client_Do] stands for [client.Do] followed by [io.ReadAll];
    [refreshCMCookieInteractively] is the Playwright login of
    cm_cookie.go; cancellation and timeouts are not modelled. *)
Record World : Type := {
  client_Do : list event -> http.Request -> http.Response + error;
  refreshCMCookieInteractively :
    list event -> cmCookieRefreshOptions -> string + error;
  os_ReadFile : string -> readResult;
  defaultCMCookieFilePath : string
}.

(** The values of the command's flags, defaults applied by cobra. *)
Record Flags : Type := {
  countries_ : string;
  adam_id : Z;
  app_url : string;
  bundle_id : string;
  app_name : string;
  adam_country : string;
  cookie_ : string;
  cookie_file : string;
  auto_cookie : bool;
  cookie_profile_dir : string;
  header_ : list string;
  timeout_ : Z;
  keywords_ : string;
  keywords_file : string;
  text_ : string;
  limit_ : Z;
  min_popularity : Z
}.

(** A computation that appends to the log of events. *)
Definition M (A : Type) : Type := list event -> A * list event.

Definition ret {A : Type} (a : A) : M A := fun log => (a, log).

Definition bind {A B : Type} (m : M A) (k : A -> M B) : M B :=
  fun log => let '(a, log') := m log in k a log'.

Definition emit (e : event) : M unit := fun log => (tt, log ++ [e]).

Definition Fprint (text : string) : M unit := emit (Stderr text).

Definition run {A : Type} (m : M A) : A * list event := m [].

End env.

#[global] Instance M_ret : MRet env.M := @env.ret.
#[global] Instance M_bind : MBind env.M := fun A B k m => env.bind m k.

(** ** cm_keywords.go and adam_id.go: requests, recovery, the two commands *)

Module aso.
Import utf8 strings errors cm env.

Definition cmAPIBase : string := "https://app-ads.apple.com/cm/api/v2".
Definition itunesLookupURL : string := "https://itunes.apple.com/lookup".
Definition itunesSearchURL : string := "https://itunes.apple.com/search".

Definition nl : string := String (chr 10) EmptyString.

(** [fmt.Fprintln os.Stderr text]. *)
Definition Fprintln (text : string) : M unit := Fprint (text +:+ nl).

Definition errOf {A : Type} (r : A + error) : option error :=
  match r with inl _ => None | inr e => Some e end.

Definition isErr {A : Type} (r : A + error) : bool :=
  match r with inl _ => false | inr _ => true end.

Definition normKeyword (s : string) : string := ToLower (TrimSpace s).

(** *** The cookie and the headers of a request *)

Definition cookieValue (cookieHeader key : string) : string :=
  let target := ToLower (TrimSpace key) in
  let fix scan (parts : list string) : string :=
    match parts with
    | [] => ""
    | part :: rest =>
      let part := TrimSpace part in
      if String.eqb part "" then scan rest
      else
        match IndexByte part "=" with
        | None | Some O => scan rest
        | Some i =>
          let k := ToLower (TrimSpace (take i part)) in
          if String.eqb k target then TrimSpace (drop (S i) part)
          else scan rest
        end
    end in
  scan (Split cookieHeader ";").

(** A Go [map[string]string] is the list of its entries, keys distinct, in
    the order a [range] over it visits them; that order is the runtime's
    choice, so a property of the program holds for every such list. *)
Definition hasHeaderCaseInsensitive (headers : list (string * string))
    (name : string) : bool :=
  let target := ToLower (TrimSpace name) in
  existsb (fun kv => String.eqb (ToLower (TrimSpace (fst kv))) target) headers.

Definition userAgent : string :=
  "Mozilla/5.0 (Macintosh; Intel Mac OS X 10_15_7) AppleWebKit/537.36 (KHTML, like Gecko) Chrome/122.0.0.0 Safari/537.36".

(** The headers [cmGetJSON] and [cmPostJSON] set, in the order of the
    source: the fixed ones with the cookie, the anti-forgery token, then the
    caller's.  Only [cmPostJSON] sets [Content-Type]. *)
Definition fixedHeaders (post : bool) (cookie : string) : http.Header :=
  let h : http.Header := http.Set_ "Accept" "application/json" ∅ in
  let h := if post then http.Set_ "Content-Type" "application/json" h else h in
  let h := http.Set_ "Cookie" cookie h in
  let h := http.Set_ "Origin" "https://app-ads.apple.com" h in
  let h := http.Set_ "Referer" "https://app-ads.apple.com/" h in
  let h := http.Set_ "X-Requested-With" "XMLHttpRequest" h in
  http.Set_ "User-Agent" userAgent h.

Definition withToken (cookie : string) (extraHeaders : list (string * string))
    (h : http.Header) : http.Header :=
  let token := cookieValue cookie "XSRF-TOKEN-CM" in
  if negb (String.eqb token "") then
    if negb (hasHeaderCaseInsensitive extraHeaders "X-XSRF-TOKEN-CM")
    then http.Set_ "X-XSRF-TOKEN-CM" token h
    else h
  else h.

Definition withExtra (extraHeaders : list (string * string)) (h : http.Header)
  : http.Header :=
  fold_left (fun h kv => http.Set_ (fst kv) (snd kv) h) extraHeaders h.

Definition requestHeader (post : bool) (cookie : string)
    (extraHeaders : list (string * string)) : http.Header :=
  withExtra extraHeaders (withToken cookie extraHeaders (fixedHeaders post cookie)).

(** *** Rows and what becomes of the items of one country *)

Record asoPopscoreRow : Type := {
  Keyword : string;
  Country : string;
  Popscore_Popularity : option Z;
  Popscore_MatchType : option string;
  Found : bool;
  Popscore_Source : string
}.

Record asoRecommendRow : Type := {
  Recommend_Country : string;
  Seed : string;
  Term : string;
  Recommend_Popularity : option Z;
  Recommend_MatchType : option string;
  Rank : Z;
  Recommend_Source : string
}.

Definition matchTypePtr (it : cmKeywordItem) : option string :=
  let mt := TrimSpace (MatchType it) in
  if negb (String.eqb mt "") then Some mt else None.

Definition popscoreRows (keywords : list string) (cc : string)
    (respItems : list cmKeywordItem) : list asoPopscoreRow :=
  let byName : gmap string cmKeywordItem :=
    fold_left (fun m it => <[normKeyword (Name it) := it]> m) respItems ∅ in
  map (fun kw =>
         match byName !! normKeyword kw with
         | Some it =>
           {| Keyword := kw; Country := cc;
              Popscore_Popularity := Some (Popularity it);
              Popscore_MatchType := matchTypePtr it;
              Found := true; Popscore_Source := "cm_api_v2" |}
         | None =>
           {| Keyword := kw; Country := cc; Popscore_Popularity := None;
              Popscore_MatchType := None; Found := false;
              Popscore_Source := "cm_api_v2" |}
         end) keywords.

(** The test of the [kept] loop: neither [continue] is taken. *)
Definition keep (minPop : Z) (it : cmKeywordItem) : bool :=
  negb (Popularity it <? minPop)%Z
  && negb (String.eqb (TrimSpace (Name it)) "").

(** The [less] closure handed to [sort.Slice]. *)
Definition less (a b : cmKeywordItem) : bool :=
  if negb (Popularity a =? Popularity b)%Z
  then (Popularity b <? Popularity a)%Z
  else String.ltb (ToLower (Name a)) (ToLower (Name b)).

(** [sort.Slice]: the insertion sort Go runs on a slice of at most twelve
    elements ([insertionSortLessFunc]): each element in turn is swapped
    towards the front while it is less than the one before it.  [placed]
    is the sorted prefix, last element first.  On a longer slice Go
    switches to pattern-defeating quicksort, which may order elements that
    compare equal differently; what is proved about the rows uses only
    that the result is an ordered permutation. *)
Fixpoint insertBack (x : cmKeywordItem) (placed : list cmKeywordItem)
  : list cmKeywordItem :=
  match placed with
  | y :: rest => if less x y then y :: insertBack x rest else x :: placed
  | [] => [x]
  end.

Definition sortSlice (kept : list cmKeywordItem) : list cmKeywordItem :=
  rev (fold_left (fun placed x => insertBack x placed) kept []).

(** [kept[:limit]] when [len kept > limit]; [limit] is positive here. *)
Definition truncate (limit : Z) (kept : list cmKeywordItem) : list cmKeywordItem :=
  if (limit <? Z.of_nat (length kept))%Z then firstn (Z.to_nat limit) kept else kept.

Definition recommendRow (cc seed : string) (i : nat) (it : cmKeywordItem)
  : asoRecommendRow :=
  {| Recommend_Country := cc; Seed := seed; Term := Name it;
     Recommend_Popularity := Some (Popularity it);
     Recommend_MatchType := matchTypePtr it;
     Rank := Z.of_nat i + 1; Recommend_Source := "cm_api_v2" |}.

(** The body of the recommend loop after the call: filter, sort, cut, rank.
    [limit] and [minPop] are the flag values; a limit that is not positive
    is replaced by 50 before the loop. *)
Definition effectiveLimit (limit : Z) : Z :=
  if (limit <=? 0)%Z then 50 else limit.

Definition recommendRows (seed : string) (limit minPop : Z) (cc : string)
    (items : list cmKeywordItem) : list asoRecommendRow :=
  let kept := List.filter (keep minPop) items in
  let kept := sortSlice kept in
  let kept := truncate limit kept in
  imap (recommendRow cc seed) kept.

(** *** Requests to the Apple Ads endpoints *)

Section Run.
Variable w : World.
Variable cmd : Flags.

(** [client.Do req] and the read of the body, logged. *)
Definition send (req : http.Request) : M (http.Response + error) :=
  fun log => (client_Do w log req, log ++ [Do req]).

(** The end of [cmGetJSON] and [cmPostJSON]: a transport error as it is,
    a status outside 2xx as an error with the code and the body. *)
Definition checkStatus (r : http.Response + error) : string + error :=
  match r with
  | inr err => inr err
  | inl resp =>
    if (http.StatusCode resp <? 200)%Z || (300 <=? http.StatusCode resp)%Z
    then inr (errorString ("cm endpoint HTTP "
                           +:+ strconv.FormatInt (http.StatusCode resp)
                           +:+ ": " +:+ TrimSpace (http.RespBody resp)))
    else inl (http.RespBody resp)
  end.

Definition cmGetJSON (url : string) (cookie : string)
    (extraHeaders : list (string * string)) : M (string + error) :=
  r ← send {| http.Method := "GET"; http.URL := url; http.Query := [];
              http.Header_ := requestHeader false cookie extraHeaders;
              http.Body := None |};
  mret (checkStatus r).

Definition cmPostJSON (url : string) (query : list (string * string))
    (body : json.value) (cookie : string)
    (extraHeaders : list (string * string)) : M (string + error) :=
  r ← send {| http.Method := "POST"; http.URL := url; http.Query := query;
              http.Header_ := requestHeader true cookie extraHeaders;
              http.Body := Some body |};
  mret (checkStatus r).

(** A [[]string] under [json.Marshal]: [null] for the nil slice. *)
Definition marshalStrings (l : list string) : json.value :=
  match l with
  | [] => json.Null
  | _ => json.Array (map json.Str l)
  end.

Definition cmKeywordPopularities (cookie : string)
    (extraHeaders : list (string * string)) (adamID : Z)
    (storefront : string) (terms : list string)
  : M (list cmKeywordItem + error) :=
  let reqBody :=
    json.Object
      [("storefronts", json.Array [json.Str (ToUpper (TrimSpace storefront))]);
       ("terms", marshalStrings terms)] in
  b ← cmPostJSON (cmAPIBase +:+ "/keywords/popularities")
        [("adamId", strconv.FormatInt adamID)] reqBody cookie extraHeaders;
  mret match b with
       | inr err => inr err
       | inl b => parseCMKeywordData "popularities" b
       end.

Definition cmKeywordRecommendation (cookie : string)
    (extraHeaders : list (string * string)) (adamID : Z)
    (storefront : string) (text : string)
  : M (list cmKeywordItem + error) :=
  let reqBody :=
    json.Object
      [("storefronts", json.Array [json.Str (ToUpper (TrimSpace storefront))])] in
  b ← cmPostJSON (cmAPIBase +:+ "/keywords/recommendation")
        [("adamId", strconv.FormatInt adamID); ("text", text)]
        reqBody cookie extraHeaders;
  mret match b with
       | inr err => inr err
       | inl b => parseCMKeywordData "recommendation" b
       end.

Definition cmCampaignsFind (cookie : string)
    (extraHeaders : list (string * string))
  : M (list cmCampaignItem + error) :=
  b ← cmGetJSON (cmAPIBase +:+ "/campaigns/find") cookie extraHeaders;
  mret match b with
       | inr err => inr err
       | inl b => parseCMCampaignData "campaigns/find" b
       end.

(** The scan of [cmDiscoverOwnedAdamID]: [seen] is the map of the source;
    the loop returns at the first entry it does not skip. *)
Fixpoint firstOwned (seen : gset Z) (campaigns : list cmCampaignItem)
  : option (Z * string) :=
  match campaigns with
  | [] => None
  | it :: rest =>
    if (AdamID it <=? 0)%Z || bool_decide (AdamID it ∈ seen)
    then firstOwned seen rest
    else Some (AdamID it, TrimSpace (Campaign_Name it))
  end.

Definition cmDiscoverOwnedAdamID (cookie : string)
    (extraHeaders : list (string * string)) : M ((Z * string) + error) :=
  campaigns ← cmCampaignsFind cookie extraHeaders;
  mret match campaigns with
       | inr err => inr err
       | inl campaigns =>
         match firstOwned ∅ campaigns with
         | Some found => inl found
         | None =>
           inr (errorString "no owned adam-id found in Apple Ads campaigns")
         end
       end.

(** *** The cookie *)

Definition refreshCMCookieFromFlags : M (string + error) :=
  let profileDir := cookie_profile_dir cmd in
  let cookieFile :=
    if String.eqb (TrimSpace (cookie_file cmd)) ""
    then defaultCMCookieFilePath w else cookie_file cmd in
  let opts :=
    {| env.URL := "https://app-ads.apple.com/"; ProfileDir := profileDir;
       OutPath := cookieFile; Headed := true; CloseBrowser := true;
       Timeout := 2 * 60 * 1000000000; Prompt := true |} in
  fun log => (refreshCMCookieInteractively w log opts, log ++ [Refresh opts]).

(** The [if strings.HasPrefix(strings.ToLower(cookie), "cookie:")] of
    [getCookieFlag]: the slice starts after as many bytes as the prefix
    has. *)
Definition stripCookiePrefix (cookie : string) : string :=
  if HasPrefix (ToLower cookie) "cookie:"
  then TrimSpace (drop (String.length "cookie:") cookie)
  else cookie.

(** What [getCookieFlag] holds in [cookie] once the flag and the file have
    been looked at and the prefix removed; an error is a failed read
    other than a missing file. *)
Definition loadCookie : string + error :=
  let cookie := TrimSpace (cookie_ cmd) in
  let fromFile :=
    if String.eqb cookie "" && negb (String.eqb (TrimSpace (cookie_file cmd)) "")
    then
      match os_ReadFile w (cookie_file cmd) with
      | fileContent b => inl (TrimSpace b)
      | fileNotExist _ => inl cookie
      | fileError err => inr err
      end
    else inl cookie in
  match fromFile with
  | inr err => inr err
  | inl cookie => inl (stripCookiePrefix cookie)
  end.

Definition getCookieFlag : M (string + error) :=
  match loadCookie with
  | inr err => mret (inr err)
  | inl cookie =>
    if String.eqb cookie "" then
      if negb (auto_cookie cmd) then
        mret (inr (errorString
                     "--cookie (or --cookie-file) is required for this command"))
      else
        Fprintln "Cookie not found. Launching browser to refresh session...";;
        refreshCMCookieFromFlags
    else mret (inl cookie)
  end.

(** *** The other flags *)

(** [out[name] = val] on the list of entries. *)
Fixpoint mapSet (name val : string) (out : list (string * string))
  : list (string * string) :=
  match out with
  | [] => [(name, val)]
  | (k, v) :: rest =>
    if String.eqb k name then (k, val) :: rest
    else (k, v) :: mapSet name val rest
  end.

Fixpoint extraHeadersFrom (raw : list string) (out : list (string * string))
  : list (string * string) + error :=
  match raw with
  | [] => inl out
  | h :: rest =>
    let h := TrimSpace h in
    if String.eqb h "" then extraHeadersFrom rest out
    else
      match IndexByte h ":" with
      | None | Some O =>
        inr (errorString ("invalid --header " +:+ strconv.Quote h
                          +:+ " (expected 'Name: value')"))
      | Some i =>
        let name := TrimSpace (take i h) in
        let val := TrimSpace (drop (S i) h) in
        if String.eqb name ""
        then inr (errorString ("invalid --header " +:+ strconv.Quote h
                               +:+ " (empty name)"))
        else extraHeadersFrom rest (mapSet name val out)
      end
  end.

Definition getExtraHeaders : list (string * string) + error :=
  extraHeadersFrom (header_ cmd) [].

(** The loop of [getCountriesFlag] and of [getKeywordsFlags] that keeps
    the first of the entries with one key. *)
Fixpoint dedupe (key : string -> string) (val : string -> string)
    (seen : gset string) (l : list string) : list string :=
  match l with
  | [] => []
  | x :: rest =>
    let k := key x in
    if String.eqb k "" || bool_decide (k ∈ seen) then dedupe key val seen rest
    else val x :: dedupe key val ({[k]} ∪ seen) rest
  end.

Definition getCountriesFlag : list string + error :=
  let v := countries_ cmd in
  if String.eqb (TrimSpace v) "" then inr (errorString "--countries is required")
  else
    let upper p := ToUpper (TrimSpace p) in
    match dedupe upper upper ∅ (Split v ",") with
    | [] => inr (errorString "no valid countries in --countries")
    | out => inl out
    end.

Definition nonBlank (l : list string) : list string :=
  List.filter (fun kw => negb (String.eqb kw "")) (map TrimSpace l).

Definition getKeywordsFlags : list string + error :=
  let inline := keywords_ cmd in
  let file := keywords_file cmd in
  let kws :=
    if negb (String.eqb (TrimSpace inline) "")
    then nonBlank (Split inline ",") else [] in
  let fromFile :=
    if negb (String.eqb (TrimSpace file) "") then
      match os_ReadFile w file with
      | fileContent data => inl (nonBlank (Split data (chr 10)))
      | fileNotExist err | fileError err => inr err
      end
    else inl [] in
  match fromFile with
  | inr err => inr err
  | inl more => inl (dedupe normKeyword TrimSpace ∅ (kws ++ more))
  end.

(** *** adam_id.go: lookups and the order of the strategies *)

Record itunesAppEntry : Type := {
  TrackID : Z;
  TrackName : string;
  BundleID : string
}.

Record itunesAPIResponse : Type := {
  ResultCount : Z;
  Results : list itunesAppEntry
}.

Definition setAppEntry (e : itunesAppEntry) (key : string) (v : json.value)
  : itunesAppEntry * bool :=
  match json.field ["trackId"; "trackName"; "bundleId"] key with
  | Some 0%nat =>
    let '(x, ok) := json.intoInt64 (TrackID e) v in
    ({| TrackID := x; TrackName := TrackName e; BundleID := BundleID e |}, ok)
  | Some 1%nat =>
    let '(x, ok) := json.intoString (TrackName e) v in
    ({| TrackID := TrackID e; TrackName := x; BundleID := BundleID e |}, ok)
  | Some 2%nat =>
    let '(x, ok) := json.intoString (BundleID e) v in
    ({| TrackID := TrackID e; TrackName := TrackName e; BundleID := x |}, ok)
  | _ => (e, true)
  end.

Definition elemAppEntry (v : json.value) : itunesAppEntry * bool :=
  json.intoStruct setAppEntry
    {| TrackID := 0; TrackName := ""; BundleID := "" |} v.

Definition setAPIResponse (r : itunesAPIResponse) (key : string)
    (v : json.value) : itunesAPIResponse * bool :=
  match json.field ["resultCount"; "results"] key with
  | Some 0%nat =>
    let '(x, ok) := json.intoInt64 (ResultCount r) v in
    ({| ResultCount := x; Results := Results r |}, ok)
  | Some 1%nat =>
    let '(x, ok) := json.intoSlice elemAppEntry (Results r) v in
    ({| ResultCount := ResultCount r; Results := x |}, ok)
  | _ => (r, true)
  end.

(** The error of a failed [json.Unmarshal]; the wording of the library's
    message is not reproduced. *)
Definition jsonError : error := errorString "json: cannot decode".

Definition itunesGetJSON (endpoint : string) (q : list (string * string))
  : M (itunesAPIResponse + error) :=
  r ← send {| http.Method := "GET"; http.URL := endpoint; http.Query := q;
              http.Header_ := http.Set_ "Accept" "application/json" ∅;
              http.Body := None |};
  mret match r with
       | inr err => inr err
       | inl resp =>
         if (http.StatusCode resp <? 200)%Z || (300 <=? http.StatusCode resp)%Z
         then inr (errorString ("itunes lookup HTTP "
                                +:+ strconv.FormatInt (http.StatusCode resp)
                                +:+ ": " +:+ TrimSpace (http.RespBody resp)))
         else
           match Unmarshal setAPIResponse
                   {| ResultCount := 0; Results := [] |} (http.RespBody resp) with
           | (out, true) => inl out
           | (_, false) => inr (Errorf_w "decode itunes response: " jsonError "")
           end
       end.

Definition firstValid (results : list itunesAppEntry) : option itunesAppEntry :=
  List.find (fun it => (0 <? TrackID it)%Z) results.

Definition lookupAdamIDByBundleID (bundleID country : string)
  : M ((Z * string) + error) :=
  resp ← itunesGetJSON itunesLookupURL
           [("bundleId", bundleID); ("country", ToLower (TrimSpace country))];
  mret match resp with
       | inr err => inr err
       | inl resp =>
         match Results resp with
         | [] =>
           inr (errorString ("no App Store result for bundle-id "
                             +:+ strconv.Quote bundleID +:+ " in country "
                             +:+ ToUpper country))
         | results =>
           let normalizedBundleID := ToLower (TrimSpace bundleID) in
           match List.find
                   (fun it => (0 <? TrackID it)%Z
                              && String.eqb (ToLower (TrimSpace (BundleID it)))
                                   normalizedBundleID) results with
           | Some it => inl (TrackID it, TrimSpace (TrackName it))
           | None =>
             match firstValid results with
             | Some it => inl (TrackID it, TrimSpace (TrackName it))
             | None =>
               inr (errorString ("no valid adam-id found for bundle-id "
                                 +:+ strconv.Quote bundleID))
             end
           end
         end
       end.

Definition searchAdamIDByAppName (appName country : string)
  : M ((Z * string * string) + error) :=
  resp ← itunesGetJSON itunesSearchURL
           [("country", ToLower (TrimSpace country)); ("entity", "software");
            ("limit", "10"); ("term", appName)];
  mret match resp with
       | inr err => inr err
       | inl resp =>
         match Results resp with
         | [] =>
           inr (errorString ("no App Store result for app-name "
                             +:+ strconv.Quote appName +:+ " in country "
                             +:+ ToUpper country))
         | results =>
           let target := ToLower (TrimSpace appName) in
           let answer it :=
             (TrackID it, TrimSpace (TrackName it), TrimSpace (BundleID it)) in
           match List.find
                   (fun it => (0 <? TrackID it)%Z
                              && String.eqb (ToLower (TrimSpace (TrackName it)))
                                   target) results with
           | Some it => inl (answer it)
           | None =>
             match firstValid results with
             | Some it => inl (answer it)
             | None =>
               inr (errorString ("no valid adam-id found for app-name "
                                 +:+ strconv.Quote appName))
             end
           end
         end
       end.

Definition adamLookupCountry (countries : list string) : string :=
  let cc := ToUpper (TrimSpace (adam_country cmd)) in
  if negb (String.eqb cc "") then cc
  else
    match countries with
    | c0 :: _ =>
      if negb (String.eqb (TrimSpace c0) "") then ToUpper (TrimSpace c0)
      else adamid.defaultAdamCountry
    | [] => adamid.defaultAdamCountry
    end.

Definition notProvided : error :=
  Errorf_w "" errAdamIDNotProvided
    ": --adam-id is required (or provide --app-url, --bundle-id, or --app-name)".

Definition resolveAdamIDFromFlags (countries : list string) : M (Z + error) :=
  let adamID := adam_id cmd in
  if (0 <? adamID)%Z then mret (inl adamID)
  else
    let appURL := app_url cmd in
    if negb (String.eqb (TrimSpace appURL) "") then
      match adamid.parseAdamIDFromAppURL appURL with
      | inr err => mret (inr (Errorf_w "parse --app-url: " err ""))
      | inl id =>
        Fprint ("Resolved adam-id=" +:+ strconv.FormatInt id
                +:+ " from --app-url" +:+ nl);;
        mret (inl id)
      end
    else
      let lookupCountry := adamLookupCountry countries in
      let bundleID := TrimSpace (bundle_id cmd) in
      if negb (String.eqb bundleID "") then
        r ← lookupAdamIDByBundleID bundleID lookupCountry;
        match r with
        | inr err => mret (inr (Errorf_w "resolve from --bundle-id: " err ""))
        | inl (id, appName) =>
          Fprint ("Resolved adam-id=" +:+ strconv.FormatInt id
                  +:+ " from bundle-id " +:+ strconv.Quote bundleID
                  +:+ (if negb (String.eqb appName "")
                       then " (" +:+ appName +:+ ")" else "") +:+ nl);;
          mret (inl id)
        end
      else
        let appName := TrimSpace (app_name cmd) in
        if negb (String.eqb appName "") then
          r ← searchAdamIDByAppName appName lookupCountry;
          match r with
          | inr err => mret (inr (Errorf_w "resolve from --app-name: " err ""))
          | inl (id, resolvedName, resolvedBundleID) =>
            Fprint ("Resolved adam-id=" +:+ strconv.FormatInt id
                    +:+ " from app-name " +:+ strconv.Quote appName +:+ " -> "
                    +:+ strconv.Quote resolvedName
                    +:+ " (" +:+ resolvedBundleID +:+ ")" +:+ nl);;
            mret (inl id)
          end
        else mret (inr notProvided).

(** *** Discovery of an owned adam-id, with its own refresh *)

Section Recovery.
Variable extraHeaders : list (string * string).
Variable autoCookie : bool.

(** The [discover] closure. *)
Definition discover (cookieValue : string) : M (Z + error) :=
  r ← cmDiscoverOwnedAdamID cookieValue extraHeaders;
  match r with
  | inr err => mret (inr err)
  | inl (adamID, campaignName) =>
    (if negb (String.eqb (TrimSpace campaignName) "")
     then Fprint ("Selected owned adam-id=" +:+ strconv.FormatInt adamID
                  +:+ " from campaign " +:+ strconv.Quote campaignName +:+ nl)
     else mret tt);;
    mret (inl adamID)
  end.

(** The id found and the cookie in use afterwards, or the error. *)
Definition discoverOwnedAdamIDWithRefresh (cookie : string)
  : M ((Z * string) + error) :=
  r ← discover cookie;
  if isErr r && autoCookie && isCMRefreshError (errOf r) then
    Fprintln "Cookie appears expired while discovering owned apps. Launching browser to refresh session...";;
    c ← refreshCMCookieFromFlags;
    match c with
    | inr err => mret (inr err)
    | inl cookie =>
      r ← discover cookie;
      mret match r with
           | inr err => inr err
           | inl adamID => inl (adamID, cookie)
           end
    end
  else
    mret match r with
         | inr err => inr err
         | inl adamID => inl (adamID, cookie)
         end.

Definition resolveAdamIDForCMCommand (countries : list string)
    (cookie : string) : M ((Z * string) + error) :=
  r ← resolveAdamIDFromFlags countries;
  match r with
  | inl adamID => mret (inl (adamID, cookie))
  | inr err =>
    if negb (IsAdamIDNotProvided err) then mret (inr err)
    else
      d ← discoverOwnedAdamIDWithRefresh cookie;
      match d with
      | inr discoverErr =>
        mret (inr (Errorf_w "auto-resolve adam-id from Apple Ads account: "
                     discoverErr ""))
      | inl (ownedAdamID, updatedCookie) =>
        Fprint ("Resolved adam-id=" +:+ strconv.FormatInt ownedAdamID
                +:+ " from Apple Ads owned campaigns" +:+ nl);;
        mret (inl (ownedAdamID, updatedCookie))
      end
  end.

(** *** The loop over the countries

    The variables of [RunE] that the loop body assigns: the cookie, the
    adam-id the call closure reads, and the flag declared before the
    loop. *)
Record vars : Type := {
  cookie : string;
  adamID : Z;
  attemptedOwnedAdamFallback : bool
}.

(** [callPopularities] or [callRecommendations]: the closure reads
    [adamID] when it runs. *)
Variable call : string -> Z -> string -> M (list cmKeywordItem + error).

(** The first [if] of the body: refresh the cookie and call again. *)
Definition retryAfterRefresh (v : vars) (cc : string)
    (r : list cmKeywordItem + error)
  : M (((list cmKeywordItem + error) * vars) + error) :=
  if isErr r && autoCookie && isCMRefreshError (errOf r) then
    Fprintln "Cookie appears expired. Launching browser to refresh session...";;
    c ← refreshCMCookieFromFlags;
    match c with
    | inr err => mret (inr err)
    | inl cookie' =>
      let v := {| cookie := cookie'; adamID := adamID v;
                  attemptedOwnedAdamFallback := attemptedOwnedAdamFallback v |} in
      r ← call (cookie v) (adamID v) cc;
      mret (inl (r, v))
    end
  else mret (inl (r, v)).

(** The second [if]: discover an owned adam-id, once, and call again. *)
Definition retryWithOwnedAdamID (v : vars) (cc : string)
    (r : list cmKeywordItem + error)
  : M (((list cmKeywordItem + error) * vars) + error) :=
  if isErr r && negb (attemptedOwnedAdamFallback v)
     && isCMNoUserOwnedAppsError (errOf r) then
    d ← discoverOwnedAdamIDWithRefresh (cookie v);
    match d with
    | inr discoverErr =>
      mret (inr (Errorf_w
                   ("adam-id " +:+ strconv.FormatInt (adamID v)
                    +:+ " is not accessible for this Apple Ads account, and auto-discovery failed: ")
                   discoverErr ""))
    | inl (ownedAdamID, updatedCookie) =>
      let switch := (0 <? ownedAdamID)%Z && negb (ownedAdamID =? adamID v)%Z in
      (if switch
       then Fprint ("adam-id " +:+ strconv.FormatInt (adamID v)
                    +:+ " is not owned by this account; switching to owned adam-id "
                    +:+ strconv.FormatInt ownedAdamID +:+ " and retrying..." +:+ nl)
       else mret tt);;
      let v := {| cookie := updatedCookie;
                  adamID := if switch then ownedAdamID else adamID v;
                  attemptedOwnedAdamFallback := true |} in
      r ← call (cookie v) (adamID v) cc;
      mret (inl (r, v))
    end
  else mret (inl (r, v)).

(** The body of the loop up to its last [if err != nil]: the items of
    the country and the variables as the body leaves them, or the error
    [RunE] returns. *)
Definition fetch (v : vars) (cc : string)
  : M ((list cmKeywordItem * vars) + error) :=
  r ← call (cookie v) (adamID v) cc;
  x ← retryAfterRefresh v cc r;
  match x with
  | inr err => mret (inr err)
  | inl (r, v) =>
    y ← retryWithOwnedAdamID v cc r;
    mret match y with
         | inr err => inr err
         | inl (inr err, _) => inr err
         | inl (inl items, v) => inl (items, v)
         end
  end.

Fixpoint forCountries {Row : Type} (rows : string -> list cmKeywordItem -> list Row)
    (countries : list string) (v : vars) (out : list Row)
  : M (list Row + error) :=
  match countries with
  | [] => mret (inl out)
  | cc :: rest =>
    x ← fetch v cc;
    match x with
    | inr err => mret (inr err)
    | inl (items, v) => forCountries rows rest v (out ++ rows cc items)
    end
  end.
End Recovery.

(** *** The two commands, up to [printOutput] *)

(** The closures [callPopularities] and [callRecommendations]. *)
Definition callPopularities (extraHeaders : list (string * string))
    (keywords : list string)
  : string -> Z -> string -> M (list cmKeywordItem + error) :=
  fun cookieValue adamID country =>
    cmKeywordPopularities cookieValue extraHeaders adamID country keywords.

Definition callRecommendations (extraHeaders : list (string * string))
    (seed : string)
  : string -> Z -> string -> M (list cmKeywordItem + error) :=
  fun cookieValue adamID country =>
    cmKeywordRecommendation cookieValue extraHeaders adamID country seed.

Definition popscoreLoop (extraHeaders : list (string * string))
    (autoCookie : bool) (keywords countries : list string) (v : vars)
  : M (list asoPopscoreRow + error) :=
  forCountries extraHeaders autoCookie (callPopularities extraHeaders keywords)
    (popscoreRows keywords) countries v [].

Definition recommendLoop (extraHeaders : list (string * string))
    (autoCookie : bool) (seed : string) (limit minPop : Z)
    (countries : list string) (v : vars)
  : M (list asoRecommendRow + error) :=
  forCountries extraHeaders autoCookie (callRecommendations extraHeaders seed)
    (recommendRows seed limit minPop) countries v [].

Definition start (adamID : Z) (cookie : string) : vars :=
  {| cookie := cookie; adamID := adamID; attemptedOwnedAdamFallback := false |}.

Definition popscoreRunE : M (list asoPopscoreRow + error) :=
  match getCountriesFlag with
  | inr err => mret (inr err)
  | inl countries =>
    match getKeywordsFlags with
    | inr err => mret (inr err)
    | inl [] =>
      mret (inr (errorString
                   "no keywords provided (use --keywords or --keywords-file)"))
    | inl keywords =>
      c ← getCookieFlag;
      match c with
      | inr err => mret (inr err)
      | inl cookie =>
        match getExtraHeaders with
        | inr err => mret (inr err)
        | inl extraHeaders =>
          let autoCookie := auto_cookie cmd in
          a ← resolveAdamIDForCMCommand extraHeaders autoCookie countries cookie;
          match a with
          | inr err => mret (inr err)
          | inl (adamID, cookie) =>
            popscoreLoop extraHeaders autoCookie keywords countries
              (start adamID cookie)
          end
        end
      end
    end
  end.

Definition recommendRunE : M (list asoRecommendRow + error) :=
  match getCountriesFlag with
  | inr err => mret (inr err)
  | inl countries =>
    let seed := TrimSpace (text_ cmd) in
    if String.eqb seed "" then mret (inr (errorString "--text is required"))
    else
      c ← getCookieFlag;
      match c with
      | inr err => mret (inr err)
      | inl cookie =>
        match getExtraHeaders with
        | inr err => mret (inr err)
        | inl extraHeaders =>
          let autoCookie := auto_cookie cmd in
          a ← resolveAdamIDForCMCommand extraHeaders autoCookie countries cookie;
          match a with
          | inr err => mret (inr err)
          | inl (adamID, cookie) =>
            recommendLoop extraHeaders autoCookie seed
              (effectiveLimit (limit_ cmd)) (min_popularity cmd)
              countries (start adamID cookie)
          end
        end
      end
  end.
End Run.

End aso.

(** ** Reading a log *)

Module trace.
Import env.

Definition isRefresh (e : event) : bool :=
  match e with Refresh _ => true | _ => false end.

Definition isCall (e : event) : bool :=
  match e with Do _ => true | _ => false end.

(** A request to the campaign list, the discovery call. *)
Definition isFind (e : event) : bool :=
  match e with
  | Do req => String.eqb (http.URL req) (aso.cmAPIBase +:+ "/campaigns/find")
  | _ => false
  end.

(** A request to one of the two keyword endpoints. *)
Definition isData (e : event) : bool :=
  match e with
  | Do req =>
    String.eqb (http.URL req) (aso.cmAPIBase +:+ "/keywords/popularities")
    || String.eqb (http.URL req) (aso.cmAPIBase +:+ "/keywords/recommendation")
  | _ => false
  end.

Definition count (p : event -> bool) (log : list event) : nat :=
  length (List.filter p log).

Definition requests (log : list event) : list event := List.filter isCall log.

Definition refreshes (log : list event) : nat := count isRefresh log.
Definition finds (log : list event) : nat := count isFind log.
Definition dataCalls (log : list event) : nat := count isData log.

End trace.

(** ** Stub collaborators and sample inputs *)

Module stub.
Import utf8 strings errors cm env aso.

Definition q (s : string) : string := strconv.dquote +:+ s +:+ strconv.dquote.

(** [{"errorCode":"AUTH","internalErrorCode":"refresh_required",
    "errorMsg":"session expired"}] *)
Definition flatErrorBody : string :=
  "{" +:+ q "errorCode" +:+ ":" +:+ q "AUTH" +:+ ","
  +:+ q "internalErrorCode" +:+ ":" +:+ q "refresh_required" +:+ ","
  +:+ q "errorMsg" +:+ ":" +:+ q "session expired" +:+ "}".

Definition plant : cmKeywordItem :=
  {| ID := 0; Name := "plant app"; Popularity := 42; MatchType := "EXACT" |}.

Definition garden : cmKeywordItem :=
  {| ID := 7; Name := "garden"; Popularity := 17; MatchType := "" |}.

(** [{"status":"SUCCESS","data":[{"name":"plant app","popularity":42,
    "matchType":"EXACT"},{"id":7,"name":"garden","popularity":17}]}] *)
Definition successBody : string :=
  "{" +:+ q "status" +:+ ":" +:+ q "SUCCESS" +:+ "," +:+ q "data" +:+ ":[{"
  +:+ q "name" +:+ ":" +:+ q "plant app" +:+ "," +:+ q "popularity" +:+ ":42,"
  +:+ q "matchType" +:+ ":" +:+ q "EXACT" +:+ "},{" +:+ q "id" +:+ ":7,"
  +:+ q "name" +:+ ":" +:+ q "garden" +:+ "," +:+ q "popularity" +:+ ":17}]}".

(** [{"status":"error","error":{"errors":[{"messageCode":
    "NO_USER_OWNED_APPS_FOUND_CODE","message":"no apps"}]}}] *)
Definition notOwnedBody : string :=
  "{" +:+ q "status" +:+ ":" +:+ q "error" +:+ "," +:+ q "error" +:+ ":{"
  +:+ q "errors" +:+ ":[{" +:+ q "messageCode" +:+ ":"
  +:+ q "NO_USER_OWNED_APPS_FOUND_CODE" +:+ "," +:+ q "message" +:+ ":"
  +:+ q "no apps" +:+ "}]}}".

(** [{"data":[{"id":1,"name":"Brand","adamId":111}]}] *)
Definition campaignsBody : string :=
  "{" +:+ q "data" +:+ ":[{" +:+ q "id" +:+ ":1," +:+ q "name" +:+ ":"
  +:+ q "Brand" +:+ "," +:+ q "adamId" +:+ ":111}]}".

Definition forbidden : http.Response :=
  {| http.StatusCode := 403; http.RespBody := "Forbidden" |}.

Definition ok (body : string) : http.Response :=
  {| http.StatusCode := 200; http.RespBody := body |}.

Definition noFile (path : string) : readResult :=
  fileNotExist (errorString ("open " +:+ path +:+ ": no such file or directory")).

(** A session that dies before every other request: the first, third, ...
    request is answered 403, the others succeed; every login succeeds. *)
Definition expiresEveryOtherCall : World :=
  {| client_Do log req :=
       if Nat.even (trace.count trace.isCall log)
       then inl forbidden else inl (ok successBody);
     refreshCMCookieInteractively log opts := inl "session=fresh";
     os_ReadFile := noFile;
     defaultCMCookieFilePath := ".aads_app_ads_cookie.txt" |}.

(** Every request is answered 403; every login succeeds. *)
Definition alwaysForbidden : World :=
  {| client_Do log req := inl forbidden;
     refreshCMCookieInteractively log opts := inl "session=fresh";
     os_ReadFile := noFile;
     defaultCMCookieFilePath := ".aads_app_ads_cookie.txt" |}.

(** The campaign list names adam-id 111; every keyword request is answered
    with the not-owned error. *)
Definition neverOwned : World :=
  {| client_Do log req :=
       if trace.isFind (Do req) then inl (ok campaignsBody)
       else inl (ok notOwnedBody);
     refreshCMCookieInteractively log opts := inl "session=fresh";
     os_ReadFile := noFile;
     defaultCMCookieFilePath := ".aads_app_ads_cookie.txt" |}.

(** Every request, the campaign list included, is answered with the
    not-owned error. *)
Definition alwaysNotOwned : World :=
  {| client_Do log req := inl (ok notOwnedBody);
     refreshCMCookieInteractively log opts := inl "session=fresh";
     os_ReadFile := noFile;
     defaultCMCookieFilePath := ".aads_app_ads_cookie.txt" |}.

(** [--countries US,GB --adam-id 999 --cookie session=1 --keywords plant]
    with the defaults of the other flags. *)
Definition flags : Flags :=
  {| countries_ := "US,GB"; adam_id := 999; app_url := ""; bundle_id := "";
     app_name := ""; adam_country := ""; cookie_ := "session=1";
     cookie_file := ".aads_app_ads_cookie.txt"; auto_cookie := true;
     cookie_profile_dir := ""; header_ := []; timeout_ := 30 * 1000000000;
     keywords_ := "plant app"; keywords_file := ""; text_ := "plant";
     limit_ := 50; min_popularity := 0 |}.

Definition item (name : string) (popularity : Z) : cmKeywordItem :=
  {| ID := 0; Name := name; Popularity := popularity; MatchType := "" |}.

(** [--cookie " Cookie: session=1 " --auto-cookie=false]. *)
Definition prefixedFlags : Flags :=
  {| countries_ := "US"; adam_id := 999; app_url := ""; bundle_id := "";
     app_name := ""; adam_country := ""; cookie_ := " Cookie: session=1 ";
     cookie_file := ".aads_app_ads_cookie.txt"; auto_cookie := false;
     cookie_profile_dir := ""; header_ := []; timeout_ := 0;
     keywords_ := "plant app"; keywords_file := ""; text_ := "plant";
     limit_ := 50; min_popularity := 0 |}.

(** No [--cookie], a cookie file that does not exist, [--auto-cookie=false]. *)
Definition noCookieFlags : Flags :=
  {| countries_ := "US"; adam_id := 999; app_url := ""; bundle_id := "";
     app_name := ""; adam_country := ""; cookie_ := "";
     cookie_file := ".aads_app_ads_cookie.txt"; auto_cookie := false;
     cookie_profile_dir := ""; header_ := []; timeout_ := 0;
     keywords_ := "plant app"; keywords_file := ""; text_ := "plant";
     limit_ := 50; min_popularity := 0 |}.

(** [--adam-id 42] together with the three hints. *)
Definition bothFlags : Flags :=
  {| countries_ := "US"; adam_id := 42; app_url := "https://x/id123456";
     bundle_id := "com.example.app"; app_name := "Example"; adam_country := "";
     cookie_ := "session=1"; cookie_file := ""; auto_cookie := true;
     cookie_profile_dir := ""; header_ := []; timeout_ := 0;
     keywords_ := "plant app"; keywords_file := ""; text_ := "plant";
     limit_ := 50; min_popularity := 0 |}.

(** An error text that holds both the logged-out phrase and the not-owned
    code, and a body the parsers turn into it:
    [{"status":"error","error":{"errors":[{"messageCode":
    "NO_USER_OWNED_APPS_FOUND_CODE","message":"User is not logged in"}]}}] *)
Definition loggedOutAndNotOwned : error :=
  errorString
    "cm popularities error (NO_USER_OWNED_APPS_FOUND_CODE): User is not logged in".

Definition loggedOutAndNotOwnedBody : string :=
  "{" +:+ q "status" +:+ ":" +:+ q "error" +:+ "," +:+ q "error" +:+ ":{"
  +:+ q "errors" +:+ ":[{" +:+ q "messageCode" +:+ ":"
  +:+ q "NO_USER_OWNED_APPS_FOUND_CODE" +:+ "," +:+ q "message" +:+ ":"
  +:+ q "User is not logged in" +:+ "}]}}".

End stub.

(** ** The vocabulary of the properties

    What the statements below need besides the program: the orders and
    shapes the specification talks about, written from its words, and a few
    names for values the program builds inline. *)

Module claim.
Import utf8 strings errors cm env aso.

(** The text the classifier looks at. *)
Definition lowered (e : error) : string := ToLower (Error e).

(** CredentialExpired as the specification words it: the refresh code, or
    the logged-out phrase, or a 403 that does not carry the not-owned code. *)
Definition credentialExpired_as_claimed (e : error) : Prop :=
  Contains (lowered e) refreshCodeNeedle = true
  \/ Contains (lowered e) "user is not logged in" = true
  \/ (Contains (lowered e) "cm endpoint http 403" = true
      /\ Contains (lowered e) noOwnedAppsSentinel = false).

(** Descending popularity, then ascending lower-cased term. *)
Definition inOrder (a b : cmKeywordItem) : Prop :=
  (Popularity b < Popularity a)%Z
  \/ (Popularity a = Popularity b
      /\ String.leb (ToLower (Name a)) (ToLower (Name b)) = true).

(** The sorted prefix of the insertion sort is held last element first. *)
Definition backwards (a b : cmKeywordItem) : Prop := inOrder b a.

Definition nonBlankName (it : cmKeywordItem) : bool :=
  negb (String.eqb (TrimSpace (Name it)) "").

(** The rows as the specification words them: the items at or above the
    threshold, in order, cut to the limit, ranked from one. *)
Definition rows_as_claimed (seed : string) (limit minPop : Z) (cc : string)
    (items : list cmKeywordItem) (rows : list asoRecommendRow) : Prop :=
  exists sorted,
    Permutation (List.filter (fun it => (minPop <=? Popularity it)%Z) items) sorted
    /\ StronglySorted inOrder sorted
    /\ rows = imap (recommendRow cc seed) (firstn (Z.to_nat limit) sorted).

(** A cookie string holds a sub-field of that name. *)
Definition hasSubField (cookie name : string) : Prop :=
  exists part value,
    In part (Split cookie ";") /\ TrimSpace part = name +:+ "=" +:+ value.

(** The key under which [Header.Set] stores the anti-forgery token. *)
Definition tokenHeader : string := http.CanonicalMIMEHeaderKey "X-XSRF-TOKEN-CM".

(** Bytewise views of a string, for keys that are plain ASCII. *)
Fixpoint mapBytes (f : ascii -> ascii) (s : string) : string :=
  match s with
  | EmptyString => EmptyString
  | String c r => String (f c) (mapBytes f r)
  end.

Fixpoint allBytes (p : ascii -> bool) (s : string) : bool :=
  match s with
  | EmptyString => true
  | String c r => p c && allBytes p r
  end.

Definition lowerByte (c : ascii) : ascii := chr (unicode.ToLower (byte c)).

Definition plainByte (c : ascii) : bool :=
  (byte c <? 128)%N && negb (isSpace (byte c)).

(** The first candidate id that is positive. *)
Fixpoint firstPositive (candidates : list Z) : option Z :=
  match candidates with
  | [] => None
  | n :: rest => if (0 <? n)%Z then Some n else firstPositive rest
  end.

(** The [id] query parameter read as a number, zero when it is none. *)
Definition queryID (u : url.URL) : Z :=
  match strconv.ParseInt (TrimSpace (url.QueryGet u "id")) with
  | Some n => n
  | None => 0
  end.

Definition resolvedLine (id : Z) : event :=
  Stderr ("Resolved adam-id=" +:+ strconv.FormatInt id +:+ " from --app-url" +:+ nl).

Definition required : error :=
  errorString "--cookie (or --cookie-file) is required for this command".

Definition notFoundLine : event :=
  Stderr ("Cookie not found. Launching browser to refresh session..." +:+ nl).

(** One of the two call closures of the commands. *)
Definition keywordCall (w : World) (extraHeaders : list (string * string))
    (call : string -> Z -> string -> M (list cmKeywordItem + error)) : Prop :=
  (exists keywords, call = callPopularities w extraHeaders keywords)
  \/ (exists seed, call = callRecommendations w extraHeaders seed).

(** What is left of the owned-adam-id fallback: one while the flag is unset. *)
Definition fallbackLeft (v : vars) : nat :=
  if attemptedOwnedAdamFallback v then 0 else 1.

End claim.

(** * Properties *)

Import utf8 strings errors cm env aso trace claim.

(** ** The response classifier *)

Section Classifier.

Lemma intoElems_map {T : Type} (elem : json.value -> T * bool)
    (vs : list json.value) :
  fst (json.intoElems elem vs) = map (fun v => fst (elem v)) vs.
Proof.
  induction vs as [|v vs IH]; [reflexivity|].
  simpl. destruct (elem v) as [x ok] eqn:Hx.
  destruct (json.intoElems elem vs) as [xs ok']. simpl in *.
  now rewrite IH.
Qed.

Lemma intoFields_app {T : Type} (set : T -> string -> json.value -> T * bool)
    (pre : list (string * json.value)) : forall r post,
  fst (json.intoFields set r (pre ++ post))
  = fst (json.intoFields set (fst (json.intoFields set r pre)) post).
Proof.
  induction pre as [|[k v] pre IH]; intros r post; [reflexivity|].
  simpl. destruct (set r k v) as [x ok].
  specialize (IH x post).
  destruct (json.intoFields set x (pre ++ post)) as [y ok1].
  destruct (json.intoFields set x pre) as [z ok2]. simpl in *.
  exact IH.
Qed.

(** Members that name no field leave the destination as it is and save no
    error. *)
Lemma intoFields_unknown {T : Type} (set : T -> string -> json.value -> T * bool)
    (names : list string) (ms : list (string * json.value)) (r : T) :
  (forall r k v, json.field names k = None -> set r k v = (r, true)) ->
  (forall k v, In (k, v) ms -> json.field names k = None) ->
  json.intoFields set r ms = (r, true).
Proof.
  intros Hset. induction ms as [|[k v] ms IH]; intros Hms; [reflexivity|].
  simpl. rewrite Hset by (apply (Hms k v); now left).
  rewrite IH; [reflexivity|]. intros k' v' Hin. apply (Hms k' v'). now right.
Qed.

Lemma setSuccessResponse_keeps_data r key v :
  json.field envelopeNames key <> Some 2%nat ->
  Data (fst (setSuccessResponse r key v)) = Data r.
Proof.
  intros Hk. unfold setSuccessResponse.
  destruct (json.field envelopeNames key) as [[|[|[|n]]]|]; try reflexivity.
  - now destruct (json.intoString (RequestID r) v).
  - now destruct (json.intoString (Status r) v).
  - congruence.
Qed.

Lemma intoFields_keeps_data post : forall r,
  (forall k v, In (k, v) post -> json.field envelopeNames k <> Some 2%nat) ->
  Data (fst (json.intoFields setSuccessResponse r post)) = Data r.
Proof.
  induction post as [|[k v] post IH]; intros r Hpost; [reflexivity|].
  simpl. destruct (setSuccessResponse r k v) as [x ok] eqn:Hset.
  destruct (json.intoFields setSuccessResponse x post) as [y ok'] eqn:Hrest.
  simpl. change y with (fst (y, ok')). rewrite <- Hrest, IH.
  - change x with (fst (x, ok)). rewrite <- Hset.
    apply setSuccessResponse_keeps_data. apply (Hpost k v). now left.
  - intros k' v' Hin. apply (Hpost k' v'). now right.
Qed.

(** The data list is the last [data] member, element by element. *)
Lemma data_of_member pre vs post r :
  (forall k v, In (k, v) post -> json.field envelopeNames k <> Some 2%nat) ->
  Data (fst (json.intoFields setSuccessResponse r
               (pre ++ ("data", json.Array vs) :: post)))
  = map (fun v => fst (elemKeywordItem v)) vs.
Proof.
  intros Hpost. rewrite intoFields_app.
  set (r1 := fst (json.intoFields setSuccessResponse r pre)).
  cbn [json.intoFields].
  destruct (setSuccessResponse r1 "data" (json.Array vs)) as [x ok] eqn:Hset.
  pose proof (intoFields_keeps_data post x Hpost) as Hkeep.
  destruct (json.intoFields setSuccessResponse x post) as [y ok']. simpl in *.
  rewrite Hkeep.
  unfold setSuccessResponse in Hset.
  change (json.field envelopeNames "data") with (Some 2%nat) in Hset.
  cbn [json.intoSlice] in Hset.
  destruct (json.intoElems elemKeywordItem vs) as [xs okx] eqn:Hxs.
  injection Hset as <- _. simpl.
  change xs with (fst (xs, okx)). rewrite <- Hxs. apply intoElems_map.
Qed.

(** C1 (the code departs from the claim): a body that is a JSON object with
    no member named requestID, status or data -- every flat error envelope
    that carries only errorMsg, errorCode and internalErrorCode is one -- is
    taken for a success envelope whose status is omitted: both parsers
    return no error and an empty list, and the flat-error branch is never
    reached. *)
Theorem C1_object_without_envelope_members_is_success
    (endpoint endpoint' body : string) (ms : list (string * json.value)) :
  json.parse body = Some (json.Object ms) ->
  (forall k v, In (k, v) ms -> json.field envelopeNames k = None) ->
  parseCMKeywordData endpoint body = inl []
  /\ parseCMCampaignData endpoint' body = inl [].
Proof.
  intros Hparse Hms. unfold parseCMKeywordData, parseCMCampaignData, Unmarshal.
  rewrite Hparse. cbn [json.intoStruct].
  rewrite (intoFields_unknown setSuccessResponse envelopeNames),
          (intoFields_unknown setCampaignFindResponse envelopeNames);
    try assumption.
  - split; reflexivity.
  - intros r k v Hk. unfold setCampaignFindResponse. now rewrite Hk.
  - intros r k v Hk. unfold setSuccessResponse. now rewrite Hk.
Qed.

(** C1 at the failing input: the body decodes as a flat error envelope with
    all three fields set, and both parsers answer success with no items. *)
Lemma C1_flat_error_envelope_witness :
  Unmarshal setErrorResponse zeroErrorResponse stub.flatErrorBody
  = ({| ErrorMsg := "session expired"; ErrorCode := "AUTH";
        InternalErrorCode := "refresh_required" |}, true)
  /\ parseCMKeywordData "popularities" stub.flatErrorBody = inl []
  /\ parseCMCampaignData "campaigns/find" stub.flatErrorBody = inl [].
Proof.
  split; [vm_compute; reflexivity|].
  refine (C1_object_without_envelope_members_is_success "popularities"
            "campaigns/find" stub.flatErrorBody
            [("errorCode", json.Str "AUTH");
             ("internalErrorCode", json.Str "refresh_required");
             ("errorMsg", json.Str "session expired")] _ _).
  - vm_compute. reflexivity.
  - intros k v Hin. simpl in Hin.
    destruct Hin as [H|[H|[H|[]]]]; injection H as <- _; vm_compute; reflexivity.
Defined.

(** C4: a body that decodes as a success envelope (no decoding error) whose
    status is omitted, empty or equal to success whatever the case is
    classified as a success, and the items returned are the data list of the
    envelope: when the object has one data member, an array, they are the
    elements of that array, decoded one by one in the order of the text. *)
Theorem C4_success_envelope_returns_data_in_order
    (endpoint body : string) (ok : cmSuccessResponse) :
  Unmarshal setSuccessResponse zeroSuccessResponse body = (ok, true) ->
  Status ok = "" \/ EqualFold (Status ok) "success" = true ->
  parseCMKeywordData endpoint body = inl (Data ok)
  /\ forall pre vs post,
       json.parse body
       = Some (json.Object (pre ++ ("data", json.Array vs) :: post)) ->
       (forall k v, In (k, v) (pre ++ post) ->
                    json.field envelopeNames k <> Some 2%nat) ->
       Data ok = map (fun v => fst (elemKeywordItem v)) vs.
Proof.
  intros Hok Hstatus. split.
  - unfold parseCMKeywordData. rewrite Hok. cbn [andb].
    replace (statusIsSuccess (Status ok)) with true; [reflexivity|].
    unfold statusIsSuccess. destruct Hstatus as [-> | ->]; [reflexivity|].
    now rewrite orb_true_r.
  - intros pre vs post Hparse Honce.
    unfold Unmarshal in Hok. rewrite Hparse in Hok. cbn [json.intoStruct] in Hok.
    change ok with (fst (ok, true)). rewrite <- Hok.
    apply data_of_member. intros k v Hin. apply (Honce k v).
    apply in_or_app. now right.
Qed.

(** C4 on a body with status SUCCESS and two items: the items returned are
    the two elements of its data array, first to last. *)
Lemma C4_success_envelope_witness :
  exists ok first second,
    parseCMKeywordData "popularities" stub.successBody = inl (Data ok)
    /\ json.parse stub.successBody
       = Some (json.Object [("status", json.Str "SUCCESS");
                            ("data", json.Array [first; second])])
    /\ Data ok = [fst (elemKeywordItem first); fst (elemKeywordItem second)]
    /\ Data ok = [stub.plant; stub.garden].
Proof.
  exists {| RequestID := ""; Status := "SUCCESS";
            Data := [stub.plant; stub.garden] |}.
  eexists. eexists.
  destruct (C4_success_envelope_returns_data_in_order "popularities"
              stub.successBody
              {| RequestID := ""; Status := "SUCCESS";
                 Data := [stub.plant; stub.garden] |}
              ltac:(vm_compute; reflexivity)
              ltac:(right; vm_compute; reflexivity)) as [Hok Hdata].
  split; [exact Hok|].
  split; [vm_compute; reflexivity|].
  split; [|reflexivity].
  refine (Hdata [("status", json.Str "SUCCESS")] [_; _] [] _ _).
  - vm_compute. reflexivity.
  - intros k v [H|[]]. injection H as <- _. vm_compute. discriminate.
Defined.

(** C3 as stated fails: the error the parser makes of a nested error whose
    code is the not-owned one and whose message is the logged-out phrase is
    not classified CredentialExpired, although it holds the phrase, the
    second of the claim's three alternatives. *)
Lemma C3_sentinel_overrides_logged_out :
  parseCMKeywordData "popularities" stub.loggedOutAndNotOwnedBody
  = inr stub.loggedOutAndNotOwned
  /\ Contains (lowered stub.loggedOutAndNotOwned) "user is not logged in" = true
  /\ ~ (isCMRefreshError (Some stub.loggedOutAndNotOwned) = true
        <-> credentialExpired_as_claimed stub.loggedOutAndNotOwned).
Proof.
  split; [vm_compute; reflexivity|].
  split; [vm_compute; reflexivity|].
  intros [_ H].
  assert (Hc : credentialExpired_as_claimed stub.loggedOutAndNotOwned).
  { right. left. vm_compute. reflexivity. }
  apply H in Hc. vm_compute in Hc. discriminate.
Qed.

(** C3, amended: an error is classified CredentialExpired exactly when its
    lower-cased text does not hold the not-owned code and holds the refresh
    code needle, or the logged-out phrase, or the HTTP 403 prefix; so an
    error with the logged-out phrase and without the not-owned code is
    CredentialExpired. *)
Theorem C3_credential_expired_iff (e : error) :
  (isCMRefreshError (Some e) = true
   <-> Contains (lowered e) noOwnedAppsSentinel = false
       /\ (Contains (lowered e) refreshCodeNeedle = true
           \/ Contains (lowered e) "user is not logged in" = true
           \/ Contains (lowered e) "cm endpoint http 403" = true))
  /\ (Contains (lowered e) "user is not logged in" = true ->
      Contains (lowered e) noOwnedAppsSentinel = false ->
      isCMRefreshError (Some e) = true).
Proof.
  unfold isCMRefreshError, lowered.
  set (s := ToLower (Error e)).
  destruct (Contains s noOwnedAppsSentinel) eqn:Hs;
  destruct (Contains s refreshCodeNeedle);
  destruct (Contains s "user is not logged in");
  destruct (Contains s "cm endpoint http 403"); simpl; intuition congruence.
Qed.

(** The two classifications exclude each other. *)
Lemma classifications_exclusive (err : option error) :
  isCMRefreshError err = true -> isCMNoUserOwnedAppsError err = false.
Proof.
  destruct err as [e|]; [|discriminate].
  unfold isCMRefreshError, isCMNoUserOwnedAppsError.
  now destruct (Contains (ToLower (Error e)) noOwnedAppsSentinel).
Qed.

End Classifier.

(** C3 on the text of a logged-out answer. *)
Lemma C3_logged_out_witness :
  isCMRefreshError (Some (errorString "cm endpoint HTTP 401: User is not logged in"))
  = true.
Proof.
  apply (proj2 (C3_credential_expired_iff
                  (errorString "cm endpoint HTTP 401: User is not logged in")));
    vm_compute; reflexivity.
Defined.

(** ** Recommendation rows: filter, sort, cut, rank *)

Section Rows.

Lemma compare_as_OT (a b : string) :
  String.compare a b = OrdersEx.String_as_OT.compare a b.
Proof.
  revert b. induction a as [|c a IH]; destruct b as [|d b]; reflexivity.
Qed.

Lemma ltb_leb (a b : string) : String.ltb a b = negb (String.leb b a).
Proof.
  unfold String.ltb, String.leb. rewrite (String.compare_antisym a b).
  now destruct (String.compare b a).
Qed.

Lemma leb_iff (a b : string) :
  String.leb a b = true <-> a = b \/ OrdersEx.String_as_OT.lt a b.
Proof.
  unfold String.leb. rewrite compare_as_OT.
  destruct (OrdersEx.String_as_OT.compare_spec a b) as [H|H|H];
    split; auto; try discriminate.
  intros [Heq|Hlt]; exfalso.
  - subst. exact (StrictOrder_Irreflexive _ H).
  - exact (StrictOrder_Irreflexive _ (StrictOrder_Transitive _ _ _ H Hlt)).
Qed.

Lemma leb_trans (a b c : string) :
  String.leb a b = true -> String.leb b c = true -> String.leb a c = true.
Proof.
  rewrite !leb_iff. intros [Hab|Hab] [Hbc|Hbc]; subst; auto.
  right. exact (StrictOrder_Transitive _ _ _ Hab Hbc).
Qed.

(** [less] is the strict part of the claimed order, and the order is total. *)
Lemma less_inOrder (a b : cmKeywordItem) : less a b = true -> inOrder a b.
Proof.
  unfold less, inOrder.
  destruct (Z.eqb_spec (Popularity a) (Popularity b)) as [Heq|Hne]; simpl.
  - rewrite ltb_leb. intros H. right. split; [exact Heq|].
    destruct (String.leb_total (ToLower (Name a)) (ToLower (Name b))) as [H1|H1];
      [exact H1|]. rewrite H1 in H. discriminate.
  - intros H. left. lia.
Qed.

Lemma not_less_inOrder (a b : cmKeywordItem) : less a b = false -> inOrder b a.
Proof.
  unfold less, inOrder.
  destruct (Z.eqb_spec (Popularity a) (Popularity b)) as [Heq|Hne]; simpl.
  - rewrite ltb_leb. intros H. right. split; [now symmetry|].
    now destruct (String.leb (ToLower (Name b)) (ToLower (Name a))).
  - intros H. left. lia.
Qed.

Lemma inOrder_trans (a b c : cmKeywordItem) :
  inOrder a b -> inOrder b c -> inOrder a c.
Proof.
  unfold inOrder. intros [H1|[H1 L1]] [H2|[H2 L2]]; try (left; lia).
  right. split; [congruence|]. eapply leb_trans; eassumption.
Qed.

Lemma insertBack_perm x placed : Permutation (x :: placed) (insertBack x placed).
Proof.
  induction placed as [|y rest IH]; simpl; [reflexivity|].
  destruct (less x y); [|reflexivity].
  rewrite perm_swap. now constructor.
Qed.

Lemma insertBack_sorted x placed :
  StronglySorted backwards placed ->
  StronglySorted backwards (insertBack x placed).
Proof.
  induction placed as [|y rest IH]; intros Hs; simpl.
  - repeat constructor.
  - apply StronglySorted_inv in Hs as [Hrest Hy].
    destruct (less x y) eqn:Hxy.
    + constructor; [now apply IH|].
      rewrite <- (insertBack_perm x rest). constructor; [|exact Hy].
      now apply less_inOrder.
    + constructor; [now constructor|].
      apply not_less_inOrder in Hxy.
      constructor; [exact Hxy|].
      eapply List.Forall_impl; [|exact Hy]. intros z Hz. unfold backwards in *.
      eapply inOrder_trans; eassumption.
Qed.

Lemma placed_perm kept : forall placed,
  Permutation (rev placed ++ kept)
    (rev (fold_left (fun placed x => insertBack x placed) kept placed)).
Proof.
  induction kept as [|x kept IH]; intros placed; simpl.
  - now rewrite app_nil_r.
  - rewrite <- IH, <- (insertBack_perm x placed). simpl.
    now rewrite <- app_assoc.
Qed.

Lemma placed_sorted kept : forall placed,
  StronglySorted backwards placed ->
  StronglySorted backwards
    (fold_left (fun placed x => insertBack x placed) kept placed).
Proof.
  induction kept as [|x kept IH]; intros placed Hs; simpl; [exact Hs|].
  apply IH. now apply insertBack_sorted.
Qed.

Lemma StronglySorted_rev (l : list cmKeywordItem) :
  StronglySorted backwards l -> StronglySorted inOrder (rev l).
Proof.
  induction l as [|x l IH]; intros Hs; simpl; [constructor|].
  apply StronglySorted_inv in Hs as [Hl Hx].
  specialize (IH Hl). clear Hl.
  assert (Hall : Forall (fun z => inOrder z x) (rev l)).
  { rewrite List.Forall_forall in *. intros z Hz. apply Hx. now apply in_rev. }
  clear Hx. induction IH as [|y r Hr IHr Hy]; simpl.
  - repeat constructor.
  - apply Forall_cons_iff in Hall as [Hyx Hall]. constructor.
    + now apply IHr.
    + apply Forall_app. split; [exact Hy|]. constructor; [exact Hyx|constructor].
Qed.

(** [sort.Slice] returns an ordered permutation of the slice. *)
Lemma sortSlice_perm kept : Permutation kept (sortSlice kept).
Proof. exact (placed_perm kept []). Qed.

Lemma sortSlice_sorted kept : StronglySorted inOrder (sortSlice kept).
Proof. apply StronglySorted_rev, placed_sorted. constructor. Qed.

Lemma truncate_firstn limit kept :
  (0 <= limit)%Z -> truncate limit kept = firstn (Z.to_nat limit) kept.
Proof.
  intros Hl. unfold truncate.
  destruct (Z.ltb_spec limit (Z.of_nat (length kept))); [reflexivity|].
  symmetry. apply firstn_all2. lia.
Qed.

Lemma effectiveLimit_pos limit : (0 < effectiveLimit limit)%Z.
Proof. unfold effectiveLimit. destruct (Z.leb_spec limit 0); lia. Qed.

Lemma keep_spec minPop it :
  keep minPop it = true
  <-> (minPop <= Popularity it)%Z /\ TrimSpace (Name it) <> "".
Proof.
  unfold keep. rewrite andb_true_iff, !negb_true_iff, Z.ltb_ge, String.eqb_neq.
  reflexivity.
Qed.

Lemma filter_keep_nonBlank minPop items :
  List.filter (keep minPop) (List.filter nonBlankName items)
  = List.filter (keep minPop) items.
Proof.
  induction items as [|it items IH]; [reflexivity|]. simpl.
  destruct (nonBlankName it) eqn:Hnb; simpl.
  - now rewrite IH.
  - rewrite IH. unfold keep. unfold nonBlankName in Hnb. rewrite Hnb.
    now rewrite andb_false_r.
Qed.

(** C7 as stated fails twice: an item with a blank name and a popularity at
    the threshold gets no row, and with a limit of zero the rows are not cut
    to zero. *)
Lemma C7_blank_name_and_zero_limit :
  ~ rows_as_claimed "plant" 2 10 "US" [stub.item " " 30; stub.item "B" 20]
      (recommendRows "plant" (effectiveLimit 2) 10 "US"
         [stub.item " " 30; stub.item "B" 20])
  /\ ~ rows_as_claimed "plant" 0 10 "US" [stub.item "B" 20]
         (recommendRows "plant" (effectiveLimit 0) 10 "US" [stub.item "B" 20]).
Proof.
  split; intros (sorted & Hperm & _ & Hrows).
  - apply (f_equal (@length _)) in Hrows.
    rewrite length_imap, length_firstn, <- (Permutation_length Hperm) in Hrows.
    vm_compute in Hrows. discriminate.
  - simpl in Hrows. vm_compute in Hrows. discriminate.
Qed.

(** C7, amended: for every list of items, limit and threshold, the rows are
    the items whose popularity is at least the threshold and whose name is
    not blank, sorted by descending popularity and then ascending
    lower-cased term, cut after sorting to the limit (a limit that is not
    positive counts as 50), each with the rank of its position, from one;
    items (A,5), (B,30), (C,20) with limit 2 and threshold 10 give B with
    rank 1 and C with rank 2. *)
Theorem C7_rows_are_the_kept_items_sorted_cut_and_ranked
    (seed : string) (limit minPop : Z) (cc : string)
    (items : list cmKeywordItem) :
  (exists sorted,
     Permutation (List.filter (keep minPop) items) sorted
     /\ StronglySorted inOrder sorted
     /\ recommendRows seed (effectiveLimit limit) minPop cc items
        = imap (recommendRow cc seed)
            (firstn (Z.to_nat (effectiveLimit limit)) sorted)
     /\ forall i row,
          recommendRows seed (effectiveLimit limit) minPop cc items !! i
          = Some row ->
          Rank row = (Z.of_nat i + 1)%Z
          /\ exists it, sorted !! i = Some it
               /\ Term row = Name it
               /\ Recommend_Popularity row = Some (Popularity it))
  /\ (forall it, keep minPop it = true
                 <-> (minPop <= Popularity it)%Z /\ TrimSpace (Name it) <> "")
  /\ effectiveLimit limit = (if (limit <=? 0)%Z then 50 else limit)%Z
  /\ map (fun row => (Term row, Rank row))
       (recommendRows "plant" (effectiveLimit 2) 10 "US"
          [stub.item "A" 5; stub.item "B" 30; stub.item "C" 20])
     = [("B", 1%Z); ("C", 2%Z)].
Proof.
  split; [|split; [|split]].
  - exists (sortSlice (List.filter (keep minPop) items)).
    split; [apply sortSlice_perm|]. split; [apply sortSlice_sorted|].
    assert (Hrows : recommendRows seed (effectiveLimit limit) minPop cc items
              = imap (recommendRow cc seed)
                  (firstn (Z.to_nat (effectiveLimit limit))
                     (sortSlice (List.filter (keep minPop) items)))).
    { unfold recommendRows. rewrite truncate_firstn; [reflexivity|].
      pose proof (effectiveLimit_pos limit). lia. }
    split; [exact Hrows|].
    intros i row Hi. rewrite Hrows, list_lookup_imap in Hi.
    destruct (firstn _ _ !! i) as [it|] eqn:Hit; [|discriminate].
    injection Hi as <-. split; [reflexivity|]. exists it.
    split; [|split; reflexivity].
    apply lookup_take_Some in Hit. tauto.
  - intros it. apply keep_spec.
  - reflexivity.
  - vm_compute. reflexivity.
Qed.

(** The second key is lower-cased past ASCII as well: of two items of one
    popularity named E-acute b and e-acute a, the second comes first. *)
Remark recommendRows_lowers_every_cased_letter :
  map Term (recommendRows "plant" 50 0 "US"
              [stub.item (EncodeRune 0xC9 +:+ "b") 10;
               stub.item (EncodeRune 0xE9 +:+ "a") 10])
  = [EncodeRune 0xE9 +:+ "a"; EncodeRune 0xC9 +:+ "b"].
Proof. vm_compute. reflexivity. Qed.

(** C10: an item whose name is empty or blank once trimmed is dropped
    before sorting, ranking and cutting, whatever its popularity and the
    threshold: the rows are those of the list without such items, no row
    carries the name of one, and no row has a blank term. *)
Theorem C10_blank_names_are_dropped_first
    (seed : string) (limit minPop : Z) (cc : string)
    (items : list cmKeywordItem) :
  recommendRows seed limit minPop cc items
  = recommendRows seed limit minPop cc (List.filter nonBlankName items)
  /\ (forall it, In it items -> TrimSpace (Name it) = "" ->
        forall row, In row (recommendRows seed limit minPop cc items) ->
          Term row <> Name it)
  /\ forall row, In row (recommendRows seed limit minPop cc items) ->
       TrimSpace (Term row) <> "".
Proof.
  assert (Hterm : forall row,
            In row (recommendRows seed limit minPop cc items) ->
            exists it, In it items /\ keep minPop it = true /\ Term row = Name it).
  { intros row Hrow. unfold recommendRows in Hrow.
    apply list_elem_of_In, list_elem_of_lookup in Hrow as [i Hi].
    rewrite list_lookup_imap in Hi.
    destruct (truncate _ _ !! i) as [it|] eqn:Hit; [|discriminate].
    injection Hi as <-. exists it.
    assert (Hin : In it (sortSlice (List.filter (keep minPop) items))).
    { apply list_elem_of_In. unfold truncate in Hit.
      destruct (_ <? _)%Z.
      - apply lookup_take_Some in Hit as [Hit _].
        eapply list_elem_of_lookup_2; eassumption.
      - eapply list_elem_of_lookup_2; eassumption. }
    apply (Permutation_in _ (Permutation_sym (sortSlice_perm _))) in Hin.
    apply filter_In in Hin as [Hin Hkeep]. auto. }
  split; [|split].
  - unfold recommendRows. now rewrite filter_keep_nonBlank.
  - intros it _ Hblank row Hrow Heq.
    destruct (Hterm row Hrow) as (it' & _ & Hkeep & Hname).
    apply keep_spec in Hkeep as [_ Hnb]. apply Hnb.
    now rewrite <- Hname, Heq.
  - intros row Hrow. destruct (Hterm row Hrow) as (it & _ & Hkeep & ->).
    now apply keep_spec in Hkeep as [_ Hnb].
Qed.

(** C10 on a list with a blank name of high popularity. *)
Lemma C10_blank_names_witness :
  map Term (recommendRows "plant" 50 0 "US"
              [stub.item "  " 99; stub.item "B" 30; stub.item "" 50])
  = ["B"].
Proof.
  rewrite (proj1 (C10_blank_names_are_dropped_first "plant" 50 0 "US"
                    [stub.item "  " 99; stub.item "B" 30; stub.item "" 50])).
  vm_compute. reflexivity.
Defined.

End Rows.

(** ** Plain text: strings of ASCII bytes *)

Section PlainText.

(** On plain ASCII (no byte past 127, no blank) a rune is a byte. *)
Lemma runes_plain s : forall fuel,
  (String.length s <= fuel)%nat -> allBytes plainByte s = true ->
  runesFuel fuel s
  = map (fun c => (byte c, String c EmptyString)) (list_ascii_of_string s).
Proof.
  induction s as [|c r IH]; intros fuel Hfuel Hs.
  - now destruct fuel.
  - destruct fuel as [|fuel]; [simpl in Hfuel; lia|].
    cbn [allBytes] in Hs. apply andb_true_iff in Hs as [Hc Hr].
    unfold plainByte in Hc. apply andb_true_iff in Hc as [Hc _].
    cbn [runesFuel DecodeRuneInString]. rewrite Hc.
    cbn [take drop list_ascii_of_string map].
    f_equal. apply IH; [simpl in Hfuel; lia|exact Hr].
Qed.

Lemma EncodeRune_lower c :
  (byte c <? 128)%N = true ->
  EncodeRune (unicode.ToLower (byte c)) = String (lowerByte c) EmptyString.
Proof.
  intros Hc. unfold lowerByte.
  assert (H : (unicode.ToLower (byte c) <? 128)%N = true).
  { apply N.ltb_lt in Hc. apply N.ltb_lt.
    unfold unicode.ToLower, unicode.MaxASCII, between.
    replace (byte c <=? 127)%N with true by (symmetry; apply N.leb_le; lia).
    destruct (65 <=? byte c)%N eqn:H1; destruct (byte c <=? 90)%N eqn:H2; simpl;
      try apply N.leb_le in H2; lia. }
  unfold EncodeRune, between.
  apply N.ltb_lt in H.
  replace (55296 <=? unicode.ToLower (byte c))%N with false
    by (symmetry; apply N.leb_gt; lia).
  replace (1114111 <? unicode.ToLower (byte c))%N with false
    by (symmetry; apply N.ltb_ge; lia).
  simpl. replace (unicode.ToLower (byte c) <? 128)%N with true
    by (symmetry; apply N.ltb_lt; lia).
  reflexivity.
Qed.

Lemma ToLower_plain s :
  allBytes plainByte s = true -> ToLower s = mapBytes lowerByte s.
Proof.
  intros Hs. unfold ToLower, Map, runes. rewrite runes_plain by (auto; lia).
  induction s as [|c r IH]; [reflexivity|].
  cbn [allBytes] in Hs. apply andb_true_iff in Hs as [Hc Hr].
  cbn [list_ascii_of_string map utf8.concat fold_right fst mapBytes].
  unfold plainByte in Hc. apply andb_true_iff in Hc as [Hc _].
  rewrite (EncodeRune_lower c Hc). cbn [String.append]. f_equal. now apply IH.
Qed.

Lemma dropWhileSpace_plain (l : list ascii) :
  forallb plainByte l = true ->
  dropWhileSpace (map (fun c => (byte c, String c EmptyString)) l)
  = map (fun c => (byte c, String c EmptyString)) l.
Proof.
  destruct l as [|c l]; [reflexivity|]. cbn [forallb map dropWhileSpace fst].
  intros H. apply andb_true_iff in H as [Hc _]. unfold plainByte in Hc.
  apply andb_true_iff in Hc as [_ Hc]. apply negb_true_iff in Hc. now rewrite Hc.
Qed.

Lemma allBytes_forallb p s : allBytes p s = forallb p (list_ascii_of_string s).
Proof. induction s as [|c r IH]; [reflexivity|]. simpl. now rewrite IH. Qed.

Lemma forallb_rev {A : Type} (p : A -> bool) l : forallb p (rev l) = forallb p l.
Proof.
  induction l as [|x l IH]; [reflexivity|]. simpl.
  rewrite forallb_app, IH. simpl. rewrite andb_true_r. apply andb_comm.
Qed.

Lemma concat_bytes s :
  utf8.concat (map snd (map (fun c => (byte c, String c EmptyString))
                          (list_ascii_of_string s))) = s.
Proof. induction s as [|c r IH]; [reflexivity|]. simpl. now rewrite IH. Qed.

Lemma TrimSpace_plain s : allBytes plainByte s = true -> TrimSpace s = s.
Proof.
  intros Hs. unfold TrimSpace, runes. rewrite runes_plain by (auto; lia).
  rewrite allBytes_forallb in Hs.
  rewrite dropWhileSpace_plain by exact Hs.
  rewrite <- map_rev, dropWhileSpace_plain by (now rewrite forallb_rev).
  rewrite <- map_rev, rev_involutive. apply concat_bytes.
Qed.

(** Lower-casing leaves a byte on its side of 128, and moves through a
    leading ASCII byte. *)
Lemma lowerByte_ascii c : (byte (lowerByte c) <? 128)%N = (byte c <? 128)%N.
Proof. destruct c as [[] [] [] [] [] [] [] []]; vm_compute; reflexivity. Qed.

Lemma ToLower_cons c s :
  (byte c <? 128)%N = true -> ToLower (String c s) = String (lowerByte c) (ToLower s).
Proof.
  intros Hc. unfold ToLower, Map, runes.
  cbn [String.length runesFuel DecodeRuneInString]. rewrite Hc.
  cbn [take drop map utf8.concat fold_right fst].
  rewrite (EncodeRune_lower c Hc). reflexivity.
Qed.

Lemma ToLower_prefix p rest :
  allBytes (fun c => (byte c <? 128)%N) (mapBytes lowerByte p) = true ->
  ToLower (p +:+ rest) = mapBytes lowerByte p +:+ ToLower rest.
Proof.
  induction p as [|c r IH]; intros Hp; [reflexivity|].
  cbn [mapBytes allBytes] in Hp. apply andb_true_iff in Hp as [Hc Hr].
  rewrite lowerByte_ascii in Hc.
  change (String c r +:+ rest) with (String c (r +:+ rest)).
  rewrite (ToLower_cons c _ Hc). cbn [mapBytes].
  change (String (lowerByte c) (mapBytes lowerByte r) +:+ ToLower rest)
    with (String (lowerByte c) (mapBytes lowerByte r +:+ ToLower rest)).
  f_equal. now apply IH.
Qed.

Lemma HasPrefix_app p rest : HasPrefix (p +:+ rest) p = true.
Proof.
  unfold HasPrefix. induction p as [|c r IH]; [now destruct rest|].
  simpl. now destruct (Ascii.ascii_dec c c).
Qed.

End PlainText.

(** ** The credential store and the headers of a request *)

Section Cookie.
Variable w : World.
Variable cmd : Flags.


(** The test reads the lower-cased text and the cut counts bytes of the
    value itself: the Kelvin sign, three bytes that lower to the letter k,
    passes the test and moves the cut. *)
Remark stripCookiePrefix_counts_bytes :
  stripCookiePrefix ("coo" +:+ EncodeRune 0x212A +:+ "ie:abc") = "e:abc".
Proof. vm_compute. reflexivity. Qed.

End Cookie.


Section Headers.

(** Canonical header keys only change the case of letters. *)
Lemma canonByte_facts upper c :
  lowerByte (http.canonByte upper c) = lowerByte c
  /\ plainByte (http.canonByte upper c) = plainByte c.
Proof.
  destruct upper; destruct c as [[] [] [] [] [] [] [] []];
    vm_compute; split; reflexivity.
Qed.

Lemma canonical_lower k : forall upper,
  mapBytes lowerByte (http.canonical upper k) = mapBytes lowerByte k
  /\ allBytes plainByte (http.canonical upper k) = allBytes plainByte k.
Proof.
  induction k as [|c r IH]; intros upper; [split; reflexivity|].
  cbn [http.canonical mapBytes allBytes].
  destruct (canonByte_facts upper c) as [-> ->].
  destruct (IH (Ascii.eqb (http.canonByte upper c) "-")) as [-> ->].
  split; reflexivity.
Qed.

(** Two keys with one canonical form are equal once trimmed and lowered,
    when that form is plain ASCII. *)
Lemma canonical_key_lower k name :
  http.allValid name = true ->
  allBytes plainByte (http.CanonicalMIMEHeaderKey name) = true ->
  http.CanonicalMIMEHeaderKey k = http.CanonicalMIMEHeaderKey name ->
  ToLower (TrimSpace k) = ToLower (TrimSpace name).
Proof.
  intros Hname Hplain Hk.
  assert (Hn : allBytes plainByte name = true
               /\ mapBytes lowerByte (http.CanonicalMIMEHeaderKey name)
                  = mapBytes lowerByte name).
  { unfold http.CanonicalMIMEHeaderKey in *. rewrite Hname in *.
    destruct (canonical_lower name true) as [H1 H2]. split; congruence. }
  destruct Hn as [Hn Hnl].
  assert (Hkk : allBytes plainByte k = true
                /\ mapBytes lowerByte k = mapBytes lowerByte name).
  { rewrite <- Hnl, <- Hk. rewrite <- Hk in Hplain.
    unfold http.CanonicalMIMEHeaderKey in *.
    destruct (http.allValid k); [|split; [exact Hplain|reflexivity]].
    destruct (canonical_lower k true) as [H1 H2]. split; congruence. }
  destruct Hkk as [Hkp Hkl].
  rewrite !TrimSpace_plain, !ToLower_plain by assumption. exact Hkl.
Qed.

Lemma withExtra_other (extra : list (string * string)) (key : string) :
  forall h : http.Header,
  (forall k v, In (k, v) extra -> http.CanonicalMIMEHeaderKey k <> key) ->
  withExtra extra h !! key = h !! key.
Proof.
  induction extra as [|[k v] extra IH]; intros h Hk; [reflexivity|].
  unfold withExtra in *. cbn [fold_left fst snd].
  rewrite IH by (intros k' v' Hin; apply (Hk k' v'); now right).
  unfold http.Set_. apply lookup_insert_ne. apply (Hk k v). now left.
Qed.

Lemma caller_sets_or_not (extra : list (string * string)) (key : string) :
  (exists k v, In (k, v) extra /\ http.CanonicalMIMEHeaderKey k = key)
  \/ ~ (exists k v, In (k, v) extra /\ http.CanonicalMIMEHeaderKey k = key).
Proof.
  induction extra as [|[k v] extra [IH|IH]].
  - right. intros (k & v & [] & _).
  - left. destruct IH as (k' & v' & Hin & Hk). exists k', v'.
    split; [now right|exact Hk].
  - destruct (string_dec (http.CanonicalMIMEHeaderKey k) key) as [Heq|Hne].
    + left. exists k, v. split; [now left|exact Heq].
    + right. intros (k' & v' & [Hin|Hin] & Hk).
      * injection Hin as -> ->. contradiction.
      * apply IH. now exists k', v'.
Qed.

(** After the caller's headers are applied, a key one of them sets holds a
    value of the caller. *)
Lemma withExtra_caller (extra : list (string * string)) (key : string) :
  forall h : http.Header,
  (exists k v, In (k, v) extra /\ http.CanonicalMIMEHeaderKey k = key) ->
  exists k v, In (k, v) extra /\ http.CanonicalMIMEHeaderKey k = key
              /\ withExtra extra h !! key = Some [v].
Proof.
  induction extra as [|[k v] extra IH]; intros h (k0 & v0 & Hin & Hkey);
    [destruct Hin|].
  unfold withExtra in *. cbn [fold_left fst snd].
  destruct (caller_sets_or_not extra key) as [Hlater|Hnone].
  - destruct (IH (http.Set_ k v h) Hlater) as (k1 & v1 & Hin1 & Hk1 & Hlook).
    exists k1, v1. split; [now right|]. split; assumption.
  - exists k, v.
    assert (Hk : http.CanonicalMIMEHeaderKey k = key).
    { destruct Hin as [Heq|Hin]; [now injection Heq as -> ->|].
      exfalso. apply Hnone. now exists k0, v0. }
    split; [now left|]. split; [exact Hk|].
    pose proof (withExtra_other extra key (http.Set_ k v h)) as Hother.
    unfold withExtra in Hother. rewrite Hother.
    + unfold http.Set_. rewrite Hk. apply lookup_insert_eq.
    + intros k' v' Hin' Heq. apply Hnone. now exists k', v'.
Qed.

Lemma fixedHeaders_cookie post cookie :
  fixedHeaders post cookie !! "Cookie" = Some [cookie].
Proof.
  unfold fixedHeaders, http.Set_.
  repeat (rewrite lookup_insert_ne by (vm_compute; discriminate)).
  change (http.CanonicalMIMEHeaderKey "Cookie") with "Cookie".
  apply lookup_insert_eq.
Qed.

Lemma withToken_other cookie extra (h : http.Header) key :
  key <> tokenHeader -> withToken cookie extra h !! key = h !! key.
Proof.
  intros Hkey. unfold withToken.
  destruct (negb _); [|reflexivity]. destruct (negb _); [|reflexivity].
  unfold http.Set_. apply lookup_insert_ne. fold tokenHeader. congruence.
Qed.

Lemma not_overridden extra :
  hasHeaderCaseInsensitive extra "X-XSRF-TOKEN-CM" = false ->
  forall k v, In (k, v) extra -> http.CanonicalMIMEHeaderKey k <> tokenHeader.
Proof.
  unfold hasHeaderCaseInsensitive. intros Hnone k v Hin Hk.
  assert (Hex : existsb
    (fun kv => (ToLower (TrimSpace (fst kv))
                =? ToLower (TrimSpace "X-XSRF-TOKEN-CM"))%string)
    extra = true).
  { apply existsb_exists. exists (k, v). split; [exact Hin|].
    apply String.eqb_eq. cbn [fst].
    apply canonical_key_lower;
      [vm_compute; reflexivity|vm_compute; reflexivity|exact Hk]. }
  congruence.
Qed.




End Headers.

(** ** The target resolver *)

Section Resolver.

(** The candidates of a URL hint, in the order they are tried. *)
Lemma hint_order (raw : string) (u : url.URL) :
  TrimSpace raw <> "" ->
  adamid.parsedPositive (strconv.ParseInt (TrimSpace raw)) = None ->
  url.Parse (adamid.withScheme (TrimSpace raw)) = Some u ->
  adamid.parseAdamIDFromAppURL raw
  = match firstPositive [adamid.parseAdamIDFromText (url.Path u);
                         adamid.parseAdamIDFromText (url.RawPath u);
                         queryID u;
                         adamid.parseAdamIDFromText raw] with
    | Some id => inl id
    | None => inr (errorString ("could not find adam-id in "
                                +:+ strconv.Quote raw))
    end.
Proof.
  intros Hs Hbare Hu. unfold adamid.parseAdamIDFromAppURL.
  apply String.eqb_neq in Hs. rewrite Hs, Hbare, Hu. cbn [firstPositive].
  destruct (0 <? adamid.parseAdamIDFromText (url.Path u))%Z; [reflexivity|].
  destruct (0 <? adamid.parseAdamIDFromText (url.RawPath u))%Z; [reflexivity|].
  unfold queryID.
  destruct (String.eqb_spec (TrimSpace (url.QueryGet u "id")) "") as [->|Hq].
  - cbn. destruct (0 <? adamid.parseAdamIDFromText raw)%Z; reflexivity.
  - cbn [negb].
    destruct (strconv.ParseInt (TrimSpace (url.QueryGet u "id"))) as [n|]; cbn.
    + destruct (0 <? n)%Z; [reflexivity|].
      destruct (0 <? adamid.parseAdamIDFromText raw)%Z; reflexivity.
    + destruct (0 <? adamid.parseAdamIDFromText raw)%Z; reflexivity.
Qed.

Variable w : World.
Variable cmd : Flags.
Variable countries : list string.


End Resolver.


(** ** The retry orchestrator *)

(** Unfolds the monad of the event log, and nothing else. *)
Ltac step :=
  cbv beta iota zeta delta [mbind M_bind env.bind mret M_ret env.ret Fprintln Fprint emit].

Section Counting.
Lemma count_app p (a b : list event) : count p (a ++ b) = (count p a + count p b)%nat.
Proof. unfold count. now rewrite List.filter_app, List.length_app. Qed.

Lemma count_nil p : count p [] = 0%nat.
Proof. reflexivity. Qed.

Lemma data_is_not_find e : isData e = true -> isFind e = false /\ isRefresh e = false.
Proof.
  destruct e as [t|req|o]; try discriminate. cbn [isData isFind isRefresh].
  intros H. split; [|reflexivity]. apply orb_true_iff in H as [H|H];
    apply String.eqb_eq in H; rewrite H; vm_compute; reflexivity.
Qed.

Lemma find_is_not_data e : isFind e = true -> isData e = false /\ isRefresh e = false.
Proof.
  destruct e as [t|req|o]; try discriminate. cbn [isData isFind isRefresh].
  intros H. apply String.eqb_eq in H. rewrite H. split; vm_compute; reflexivity.
Qed.
End Counting.

Ltac split_all := repeat match goal with |- _ /\ _ => split end.

(** Brings the counts of a concatenated log to sums. *)
Ltac tally :=
  unfold refreshes, finds, dataCalls in *;
  repeat rewrite count_app in *; cbn [count List.filter length isRefresh isFind isData] in *.

(** What each step of the loop body adds to the log, for every world. *)

Section Loop.
Variable w : World.
Variable cmd : Flags.
Variable extraHeaders : list (string * string).
Variable autoCookie : bool.
Variable call : string -> Z -> string -> M (list cmKeywordItem + error).
Hypothesis Hcall : forall c a cc log, exists req,
  snd (call c a cc log) = log ++ [Do req] /\ isData (Do req) = true.

Lemma one_event p e : count p [e] = if p e then 1%nat else 0%nat.
Proof. unfold count. simpl. now destruct (p e). Qed.

Lemma call_spec c a cc log : exists r d,
  call c a cc log = (r, log ++ d)
  /\ refreshes d = 0%nat /\ finds d = 0%nat /\ dataCalls d = 1%nat.
Proof.
  destruct (Hcall c a cc log) as (req & Hlog & Hdata).
  destruct (data_is_not_find _ Hdata) as [Hf Hr].
  exists (fst (call c a cc log)), [Do req]. split.
  - rewrite <- Hlog. now destruct (call c a cc log).
  - unfold refreshes, finds, dataCalls. rewrite !one_event, Hdata, Hf, Hr. auto.
Qed.

Lemma refresh_spec log : exists r d,
  refreshCMCookieFromFlags w cmd log = (r, log ++ d)
  /\ refreshes d = 1%nat /\ finds d = 0%nat /\ dataCalls d = 0%nat.
Proof.
  unfold refreshCMCookieFromFlags. eexists _, [_]. split; [reflexivity|].
  split; [|split]; reflexivity.
Qed.

Lemma discover_spec cookie log : exists r d,
  discover w extraHeaders cookie log = (r, log ++ d)
  /\ refreshes d = 0%nat /\ finds d = 1%nat /\ dataCalls d = 0%nat.
Proof.
  unfold discover, cmDiscoverOwnedAdamID, cmCampaignsFind, cmGetJSON, send. step.
  match goal with |- context [checkStatus ?r] => destruct (checkStatus r) as [b|err] end.
  - destruct (parseCMCampaignData "campaigns/find" b) as [campaigns|err].
    + destruct (firstOwned ∅ campaigns) as [[id name]|].
      * destruct (negb _); step; eexists _, _; rewrite <- ?app_assoc;
          (split; [reflexivity|split; [|split]; vm_compute; reflexivity]).
      * eexists _, [_]. split; [reflexivity|split; [|split]; vm_compute; reflexivity].
    + eexists _, [_]. split; [reflexivity|split; [|split]; vm_compute; reflexivity].
  - eexists _, [_]. split; [reflexivity|split; [|split]; vm_compute; reflexivity].
Qed.

Lemma discoverWithRefresh_spec cookie log : exists r d,
  discoverOwnedAdamIDWithRefresh w cmd extraHeaders autoCookie cookie log = (r, log ++ d)
  /\ (refreshes d <= 1)%nat /\ (1 <= finds d)%nat /\ (finds d <= 1 + refreshes d)%nat
  /\ dataCalls d = 0%nat
  /\ (autoCookie = false -> refreshes d = 0%nat).
Proof.
  unfold discoverOwnedAdamIDWithRefresh. step.
  destruct (discover_spec cookie log) as (r & d & -> & Hr & Hf & Hd).
  destruct (isErr r && autoCookie && isCMRefreshError (errOf r)) eqn:Hretry.
  - assert (Hauto : autoCookie = true).
    { apply andb_true_iff in Hretry as [H _]. now apply andb_true_iff in H as [_ H]. }
    destruct (refresh_spec ((log ++ d) ++ [Stderr
      ("Cookie appears expired while discovering owned apps. Launching browser to refresh session..." +:+ nl)]))
      as (c & d2 & -> & Hr2 & Hf2 & Hd2).
    destruct c as [cookie'|err].
    + destruct (discover_spec cookie' (((log ++ d) ++ [Stderr
        ("Cookie appears expired while discovering owned apps. Launching browser to refresh session..." +:+ nl)]) ++ d2))
        as (r3 & d3 & -> & Hr3 & Hf3 & Hd3).
      eexists _, (d ++ [_] ++ d2 ++ d3). rewrite <- !app_assoc.
      split; [reflexivity|]. tally. repeat split; try lia. congruence.
    + eexists _, (d ++ [_] ++ d2). rewrite <- !app_assoc.
      split; [reflexivity|]. tally. repeat split; try lia. congruence.
  - eexists _, d. split; [reflexivity|]. repeat split; lia.
Qed.

Lemma retryAfterRefresh_spec v cc r log : exists x d,
  retryAfterRefresh w cmd autoCookie call v cc r log = (x, log ++ d)
  /\ (refreshes d <= 1)%nat /\ finds d = 0%nat /\ (dataCalls d <= refreshes d)%nat
  /\ (autoCookie = false -> refreshes d = 0%nat)
  /\ match x with
     | inl (_, v') => attemptedOwnedAdamFallback v' = attemptedOwnedAdamFallback v
     | inr _ => True
     end.
Proof.
  unfold retryAfterRefresh. step.
  destruct (isErr r && autoCookie && isCMRefreshError (errOf r)) eqn:Hretry.
  - assert (Hauto : autoCookie = true).
    { apply andb_true_iff in Hretry as [H _]. now apply andb_true_iff in H as [_ H]. }
    destruct (refresh_spec (log ++ [Stderr
      ("Cookie appears expired. Launching browser to refresh session..." +:+ nl)]))
      as (c & d2 & -> & Hr2 & Hf2 & Hd2).
    destruct c as [cookie'|err].
    + cbn [cookie adamID].
      destruct (call_spec cookie' (adamID v) cc ((log ++ [Stderr
        ("Cookie appears expired. Launching browser to refresh session..." +:+ nl)]) ++ d2))
        as (r3 & d3 & -> & Hr3 & Hf3 & Hd3).
      eexists _, ([_] ++ d2 ++ d3). rewrite <- !app_assoc.
      split; [reflexivity|]. tally. repeat split; try lia. congruence.
    + eexists _, ([_] ++ d2). rewrite <- !app_assoc.
      split; [reflexivity|]. tally. repeat split; try lia. congruence.
  - eexists _, []. rewrite app_nil_r. split; [reflexivity|].
    repeat split; try (vm_compute; lia). 
Qed.

Lemma retryWithOwnedAdamID_spec v cc r log : exists x d,
  retryWithOwnedAdamID w cmd extraHeaders autoCookie call v cc r log = (x, log ++ d)
  /\ (attemptedOwnedAdamFallback v = true -> d = [] /\ x = inl (r, v))
  /\ (refreshes d <= 1)%nat /\ (finds d <= 1 + refreshes d)%nat /\ (dataCalls d <= 1)%nat
  /\ (autoCookie = false -> refreshes d = 0%nat)
  /\ match x with
     | inl (_, v') =>
       (d = [] /\ v' = v)
       \/ (attemptedOwnedAdamFallback v = false /\ attemptedOwnedAdamFallback v' = true)
     | inr _ => attemptedOwnedAdamFallback v = false
     end.
Proof.
  unfold retryWithOwnedAdamID. step.
  destruct (isErr r && negb (attemptedOwnedAdamFallback v)
            && isCMNoUserOwnedAppsError (errOf r)) eqn:Hretry.
  - assert (Hflag : attemptedOwnedAdamFallback v = false).
    { apply andb_true_iff in Hretry as [H _]. apply andb_true_iff in H as [_ H].
      now apply negb_true_iff in H. }
    destruct (discoverWithRefresh_spec (cookie v) log)
      as (dr & d1 & -> & Hr1 & Hf1 & Hfr1 & Hd1 & Ha1).
    destruct dr as [[ownedAdamID updatedCookie]|err].
    + set (switch := (0 <? ownedAdamID)%Z && negb (ownedAdamID =? adamID v)%Z).
      cbn [cookie adamID].
      destruct switch.
      * destruct (call_spec updatedCookie ownedAdamID cc ((log ++ d1) ++ [Stderr
          ("adam-id " +:+ strconv.FormatInt (adamID v)
           +:+ " is not owned by this account; switching to owned adam-id "
           +:+ strconv.FormatInt ownedAdamID +:+ " and retrying..." +:+ nl)]))
          as (r3 & d3 & -> & Hr3 & Hf3 & Hd3).
        eexists _, (d1 ++ [_] ++ d3). rewrite <- !app_assoc.
        split; [reflexivity|]. tally.
        repeat split; try lia; try congruence; try (right; split; [assumption|reflexivity]).
        intros H. specialize (Ha1 H). lia.
      * destruct (call_spec updatedCookie (adamID v) cc (log ++ d1))
          as (r3 & d3 & -> & Hr3 & Hf3 & Hd3).
        eexists _, (d1 ++ d3). rewrite <- !app_assoc.
        split; [reflexivity|]. tally.
        repeat split; try lia; try congruence; try (right; split; [assumption|reflexivity]).
        intros H. specialize (Ha1 H). lia.
    + eexists _, d1. split; [reflexivity|]. tally.
      repeat split; try lia; try congruence; try assumption.
  - eexists _, []. rewrite app_nil_r. split; [reflexivity|].
    repeat split; try (vm_compute; lia). now left.
Qed.

Lemma fetch_spec v cc log : exists x d,
  fetch w cmd extraHeaders autoCookie call v cc log = (x, log ++ d)
  /\ (attemptedOwnedAdamFallback v = true -> finds d = 0%nat)
  /\ match x with
     | inl (_, v') =>
       (refreshes d + fallbackLeft v' <= 1 + fallbackLeft v)%nat
       /\ (finds d + 2 * fallbackLeft v' <= 2 * fallbackLeft v)%nat
       /\ (dataCalls d + fallbackLeft v' <= 2 + fallbackLeft v)%nat
       /\ (autoCookie = false ->
           refreshes d = 0%nat /\ (finds d + fallbackLeft v' <= fallbackLeft v)%nat)
     | inr _ =>
       (refreshes d <= 1 + fallbackLeft v)%nat
       /\ (finds d <= 2 * fallbackLeft v)%nat
       /\ (dataCalls d <= 2 + fallbackLeft v)%nat
       /\ (autoCookie = false ->
           refreshes d = 0%nat /\ (finds d <= fallbackLeft v)%nat)
     end.
Proof.
  unfold fetch. step.
  destruct (call_spec (cookie v) (adamID v) cc log) as (r & d0 & -> & Hr0 & Hf0 & Hd0).
  destruct (retryAfterRefresh_spec v cc r (log ++ d0))
    as (x & d1 & -> & Hr1 & Hf1 & Hd1 & Ha1 & Hx).
  destruct x as [[r1 v1]|err].
  - destruct (retryWithOwnedAdamID_spec v1 cc r1 ((log ++ d0) ++ d1))
      as (y & d2 & -> & Hflag & Hr2 & Hf2 & Hd2 & Ha2 & Hy).
    exists (match y with
            | inl (inl items, v2) => inl (items, v2)
            | inl (inr err, _) => inr err
            | inr err => inr err
            end), (d0 ++ d1 ++ d2).
    rewrite <- !app_assoc. split; [now destruct y as [[[items|err] v2]|err]|].
    assert (Hb : fallbackLeft v1 = fallbackLeft v) by (unfold fallbackLeft; now rewrite Hx).
    split.
    + intros Hv. rewrite <- Hx in Hv. destruct (Hflag Hv) as [-> _]. tally. lia.
    + assert (Hleft : forall v2,
                (d2 = [] /\ v2 = v1)
                \/ (attemptedOwnedAdamFallback v1 = false
                    /\ attemptedOwnedAdamFallback v2 = true) ->
                (d2 = [] /\ fallbackLeft v2 = fallbackLeft v)
                \/ (fallbackLeft v = 1 /\ fallbackLeft v2 = 0)%nat).
      { intros v2 [[-> ->]|[H1 H2]]; [left; now split|right].
        rewrite <- Hb. unfold fallbackLeft. now rewrite H1, H2. }
      destruct y as [[[items|err] v2]|err].
      * destruct (Hleft v2 Hy) as [[-> Hv]|[Hv Hv2]]; tally; split_all; try lia.
        all: intros H; specialize (Ha1 H); specialize (Ha2 H); tally; split_all; lia.
      * destruct (Hleft v2 Hy) as [[-> Hv]|[Hv Hv2]]; tally; split_all; try lia.
        all: intros H; specialize (Ha1 H); specialize (Ha2 H); tally; split_all; lia.
      * assert (Hv : fallbackLeft v = 1%nat)
          by (rewrite <- Hb; unfold fallbackLeft; now rewrite Hy).
        tally. split_all; try lia.
        all: intros H; specialize (Ha1 H); specialize (Ha2 H); split_all; lia.
  - exists (inr err), (d0 ++ d1). rewrite <- !app_assoc. split; [reflexivity|].
    tally. split; [lia|].
    split_all; try lia. all: intros H; specialize (Ha1 H); split_all; lia.
Qed.

Lemma forCountries_spec {Row : Type} (rows : string -> list cmKeywordItem -> list Row)
    (countries : list string) : forall v out log, exists x d,
  forCountries w cmd extraHeaders autoCookie call rows countries v out log = (x, log ++ d)
  /\ (refreshes d <= length countries + fallbackLeft v)%nat
  /\ (finds d <= 2 * fallbackLeft v)%nat
  /\ (dataCalls d <= 2 * length countries + fallbackLeft v)%nat
  /\ (autoCookie = false -> refreshes d = 0%nat /\ (finds d <= fallbackLeft v)%nat).
Proof.
  induction countries as [|cc rest IH]; intros v out log.
  - exists (inl out), []. rewrite app_nil_r. split; [reflexivity|].
    split_all; try (vm_compute; lia); intros _; split; vm_compute; lia.
  - cbn [forCountries]. step.
    destruct (fetch_spec v cc log) as (x & d & -> & _ & Hx).
    destruct x as [[items v']|err].
    + destruct (IH v' (out ++ rows cc items) (log ++ d))
        as (y & d' & -> & Hr & Hf & Hd & Ha).
      exists y, (d ++ d'). rewrite <- app_assoc. split; [reflexivity|].
      destruct Hx as (Hr0 & Hf0 & Hd0 & Ha0). tally. cbn [length].
      split_all; try lia. all: intros H; specialize (Ha H); specialize (Ha0 H); split_all; lia.
    + exists (inr err), d. split; [reflexivity|].
      destruct Hx as (Hr0 & Hf0 & Hd0 & Ha0). cbn [length].
      split_all; try lia. all: intros H; specialize (Ha0 H); split_all; lia.
Qed.

Lemma call_result c a cc log : exists req,
  call c a cc log = (fst (call c a cc log), log ++ [Do req]) /\ isData (Do req) = true.
Proof.
  destruct (Hcall c a cc log) as (req & Hlog & Hdata). exists req.
  split; [|exact Hdata]. rewrite <- Hlog. now destruct (call c a cc log).
Qed.

(** Against a client that always answers CredentialExpired. *)
Lemma always_expired :
  autoCookie = true ->
  (forall c a cc log, isCMRefreshError (errOf (fst (call c a cc log))) = true) ->
  (forall log, isErr (fst (refreshCMCookieFromFlags w cmd log)) = false) ->
  forall {Row : Type} (rows : string -> list cmKeywordItem -> list Row)
         cc rest v out log,
  exists e first line opts second,
    forCountries w cmd extraHeaders autoCookie call rows (cc :: rest) v out log
    = (inr e, log ++ [Do first; Stderr line; Refresh opts; Do second])
    /\ isData (Do first) = true /\ isData (Do second) = true
    /\ isCMRefreshError (Some e) = true.
Proof.
  intros -> Hexp Hrefresh Row rows cc rest v out log.
  cbn [forCountries]. unfold fetch, retryAfterRefresh. step.
  destruct (call_result (cookie v) (adamID v) cc log) as (first & -> & Hfirst).
  pose proof (Hexp (cookie v) (adamID v) cc log) as H1.
  destruct (fst (call (cookie v) (adamID v) cc log)) as [items|e1]; [discriminate|].
  cbn [isErr errOf andb] in *. rewrite H1.
  set (line := "Cookie appears expired. Launching browser to refresh session..." +:+ nl).
  pose proof (Hrefresh ((log ++ [Do first]) ++ [Stderr line])) as H2.
  unfold refreshCMCookieFromFlags in *. cbn [fst] in H2.
  match goal with |- context [refreshCMCookieInteractively w ?l ?o] =>
    set (opts := o) in *; destruct (refreshCMCookieInteractively w l opts) as [cookie'|err]
  end; [|cbn [isErr] in H2; discriminate]. cbn [cookie adamID].
  match goal with |- context [call cookie' (adamID v) cc ?l] =>
    destruct (call_result cookie' (adamID v) cc l) as (second & -> & Hsecond);
    pose proof (Hexp cookie' (adamID v) cc l) as H3
  end.
  destruct (fst (call cookie' (adamID v) cc _)) as [items|e2]; [discriminate|].
  cbn [errOf] in H3. unfold retryWithOwnedAdamID. step. cbn [isErr errOf].
  rewrite (classifications_exclusive _ H3), andb_false_r.
  exists e2, first, line, opts, second. rewrite <- !app_assoc. cbn [app].
  repeat split; assumption.
Qed.

(** Against a client that always answers TargetNotOwned while the
    campaign list names an owned adam-id. *)
Lemma never_owned :
  (forall c a cc log, isCMNoUserOwnedAppsError (errOf (fst (call c a cc log))) = true) ->
  (forall c log, isErr (fst (cmDiscoverOwnedAdamID w c extraHeaders log)) = false) ->
  forall {Row : Type} (rows : string -> list cmKeywordItem -> list Row)
         cc rest v out log,
  attemptedOwnedAdamFallback v = false ->
  exists e first find second d,
    forCountries w cmd extraHeaders autoCookie call rows (cc :: rest) v out log
    = (inr e, log ++ d)
    /\ requests d = [Do first; Do find; Do second]
    /\ isData (Do first) = true /\ isFind (Do find) = true /\ isData (Do second) = true
    /\ refreshes d = 0%nat
    /\ isCMNoUserOwnedAppsError (Some e) = true.
Proof.
  intros Hnot Hdisc Row rows cc rest v out log Hflag.
  cbn [forCountries]. unfold fetch, retryAfterRefresh. step.
  destruct (call_result (cookie v) (adamID v) cc log) as (first & -> & Hfirst).
  pose proof (Hnot (cookie v) (adamID v) cc log) as H1.
  destruct (fst (call (cookie v) (adamID v) cc log)) as [items|e1]; [discriminate|].
  cbn [isErr errOf andb] in *.
  replace (isCMRefreshError (Some e1)) with false.
  2:{ destruct (isCMRefreshError (Some e1)) eqn:H; [|reflexivity].
      apply classifications_exclusive in H. congruence. }
  rewrite andb_false_r. unfold retryWithOwnedAdamID. step.
  cbn [isErr errOf andb]. rewrite Hflag, H1. cbn [negb andb].
  unfold discoverOwnedAdamIDWithRefresh, discover. step.
  pose proof (Hdisc (cookie v) (log ++ [Do first])) as H2.
  assert (Hfind : exists find, cmDiscoverOwnedAdamID w (cookie v) extraHeaders (log ++ [Do first])
            = (fst (cmDiscoverOwnedAdamID w (cookie v) extraHeaders (log ++ [Do first])),
               (log ++ [Do first]) ++ [Do find]) /\ isFind (Do find) = true).
  { unfold cmDiscoverOwnedAdamID, cmCampaignsFind, cmGetJSON, send. step.
    eexists. split; reflexivity. }
  destruct Hfind as (find & -> & Hfind).
  destruct (fst (cmDiscoverOwnedAdamID w (cookie v) extraHeaders (log ++ [Do first])))
    as [[ownedAdamID campaignName]|err]; [|discriminate].
  destruct (find_is_not_data _ Hfind) as [Hfd Hfr].
  destruct (data_is_not_find _ Hfirst) as [Hff Hfr1].
  assert (Hlast : forall cookie' id l, exists e second,
            call cookie' id cc l = (inr e, l ++ [Do second])
            /\ isData (Do second) = true /\ isCMNoUserOwnedAppsError (Some e) = true).
  { intros cookie' id l. destruct (call_result cookie' id cc l) as (second & Heq & Hsecond).
    pose proof (Hnot cookie' id cc l) as H3.
    destruct (fst (call cookie' id cc l)) as [items|e]; [discriminate|].
    now exists e, second. }
  destruct (negb (TrimSpace campaignName =? "")%string); step; cbn [isErr andb];
    destruct ((0 <? ownedAdamID)%Z && negb (ownedAdamID =? adamID v)%Z); step;
    cbn [cookie adamID];
    match goal with |- context [call ?c ?a cc ?l] =>
      destruct (Hlast c a l) as (e & second & -> & Hsecond & He)
    end;
    destruct (data_is_not_find _ Hsecond) as [Hsf Hsr];
    exists e, first, find, second; eexists; rewrite <- !app_assoc; cbn [app];
    (split; [reflexivity|]);
    unfold requests, refreshes, count; cbn [List.filter isCall isRefresh length];
    repeat split; assumption.
Qed.

(** Against a client that always answers TargetNotOwned and a discovery
    that fails: the run ends with the discovery, the call is not repeated. *)
Lemma discovery_fails :
  (forall c a cc log, isCMNoUserOwnedAppsError (errOf (fst (call c a cc log))) = true) ->
  (forall c log,
     isErr (fst (discoverOwnedAdamIDWithRefresh w cmd extraHeaders autoCookie c log))
     = true) ->
  forall {Row : Type} (rows : string -> list cmKeywordItem -> list Row)
         cc rest v out log,
  attemptedOwnedAdamFallback v = false ->
  exists e first d,
    forCountries w cmd extraHeaders autoCookie call rows (cc :: rest) v out log
    = (inr e, log ++ Do first :: d)
    /\ isData (Do first) = true
    /\ dataCalls d = 0%nat
    /\ (1 <= finds d <= 2)%nat.
Proof.
  intros Hnot Hdisc Row rows cc rest v out log Hflag.
  cbn [forCountries]. unfold fetch, retryAfterRefresh. step.
  destruct (call_result (cookie v) (adamID v) cc log) as (first & -> & Hfirst).
  pose proof (Hnot (cookie v) (adamID v) cc log) as H1.
  destruct (fst (call (cookie v) (adamID v) cc log)) as [items|e1]; [discriminate|].
  cbn [isErr errOf andb] in *.
  replace (isCMRefreshError (Some e1)) with false.
  2:{ destruct (isCMRefreshError (Some e1)) eqn:H; [|reflexivity].
      apply classifications_exclusive in H. congruence. }
  rewrite andb_false_r. unfold retryWithOwnedAdamID. step.
  cbn [isErr errOf andb]. rewrite Hflag, H1. cbn [negb andb].
  pose proof (Hdisc (cookie v) (log ++ [Do first])) as H2.
  destruct (discoverWithRefresh_spec (cookie v) (log ++ [Do first]))
    as (dr & d & Heq & Hr & Hf1 & Hf2 & Hd & _).
  rewrite Heq in *. cbn [fst] in H2.
  destruct dr as [[ownedAdamID updatedCookie]|err]; [discriminate|].
  eexists _, first, d. rewrite <- app_assoc. cbn [app].
  split; [reflexivity|]. repeat split; try assumption; lia.
Qed.
End Loop.

(** Each of the two call closures sends one keyword request. *)
Lemma keywordCall_logs w extraHeaders call :
  keywordCall w extraHeaders call ->
  forall c a cc log, exists req,
    snd (call c a cc log) = log ++ [Do req] /\ isData (Do req) = true.
Proof.
  intros [[keywords ->]|[seed ->]] c a cc log;
    unfold callPopularities, callRecommendations, cmKeywordPopularities,
      cmKeywordRecommendation, cmPostJSON, send; step;
    eexists; split; reflexivity.
Qed.

Section Orchestrator.
Variable w : World.
Variable cmd : Flags.
Variable extraHeaders : list (string * string).
Variable autoCookie : bool.
Variable call : string -> Z -> string -> M (list cmKeywordItem + error).




End Orchestrator.


